(** * Date-sharded article ingestion: a shallow embedding

    The development follows the four notebooks of the repository:
    - [mongo.ipynb]: [CLUSTERS], [KEYWORDS], [get_client_for_date],
      [insert_articles];
    - the S3 loader notebook ([gdelt_loader]): [BATCH_SIZE],
      [list_gz_files_for_day], [read_gz_file_from_s3],
      [process_articles_for_day];
    - [db.ipynb]: [get_client_for_date] on [datetime] objects,
      [check_storage_limit], [load_articles_for_date_range];
    - the FastAPI notebook: [get_collection_for_date].

    Python values are modelled as follows.  A [str] is a Rocq [string]
    holding the UTF-8 encoding of the text, so [s.encode('utf-8')] is the
    string itself.  A decoded JSON value is a [json] tree.  A naive
    [datetime] is the number of microseconds since 0001-01-01T00:00:00.
    Everything outside the process (S3, the MongoDB clusters, the console,
    the log file, [time.sleep]) lives in a [World] record that the
    effectful functions thread through, with the two limits of the
    interpreter that [json.loads] can reach. *)

From Stdlib Require Import ZArith QArith Bool List String Ascii Lia Sorted.
From stdpp Require Import gmap strings list.
Import ListNotations.

Local Open Scope string_scope.
Local Open Scope Z_scope.
Local Set Warnings "-register-all".

(** ** Bytes and text *)

Module Text.

Definition byte_of (c : ascii) : Z := Z.of_N (N_of_ascii c).
Definition char_of (b : Z) : ascii := ascii_of_N (Z.to_N b).

Definition bytes_of (s : string) : list Z := map byte_of (list_ascii_of_string s).
Definition text_of (bs : list Z) : string := string_of_list_ascii (map char_of bs).

(** [str.lower()] on the ASCII letters.  Python also lowers letters outside
    ASCII; of those only U+0130 and U+212A lower to text with an ASCII
    letter in it ("i" followed by U+0307, and "k"), and neither can
    complete one of the [KEYWORDS], so the relevance gate computed with
    this function is the one Python computes. *)
Definition lower_char (c : ascii) : ascii :=
  let b := byte_of c in
  if (65 <=? b) && (b <=? 90) then char_of (b + 32) else c.

Fixpoint lower (s : string) : string :=
  match s with
  | EmptyString => EmptyString
  | String c s' => String (lower_char c) (lower s')
  end.

(** [k in s] on strings. *)
Fixpoint startswith (p s : string) : bool :=
  match p, s with
  | EmptyString, _ => true
  | String a p', String b s' => if Ascii.eqb a b then startswith p' s' else false
  | String _ _, EmptyString => false
  end.

Fixpoint contains (k s : string) : bool :=
  startswith k s ||
  match s with
  | EmptyString => false
  | String _ s' => contains k s'
  end.

Definition endswith (suffix s : string) : bool :=
  let n := String.length s in
  let m := String.length suffix in
  (m <=? n)%nat && String.eqb (substring (n - m) m s) suffix.

End Text.

(** ** [hashlib.md5] (RFC 1321) *)

Module MD5.

Definition mask32 : Z := 0xFFFFFFFF.
Definition add32 (a b : Z) : Z := Z.land (a + b) mask32.
Definition not32 (a : Z) : Z := Z.lxor a mask32.
Definition rotl32 (x c : Z) : Z :=
  Z.land (Z.lor (Z.shiftl x c) (Z.shiftr x (32 - c))) mask32.

Definition K : list Z :=
  [ 0xd76aa478; 0xe8c7b756; 0x242070db; 0xc1bdceee;
    0xf57c0faf; 0x4787c62a; 0xa8304613; 0xfd469501;
    0x698098d8; 0x8b44f7af; 0xffff5bb1; 0x895cd7be;
    0x6b901122; 0xfd987193; 0xa679438e; 0x49b40821;
    0xf61e2562; 0xc040b340; 0x265e5a51; 0xe9b6c7aa;
    0xd62f105d; 0x02441453; 0xd8a1e681; 0xe7d3fbc8;
    0x21e1cde6; 0xc33707d6; 0xf4d50d87; 0x455a14ed;
    0xa9e3e905; 0xfcefa3f8; 0x676f02d9; 0x8d2a4c8a;
    0xfffa3942; 0x8771f681; 0x6d9d6122; 0xfde5380c;
    0xa4beea44; 0x4bdecfa9; 0xf6bb4b60; 0xbebfbc70;
    0x289b7ec6; 0xeaa127fa; 0xd4ef3085; 0x04881d05;
    0xd9d4d039; 0xe6db99e5; 0x1fa27cf8; 0xc4ac5665;
    0xf4292244; 0x432aff97; 0xab9423a7; 0xfc93a039;
    0x655b59c3; 0x8f0ccc92; 0xffeff47d; 0x85845dd1;
    0x6fa87e4f; 0xfe2ce6e0; 0xa3014314; 0x4e0811a1;
    0xf7537e82; 0xbd3af235; 0x2ad7d2bb; 0xeb86d391 ].

Definition SHIFT : list Z :=
  [ 7; 12; 17; 22; 7; 12; 17; 22; 7; 12; 17; 22; 7; 12; 17; 22;
    5; 9; 14; 20; 5; 9; 14; 20; 5; 9; 14; 20; 5; 9; 14; 20;
    4; 11; 16; 23; 4; 11; 16; 23; 4; 11; 16; 23; 4; 11; 16; 23;
    6; 10; 15; 21; 6; 10; 15; 21; 6; 10; 15; 21; 6; 10; 15; 21 ].

Definition word_le (b0 b1 b2 b3 : Z) : Z :=
  b0 + Z.shiftl b1 8 + Z.shiftl b2 16 + Z.shiftl b3 24.

Fixpoint words_of (n : nat) (bs : list Z) : list Z :=
  match n, bs with
  | S n', b0 :: b1 :: b2 :: b3 :: rest => word_le b0 b1 b2 b3 :: words_of n' rest
  | _, _ => []
  end.

Definition bytes_le (n : nat) (x : Z) : list Z :=
  map (fun i => Z.land (Z.shiftr x (8 * Z.of_nat i)) 255) (seq 0 n).

(** The message, one [0x80] byte, zeros up to 56 modulo 64, and the bit
    length on eight bytes. *)
Definition pad (msg : list Z) : list Z :=
  let len := Z.of_nat (length msg) in
  let zeros := Z.to_nat ((55 - len) mod 64) in
  msg ++ [128] ++ repeat 0 zeros ++ bytes_le 8 (Z.land (8 * len) 0xFFFFFFFFFFFFFFFF).

Record state := { sA : Z; sB : Z; sC : Z; sD : Z }.

Definition round (M : list Z) (st : state) (i : nat) : state :=
  let '{| sA := a; sB := b; sC := c; sD := d |} := st in
  let iz := Z.of_nat i in
  let '(f, g) :=
    if iz <? 16 then (Z.lor (Z.land b c) (Z.land (not32 b) d), iz)
    else if iz <? 32 then (Z.lor (Z.land d b) (Z.land (not32 d) c), (5 * iz + 1) mod 16)
    else if iz <? 48 then (Z.lxor (Z.lxor b c) d, (3 * iz + 5) mod 16)
    else (Z.lxor c (Z.lor b (not32 d)), (7 * iz) mod 16) in
  let f' := add32 (add32 (add32 f a) (nth i K 0)) (nth (Z.to_nat g) M 0) in
  {| sA := d; sB := add32 b (rotl32 f' (nth i SHIFT 0)); sC := b; sD := c |}.

Definition block (st : state) (chunk : list Z) : state :=
  let M := words_of 16 chunk in
  let st' := fold_left (round M) (seq 0 64) st in
  {| sA := add32 (sA st) (sA st'); sB := add32 (sB st) (sB st');
     sC := add32 (sC st) (sC st'); sD := add32 (sD st) (sD st') |}.

Fixpoint blocks (n : nat) (st : state) (bs : list Z) : state :=
  match n with
  | O => st
  | S n' => blocks n' (block st (firstn 64 bs)) (skipn 64 bs)
  end.

Definition init : state :=
  {| sA := 0x67452301; sB := 0xefcdab89; sC := 0x98badcfe; sD := 0x10325476 |}.

Definition digest (msg : list Z) : list Z :=
  let p := pad msg in
  let st := blocks (length p / 64) init p in
  bytes_le 4 (sA st) ++ bytes_le 4 (sB st) ++ bytes_le 4 (sC st) ++ bytes_le 4 (sD st).

Definition hex_digit (n : Z) : ascii :=
  Text.char_of (if n <? 10 then 48 + n else 87 + n).

Fixpoint hex (bs : list Z) : string :=
  match bs with
  | [] => EmptyString
  | b :: bs' => String (hex_digit (Z.shiftr b 4)) (String (hex_digit (Z.land b 15)) (hex bs'))
  end.

(** [hashlib.md5(data).hexdigest()] *)
Definition hexdigest (data : string) : string := hex (digest (Text.bytes_of data)).

End MD5.

(** ** Decoded JSON values and [json.loads] *)

Module Json.

(** What [json.loads] returns: [None], [bool], [int], [float], [str], [list]
    and [dict].  A [dict] keeps its keys in insertion order, one entry per
    key.  A [float] is kept as the decimal it was read from, sign,
    digits and power of ten. *)
Inductive pyfloat :=
| Finite (negative : bool) (digits : Z) (exp10 : Z)
| Inf (negative : bool)
| NaN.

Inductive json :=
| JNull
| JBool (b : bool)
| JInt (n : Z)
| JFloat (f : pyfloat)
| JStr (s : string)
| JArr (items : list json)
| JObj (fields : list (string * json)).

Fixpoint assoc (k : string) (fields : list (string * json)) : option json :=
  match fields with
  | [] => None
  | (k', v) :: rest => if String.eqb k k' then Some v else assoc k rest
  end.

(** [d[k] = v]: an existing key keeps its place. *)
Fixpoint dict_set (k : string) (v : json) (fields : list (string * json))
  : list (string * json) :=
  match fields with
  | [] => [(k, v)]
  | (k', v') :: rest =>
      if String.eqb k k' then (k, v) :: rest else (k', v') :: dict_set k v rest
  end.

(** The two limits of the interpreter that [json.loads] can reach.
    [int_max_str_digits] is [sys.get_int_max_str_digits()]: 4300 unless the
    interpreter was started otherwise, 0 for no limit.  [recursion_left] is
    the number of containers, one inside the other, that the scanner can
    enter where [json.loads] is called: what the recursion limit leaves
    above the frames of the caller. *)
Record Limits := { int_max_str_digits : nat; recursion_left : nat }.

Inductive Limit :=
| IntMaxStrDigits
| RecursionLimit.

(** How a scan ends: with what it read, with [json.JSONDecodeError], or
    with the exception raised when a limit is reached ([ValueError] from
    [int], [RecursionError] from the scanner). *)
Inductive Scan (A : Type) : Type :=
| Decoded (a : A)
| DecodeError
| Exceeds (l : Limit).
Arguments Decoded {A} a.
Arguments DecodeError {A}.
Arguments Exceeds {A} l.

Definition is_ws (c : ascii) : bool :=
  let b := Text.byte_of c in (b =? 32) || (b =? 9) || (b =? 10) || (b =? 13).

Fixpoint skip_ws (s : string) : string :=
  match s with
  | String c r => if is_ws c then skip_ws r else s
  | EmptyString => s
  end.

Definition is_digit (c : ascii) : bool :=
  let b := Text.byte_of c in (48 <=? b) && (b <=? 57).

Fixpoint span_digits (s : string) : string * string :=
  match s with
  | String c r =>
      if is_digit c then let '(d, r') := span_digits r in (String c d, r') else (EmptyString, s)
  | EmptyString => (EmptyString, s)
  end.

Fixpoint drop (n : nat) (s : string) : string :=
  match n, s with
  | S n', String _ r => drop n' r
  | _, _ => s
  end.

Definition decimal (digits : string) : Z :=
  fold_left (fun acc c => 10 * acc + (Text.byte_of c - 48)) (list_ascii_of_string digits) 0.

Definition hex_value (c : ascii) : option Z :=
  let b := Text.byte_of c in
  if (48 <=? b) && (b <=? 57) then Some (b - 48)
  else if (97 <=? b) && (b <=? 102) then Some (b - 87)
  else if (65 <=? b) && (b <=? 70) then Some (b - 55)
  else None.

(** Four hexadecimal digits of a [\uXXXX] escape. *)
Definition hex4 (s : string) : option (Z * string) :=
  match s with
  | String a (String b (String c (String d r))) =>
      match hex_value a, hex_value b, hex_value c, hex_value d with
      | Some x, Some y, Some z, Some w => Some (4096 * x + 256 * y + 16 * z + w, r)
      | _, _, _, _ => None
      end
  | _ => None
  end.

(** The UTF-8 bytes of a code point.  A lone surrogate, which a Python
    [str] can hold, is written on three bytes as well; [encode_utf8] below
    refuses it as Python does. *)
Definition utf8_of (cp : Z) : string :=
  Text.text_of
    (if cp <? 0x80 then [cp]
     else if cp <? 0x800 then [192 + Z.shiftr cp 6; 128 + Z.land cp 63]
     else if cp <? 0x10000 then
       [224 + Z.shiftr cp 12; 128 + Z.land (Z.shiftr cp 6) 63; 128 + Z.land cp 63]
     else
       [240 + Z.shiftr cp 18; 128 + Z.land (Z.shiftr cp 12) 63;
        128 + Z.land (Z.shiftr cp 6) 63; 128 + Z.land cp 63]).

Definition high_surrogate (c : Z) : bool := (0xD800 <=? c) && (c <=? 0xDBFF).
Definition low_surrogate (c : Z) : bool := (0xDC00 <=? c) && (c <=? 0xDFFF).

(** The body of a string literal, after the opening quote, in strict mode:
    control characters are refused, escapes are decoded, a surrogate pair
    written as two escapes becomes one code point. *)
Fixpoint scanstring (fuel : nat) (s : string) : option (string * string) :=
  match fuel with
  | O => None
  | S fuel' =>
      match s with
      | EmptyString => None
      | String c r =>
          let b := Text.byte_of c in
          if b =? 34 then Some (EmptyString, r)
          else if b =? 92 then
            match r with
            | EmptyString => None
            | String e r' =>
                let simple (ch : Z) :=
                  match scanstring fuel' r' with
                  | Some (body, rest) => Some (String (Text.char_of ch) body, rest)
                  | None => None
                  end in
                let eb := Text.byte_of e in
                if eb =? 34 then simple 34
                else if eb =? 92 then simple 92
                else if eb =? 47 then simple 47
                else if eb =? 98 then simple 8
                else if eb =? 102 then simple 12
                else if eb =? 110 then simple 10
                else if eb =? 114 then simple 13
                else if eb =? 116 then simple 9
                else if eb =? 117 then
                  match hex4 r' with
                  | None => None
                  | Some (c1, r1) =>
                      let single :=
                        match scanstring fuel' r1 with
                        | Some (body, rest) => Some (utf8_of c1 ++ body, rest)
                        | None => None
                        end in
                      if high_surrogate c1 && Text.startswith "\u" r1 then
                        match hex4 (drop 2 r1) with
                        | None => None
                        | Some (c2, r2) =>
                            if low_surrogate c2 then
                              match scanstring fuel' r2 with
                              | Some (body, rest) =>
                                  Some (utf8_of (0x10000 + Z.shiftl (c1 - 0xD800) 10 + (c2 - 0xDC00))
                                          ++ body, rest)
                              | None => None
                              end
                            else single
                        end
                      else single
                  end
                else None
            end
          else if b <=? 31 then None
          else
            match scanstring fuel' r with
            | Some (body, rest) => Some (String c body, rest)
            | None => None
            end
      end
  end.

(** [int(literal)] on decimal digits: a literal of more than 640 digits is
    refused when a limit is set and the literal is longer. *)
Definition int_refused (max_digits : nat) (literal : string) : bool :=
  let n := String.length literal in
  (640 <? n)%nat && (0 <? max_digits)%nat && (max_digits <? n)%nat.

(** A number: an optional minus sign, then a single zero or a run of digits
    that does not start with zero; then, if present, a fraction (a dot and
    at least one digit) and an exponent (e or E, an optional sign, at least
    one digit).  Without fraction and exponent it is an [int], made by
    [int] from the sign and the digits; otherwise a [float]. *)
Definition match_number (max_digits : nat) (s : string) : Scan (json * string) :=
  let '(neg, s1) := if Text.startswith "-" s then (true, drop 1 s) else (false, s) in
  let '(ds, s2) := span_digits s1 in
  let int_part :=
    match ds with
    | EmptyString => None
    | String d _ => if Text.byte_of d =? 48 then Some ("0", drop 1 s1) else Some (ds, s2)
    end in
  match int_part with
  | None => DecodeError
  | Some (ip, s3) =>
      let '(frac, s4) :=
        match s3 with
        | String dot r =>
            if Text.byte_of dot =? 46 then
              match span_digits r with
              | (EmptyString, _) => (EmptyString, s3)
              | (fd, r') => (fd, r')
              end
            else (EmptyString, s3)
        | EmptyString => (EmptyString, s3)
        end in
      let '(expo, s5) :=
        match s4 with
        | String e r =>
            if (Text.byte_of e =? 101) || (Text.byte_of e =? 69) then
              let '(minus, r1) :=
                match r with
                | String sg r' =>
                    if Text.byte_of sg =? 45 then (true, r')
                    else if Text.byte_of sg =? 43 then (false, r')
                    else (false, r)
                | EmptyString => (false, r)
                end in
              match span_digits r1 with
              | (EmptyString, _) => (None, s4)
              | (ed, r2) => (Some (if minus then - decimal ed else decimal ed), r2)
              end
            else (None, s4)
        | EmptyString => (None, s4)
        end in
      match frac, expo with
      | EmptyString, None =>
          if int_refused max_digits ip then Exceeds IntMaxStrDigits
          else Decoded (JInt (if neg then - decimal ip else decimal ip), s5)
      | _, _ =>
          Decoded (JFloat (Finite neg (decimal (ip ++ frac))
                             (default 0 expo - Z.of_nat (String.length frac))), s5)
      end
  end.

Definition expect (c : Z) (s : string) : option string :=
  match s with
  | String x r => if Text.byte_of x =? c then Some r else None
  | EmptyString => None
  end.

(** The scanner.  [depth] is the number of containers it can still enter:
    an opening brace or bracket met with none left raises [RecursionError]
    before anything of the container is read. *)
Fixpoint scan_once (max_digits fuel depth : nat) (s : string) : Scan (json * string) :=
  match fuel with
  | O => DecodeError
  | S fuel' =>
      match s with
      | EmptyString => DecodeError
      | String c r =>
          let b := Text.byte_of c in
          if b =? 34 then
            match scanstring (S (String.length r)) r with
            | Some (body, rest) => Decoded (JStr body, rest)
            | None => DecodeError
            end
          else if b =? 123 then
            match depth with
            | O => Exceeds RecursionLimit
            | S depth' =>
                let r1 := skip_ws r in
                match expect 125 r1 with
                | Some rest => Decoded (JObj [], rest)
                | None => members max_digits fuel' depth' r1 []
                end
            end
          else if b =? 91 then
            match depth with
            | O => Exceeds RecursionLimit
            | S depth' =>
                let r1 := skip_ws r in
                match expect 93 r1 with
                | Some rest => Decoded (JArr [], rest)
                | None => elements max_digits fuel' depth' r1 []
                end
            end
          else if Text.startswith "null" s then Decoded (JNull, drop 4 s)
          else if Text.startswith "true" s then Decoded (JBool true, drop 4 s)
          else if Text.startswith "false" s then Decoded (JBool false, drop 5 s)
          else if Text.startswith "NaN" s then Decoded (JFloat NaN, drop 3 s)
          else if Text.startswith "Infinity" s then Decoded (JFloat (Inf false), drop 8 s)
          else if Text.startswith "-Infinity" s then Decoded (JFloat (Inf true), drop 9 s)
          else match_number max_digits s
      end
  end
with members (max_digits fuel depth : nat) (s : string) (acc : list (string * json))
  : Scan (json * string) :=
  match fuel with
  | O => DecodeError
  | S fuel' =>
      match expect 34 s with
      | None => DecodeError
      | Some r =>
          match scanstring (S (String.length r)) r with
          | None => DecodeError
          | Some (key, r1) =>
              match expect 58 (skip_ws r1) with
              | None => DecodeError
              | Some r2 =>
                  match scan_once max_digits fuel' depth (skip_ws r2) with
                  | DecodeError => DecodeError
                  | Exceeds l => Exceeds l
                  | Decoded (v, r3) =>
                      let acc' := dict_set key v acc in
                      let r4 := skip_ws r3 in
                      match expect 125 r4 with
                      | Some rest => Decoded (JObj acc', rest)
                      | None =>
                          match expect 44 r4 with
                          | Some r5 => members max_digits fuel' depth (skip_ws r5) acc'
                          | None => DecodeError
                          end
                      end
                  end
              end
          end
      end
  end
with elements (max_digits fuel depth : nat) (s : string) (acc : list json)
  : Scan (json * string) :=
  match fuel with
  | O => DecodeError
  | S fuel' =>
      match scan_once max_digits fuel' depth s with
      | DecodeError => DecodeError
      | Exceeds l => Exceeds l
      | Decoded (v, r) =>
          let r1 := skip_ws r in
          match expect 93 r1 with
          | Some rest => Decoded (JArr (acc ++ [v]), rest)
          | None =>
              match expect 44 r1 with
              | Some r2 => elements max_digits fuel' depth (skip_ws r2) (acc ++ [v])
              | None => DecodeError
              end
          end
      end
  end.

(** [json.loads(s)] under the limits [lim]: the value, or
    [json.JSONDecodeError] ([DecodeError]), or the exception of the limit
    that is reached first, in the order of the text. *)
Definition loads (lim : Limits) (s : string) : Scan json :=
  let s0 := skip_ws s in
  match scan_once (int_max_str_digits lim) (2 * S (String.length s0)) (recursion_left lim) s0
  with
  | Decoded (v, rest) =>
      match skip_ws rest with
      | EmptyString => Decoded v
      | String _ _ => DecodeError
      end
  | DecodeError => DecodeError
  | Exceeds l => Exceeds l
  end.

(** [float(lit) == 0.0]: the decimal rounds to zero when it is at most
    half the least positive double, 2^-1075. *)
Definition float_is_zero (f : pyfloat) : bool :=
  match f with
  | Finite _ m e => m * 2 ^ 1075 * 10 ^ Z.max e 0 <=? 10 ^ Z.max (- e) 0
  | Inf _ | NaN => false
  end.

(** [bool(v)] *)
Definition truthy (v : json) : bool :=
  match v with
  | JNull => false
  | JBool b => b
  | JInt n => negb (n =? 0)
  | JFloat f => negb (float_is_zero f)
  | JStr s => negb (String.eqb s "")
  | JArr items => match items with [] => false | _ => true end
  | JObj fields => match fields with [] => false | _ => true end
  end.

(** [a or b] *)
Definition py_or (a b : json) : json := if truthy a then a else b.

End Json.

Export Json.

(** ** [bytes.decode("utf-8", errors="replace")], [str.strip()] and the
    lines of a binary stream *)

Module Codec.

Definition continuation (b : Z) : bool := (0x80 <=? b) && (b <=? 0xBF).

(** U+FFFD *)
Definition replacement : string := Text.text_of [239; 191; 189].

(** The range of the second byte after the lead byte [b0] of a sequence
    of three or four bytes. *)
Definition second_ok (b0 b1 : Z) : bool :=
  let lo := if b0 =? 0xE0 then 0xA0 else if b0 =? 0xF0 then 0x90 else 0x80 in
  let hi := if b0 =? 0xED then 0x9F else if b0 =? 0xF4 then 0x8F else 0xBF in
  (lo <=? b1) && (b1 <=? hi).

(** Well-formed sequences are copied; every maximal ill-formed run (a byte
    that cannot start a sequence, or the well-formed start of a sequence
    that is cut short) becomes one U+FFFD.  The decoder never fails. *)
Fixpoint decode_replace (s : string) : string :=
  match s with
  | EmptyString => EmptyString
  | String c0 r0 =>
      let b0 := Text.byte_of c0 in
      if b0 <? 0x80 then String c0 (decode_replace r0)
      else if (0xC2 <=? b0) && (b0 <=? 0xDF) then
        match r0 with
        | String c1 r1 =>
            if continuation (Text.byte_of c1)
            then String c0 (String c1 (decode_replace r1))
            else replacement ++ decode_replace r0
        | EmptyString => replacement
        end
      else if (0xE0 <=? b0) && (b0 <=? 0xEF) then
        match r0 with
        | String c1 r1 =>
            if second_ok b0 (Text.byte_of c1) then
              match r1 with
              | String c2 r2 =>
                  if continuation (Text.byte_of c2)
                  then String c0 (String c1 (String c2 (decode_replace r2)))
                  else replacement ++ decode_replace r1
              | EmptyString => replacement
              end
            else replacement ++ decode_replace r0
        | EmptyString => replacement
        end
      else if (0xF0 <=? b0) && (b0 <=? 0xF4) then
        match r0 with
        | String c1 r1 =>
            if second_ok b0 (Text.byte_of c1) then
              match r1 with
              | String c2 r2 =>
                  if continuation (Text.byte_of c2) then
                    match r2 with
                    | String c3 r3 =>
                        if continuation (Text.byte_of c3)
                        then String c0 (String c1 (String c2 (String c3 (decode_replace r3))))
                        else replacement ++ decode_replace r2
                    | EmptyString => replacement
                    end
                  else replacement ++ decode_replace r1
              | EmptyString => replacement
              end
            else replacement ++ decode_replace r0
        | EmptyString => replacement
        end
      else replacement ++ decode_replace r0
  end.


(** The characters [str.strip()] removes (those with [str.isspace()]),
    as UTF-8: U+0009..U+000D, U+001C..U+0020, U+0085, U+00A0, U+1680,
    U+2000..U+200A, U+2028, U+2029, U+202F, U+205F, U+3000. *)
Definition WHITESPACE : list string :=
  map Text.text_of
    [ [9]; [10]; [11]; [12]; [13]; [28]; [29]; [30]; [31]; [32];
      [194; 133]; [194; 160]; [225; 154; 128];
      [226; 128; 128]; [226; 128; 129]; [226; 128; 130]; [226; 128; 131];
      [226; 128; 132]; [226; 128; 133]; [226; 128; 134]; [226; 128; 135];
      [226; 128; 136]; [226; 128; 137]; [226; 128; 138];
      [226; 128; 168]; [226; 128; 169]; [226; 128; 175]; [226; 129; 159];
      [227; 128; 128] ].

Definition reverse (s : string) : string :=
  string_of_list_ascii (rev (list_ascii_of_string s)).

Fixpoint lstrip_with (ws : list string) (fuel : nat) (s : string) : string :=
  match fuel with
  | O => s
  | S fuel' =>
      match find (fun w => Text.startswith w s) ws with
      | Some w => lstrip_with ws fuel' (Json.drop (String.length w) s)
      | None => s
      end
  end.

Definition lstrip (s : string) : string := lstrip_with WHITESPACE (String.length s) s.

Definition rstrip (s : string) : string :=
  reverse (lstrip_with (map reverse WHITESPACE) (String.length s) (reverse s)).

Definition strip (s : string) : string := rstrip (lstrip s).

(** Iterating a binary file: the stream is cut after each line feed, which
    stays at the end of its line. *)
Fixpoint readlines (s : string) : list string :=
  match s with
  | EmptyString => []
  | String c r =>
      if Text.byte_of c =? 10 then String c EmptyString :: readlines r
      else
        match readlines r with
        | [] => [String c EmptyString]
        | l :: ls => String c l :: ls
        end
  end.

(** Does the text hold a lone surrogate (three bytes from 0xED 0xA0)? *)
Fixpoint has_surrogate (s : string) : bool :=
  match s with
  | String c0 ((String c1 _) as r) =>
      ((Text.byte_of c0 =? 0xED) && (0xA0 <=? Text.byte_of c1)) || has_surrogate r
  | _ => false
  end.

End Codec.

(** ** Naive [datetime] values *)

Module Datetime.

(** Microseconds since 0001-01-01T00:00:00.  Naive datetimes compare as
    these numbers do. *)
Definition datetime : Type := Z.

Definition DAY : Z := 86400 * 1000000.

Definition is_leap (year : Z) : bool :=
  (year mod 4 =? 0) && (negb (year mod 100 =? 0) || (year mod 400 =? 0)).

Definition days_before_year (year : Z) : Z :=
  let y := year - 1 in y * 365 + y / 4 - y / 100 + y / 400.

Definition DAYS_IN_MONTH : list Z := [-1; 31; 28; 31; 30; 31; 30; 31; 31; 30; 31; 30; 31].
Definition DAYS_BEFORE_MONTH : list Z :=
  [-1; 0; 31; 59; 90; 120; 151; 181; 212; 243; 273; 304; 334].

Definition days_in_month (year month : Z) : Z :=
  if (month =? 2) && is_leap year then 29 else nth (Z.to_nat month) DAYS_IN_MONTH 0.

Definition days_before_month (year month : Z) : Z :=
  nth (Z.to_nat month) DAYS_BEFORE_MONTH 0 + (if (2 <? month) && is_leap year then 1 else 0).

(** [date.toordinal()]: 0001-01-01 is day 1. *)
Definition ymd2ord (year month day : Z) : Z :=
  days_before_year year + days_before_month year month + day.

Definition DI400Y : Z := days_before_year 401.
Definition DI100Y : Z := days_before_year 101.
Definition DI4Y : Z := days_before_year 5.

(** [date.fromordinal(n)] as year, month, day. *)
Definition ord2ymd (n : Z) : Z * Z * Z :=
  let n := n - 1 in
  let n400 := n / DI400Y in
  let n := n mod DI400Y in
  let year := n400 * 400 + 1 in
  let n100 := n / DI100Y in
  let n := n mod DI100Y in
  let n4 := n / DI4Y in
  let n := n mod DI4Y in
  let n1 := n / 365 in
  let n := n mod 365 in
  let year := year + n100 * 100 + n4 * 4 + n1 in
  if (n1 =? 4) || (n100 =? 4) then (year - 1, 12, 31)
  else
    let leapyear := (n1 =? 3) && (negb (n4 =? 24) || (n100 =? 3)) in
    let month := Z.shiftr (n + 50) 5 in
    let preceding :=
      nth (Z.to_nat month) DAYS_BEFORE_MONTH 0 + (if (2 <? month) && leapyear then 1 else 0) in
    let '(month, preceding) :=
      if n <? preceding then
        (month - 1,
         preceding - (nth (Z.to_nat (month - 1)) DAYS_IN_MONTH 0
                      + (if (month - 1 =? 2) && leapyear then 1 else 0)))
      else (month, preceding) in
    (year, month, n - preceding + 1).

(** [datetime(year, month, day, hour, minute, second)]; [None] is the
    [ValueError] of a field out of range. *)
Definition make (year month day hour minute second : Z) : option datetime :=
  if (1 <=? year) && (year <=? 9999) && (1 <=? month) && (month <=? 12)
     && (1 <=? day) && (day <=? days_in_month year month)
     && (0 <=? hour) && (hour <=? 23) && (0 <=? minute) && (minute <=? 59)
     && (0 <=? second) && (second <=? 59)
  then Some (((ymd2ord year month day - 1) * 86400 + hour * 3600 + minute * 60 + second)
             * 1000000)
  else None.

(** [datetime.max] is 9999-12-31T23:59:59.999999. *)
Definition MAX : datetime := ymd2ord 9999 12 31 * DAY - 1.

(** [t + timedelta(days=n)]; [None] is [OverflowError]. *)
Definition add_days (t : datetime) (n : Z) : option datetime :=
  let t' := t + n * DAY in
  if (0 <=? t') && (t' <=? MAX) then Some t' else None.

Definition toordinal (t : datetime) : Z := t / DAY + 1.

Definition digit_char (d : Z) : ascii := Text.char_of (48 + d).

Fixpoint decimal_digits (fuel : nat) (n : Z) (acc : string) : string :=
  match fuel with
  | O => acc
  | S fuel' =>
      let acc' := String (digit_char (n mod 10)) acc in
      if n / 10 =? 0 then acc' else decimal_digits fuel' (n / 10) acc'
  end.

(** [str(n)] for a natural number. *)
Definition str_int (n : Z) : string := decimal_digits (S (Z.to_nat (Z.log2 n))) n "".

Definition two_digits (n : Z) : string :=
  String (digit_char (n / 10)) (String (digit_char (n mod 10)) "").

(** [t.strftime("%Y%m%d")]; the C library prints the year without padding. *)
Definition strftime_Ymd (t : datetime) : string :=
  let '(y, m, d) := ord2ymd (toordinal t) in
  str_int y ++ two_digits m ++ two_digits d.

(** *** [datetime.strptime]

    The directives are the regular expressions of [_strptime]: [%Y] is four
    digits, the others one or two digits within the directive's range
    ([%d] also a space and a digit).  Each is followed by a literal that is
    not a digit, so trying the alternatives in order needs no backtracking.
    Letters of the format match in either case.  Only ASCII digits are
    recognised. *)

Definition digit (s : string) : option (Z * string) :=
  match s with
  | String c r => if Json.is_digit c then Some (Text.byte_of c - 48, r) else None
  | EmptyString => None
  end.

Definition field (two : Z -> Z -> bool) (one : Z -> bool) (s : string)
  : option (Z * string) :=
  match digit s with
  | None => None
  | Some (d1, r1) =>
      match digit r1 with
      | Some (d2, r2) =>
          if two d1 d2 then Some (10 * d1 + d2, r2)
          else if one d1 then Some (d1, r1) else None
      | None => if one d1 then Some (d1, r1) else None
      end
  end.

Definition directive_Y (s : string) : option (Z * string) :=
  match digit s with
  | Some (a, r1) =>
      match digit r1 with
      | Some (b, r2) =>
          match digit r2 with
          | Some (c, r3) =>
              match digit r3 with
              | Some (d, r4) => Some (1000 * a + 100 * b + 10 * c + d, r4)
              | None => None
              end
          | None => None
          end
      | None => None
      end
  | None => None
  end.

Definition directive_m : string -> option (Z * string) :=
  field (fun a b => ((a =? 1) && (b <=? 2)) || ((a =? 0) && (1 <=? b))) (fun a => 1 <=? a).

Definition directive_d (s : string) : option (Z * string) :=
  match field (fun a b => ((a =? 3) && (b <=? 1)) || ((1 <=? a) && (a <=? 2))
                          || ((a =? 0) && (1 <=? b)))
              (fun a => 1 <=? a) s with
  | Some r => Some r
  | None =>
      match Json.expect 32 s with
      | Some r1 =>
          match digit r1 with
          | Some (d, r2) => if 1 <=? d then Some (d, r2) else None
          | None => None
          end
      | None => None
      end
  end.

Definition directive_H : string -> option (Z * string) :=
  field (fun a b => ((a =? 2) && (b <=? 3)) || (a <=? 1)) (fun _ => true).

Definition directive_M : string -> option (Z * string) :=
  field (fun a _ => a <=? 5) (fun _ => true).

Definition directive_S : string -> option (Z * string) :=
  field (fun a b => ((a =? 6) && (b <=? 1)) || (a <=? 5)) (fun _ => true).

Definition literal (c : ascii) (s : string) : option string :=
  match s with
  | String x r => if Ascii.eqb (Text.lower_char x) (Text.lower_char c) then Some r else None
  | EmptyString => None
  end.

(** [datetime.strptime(s, "%Y-%m-%d")]; [None] is [ValueError]. *)
Definition strptime_date (s : string) : option datetime :=
  '(y, s) ← directive_Y s;
  s ← literal "-" s;
  '(m, s) ← directive_m s;
  s ← literal "-" s;
  '(d, s) ← directive_d s;
  match s with
  | EmptyString => make y m d 0 0 0
  | String _ _ => None
  end.

(** [datetime.strptime(s, "%Y-%m-%dT%H:%M:%SZ")]; [None] is [ValueError]. *)
Definition strptime_iso (s : string) : option datetime :=
  '(y, s) ← directive_Y s;
  s ← literal "-" s;
  '(m, s) ← directive_m s;
  s ← literal "-" s;
  '(d, s) ← directive_d s;
  s ← literal "T" s;
  '(hh, s) ← directive_H s;
  s ← literal ":" s;
  '(mm, s) ← directive_M s;
  s ← literal ":" s;
  '(ss, s) ← directive_S s;
  s ← literal "Z" s;
  match s with
  | EmptyString => make y m d hh mm ss
  | String _ _ => None
  end.

End Datetime.

Export Datetime.

(** ** The process and its environment *)

(** The exceptions the modelled code can let escape. *)
Inductive exn :=
| AttributeError
| TypeError
| ValueError
| KeyError
| OverflowError
| UnicodeEncodeError
| RecursionError
| ClientError.

Inductive Result (A : Type) : Type :=
| Ok (a : A)
| Raise (e : exn).
Arguments Ok {A} a.
Arguments Raise {A} e.

Definition rbind {A B : Type} (r : Result A) (k : A -> Result B) : Result B :=
  match r with
  | Ok a => k a
  | Raise e => Raise e
  end.

Notation "'let?' x ':=' r 'in' k" := (rbind r (fun x => k))
  (at level 10, x pattern, r at level 100, k at level 200).

Definition or_raise {A : Type} (e : exn) (o : option A) : Result A :=
  match o with
  | Some a => Ok a
  | None => Raise e
  end.

(** The document [insert_articles] builds for an article. *)
Record Doc := {
  _id : string;
  date : json;
  title : json;
  url : json;
  lang : json;
  docembed : json
}.

(** [client[db][name]] *)
Record MongoClient := { client_uri : string }.
Record Collection := { coll_client : MongoClient; coll_db : string; coll_name : string }.

(** What the driver answers to [insert_many(documents, ordered=False)]. *)
Record WriteError := { index : Z; code : Z }.

Inductive InsertManyOutcome :=
| InsertManyResult (inserted_ids : list string)
| ServerSelectionTimeoutError
| BulkWriteError (nInserted : Z) (writeErrors : list WriteError).

Definition DUPLICATE_KEY : Z := 11000.

Inductive Message :=
| SkippingCorruptedLine (key : string)
| ConnectionTimeout (retries_left : Z)
| AllRetriesFailed
| ProcessingFile (key : string)
| Processing (date_str : string)
| Finished (date_str : string) (inserted duplicates : Z)
| StorageUsed (storage_mb : Q)
| ApproachingLimit.

(** What the process does to the outside, in order. *)
Inductive Event :=
| Print (msg : Message)
| Sleep (seconds : Z)
| Connect (uri : string)
| InsertMany (coll : Collection) (documents : list Doc)
| Dbstats (uri : string)
| Close (uri : string)
| LogLine (date_str : string) (inserted duplicates : Z).

(** The outside:
    - [s3 bucket]: the objects of a bucket, key and decompressed content,
      in the order S3 lists them (ascending keys);
    - [mongo]: the documents held by each collection (given by URI,
      database and collection name), by [_id];
    - [write_error d]: the error, other than a duplicate key, with which the
      server rejects document [d], if any;
    - [faults]: for the coming [insert_many] calls, whether server selection
      times out;
    - [storageSize uri d]: the [storageSize] that [dbstats] reports on the
      cluster when asked after day [d] is processed;
    - [limits]: the limits of the interpreter where the reader calls
      [json.loads];
    - [out]: the events so far. *)
Record World := {
  s3 : string -> list (string * string);
  mongo : gmap (string * string * string) (gmap string Doc);
  write_error : Doc -> option Z;
  faults : list bool;
  storageSize : string -> datetime -> Z;
  limits : Json.Limits;
  out : list Event
}.

Definition set_out (o : list Event) (w : World) : World :=
  {| s3 := s3 w; mongo := mongo w; write_error := write_error w; faults := faults w;
     storageSize := storageSize w; limits := limits w; out := o |}.

Definition set_faults (f : list bool) (w : World) : World :=
  {| s3 := s3 w; mongo := mongo w; write_error := write_error w; faults := f;
     storageSize := storageSize w; limits := limits w; out := out w |}.

Definition set_mongo (m : gmap (string * string * string) (gmap string Doc)) (w : World)
  : World :=
  {| s3 := s3 w; mongo := m; write_error := write_error w; faults := faults w;
     storageSize := storageSize w; limits := limits w; out := out w |}.

(** Effectful code: a state and exception monad over [World]. *)
Definition M (A : Type) : Type := World -> Result A * World.

Definition ret {A : Type} (a : A) : M A := fun w => (Ok a, w).

Definition raise {A : Type} (e : exn) : M A := fun w => (Raise e, w).

Definition bind {A B : Type} (m : M A) (k : A -> M B) : M B :=
  fun w =>
    match m w with
    | (Ok a, w') => k a w'
    | (Raise e, w') => (Raise e, w')
    end.

Definition lift {A : Type} (r : Result A) : M A := fun w => (r, w).

Definition emit (e : Event) : M unit := fun w => (Ok tt, set_out (out w ++ [e]) w).

Notation "'let*' x ':=' m 'in' k" := (bind m (fun x => k))
  (at level 10, x pattern, m at level 100, k at level 200).
Notation "m ';;' k" := (bind m (fun _ => k))
  (at level 100, k at level 200, right associativity).

Definition print (msg : Message) : M unit := emit (Print msg).
Definition sleep (seconds : Z) : M unit := emit (Sleep seconds).

(** [os.getenv(name)]: a cluster's URI is the value of an environment
    variable; it is identified here by the variable's name. *)
Definition getenv (name : string) : string := name.

(** An entry of the [CLUSTERS] dictionary. *)
Record Cluster := { uri : string; start_date : string; end_date : string }.

Fixpoint lookup_cluster (name : string) (clusters : list (string * Cluster)) : option Cluster :=
  match clusters with
  | [] => None
  | (n, c) :: rest => if String.eqb name n then Some c else lookup_cluster name rest
  end.

(** The loop of both [get_client_for_date] functions over the items of the
    dictionary, in insertion order: the first cluster with
    [start <= date_obj <= end], if any. *)
Fixpoint first_cluster_covering (clusters : list (string * Cluster)) (date_obj : datetime)
  : Result (option Cluster) :=
  match clusters with
  | [] => Ok None
  | (_, cluster) :: rest =>
      let? start := or_raise ValueError (strptime_iso (start_date cluster)) in
      let? end_ := or_raise ValueError (strptime_iso (end_date cluster)) in
      if (start <=? date_obj) && (date_obj <=? end_) then Ok (Some cluster)
      else first_cluster_covering rest date_obj
  end.

(** The loop followed by the default, [CLUSTERS["cluster1"]]. *)
Definition cluster_for_date (clusters : list (string * Cluster)) (date_obj : datetime)
  : Result Cluster :=
  let? found := first_cluster_covering clusters date_obj in
  match found with
  | Some cluster => Ok cluster
  | None => or_raise KeyError (lookup_cluster "cluster1" clusters)
  end.

(** [MongoClient(uri)] *)
Definition new_client (u : string) : M MongoClient :=
  emit (Connect u) ;; ret {| client_uri := u |}.

(** ** The document store *)

Definition coll_key (c : Collection) : string * string * string :=
  (client_uri (coll_client c), coll_db c, coll_name c).

Definition held_by (w : World) (c : Collection) : gmap string Doc :=
  default ∅ (mongo w !! coll_key c).

(** An unordered bulk insert tries every document, in order: a document the
    server refuses for a reason of its own, or whose [_id] is already in the
    collection (from before, or from earlier in the same batch), gives a
    write error and the others are inserted. *)
Fixpoint bulk_write (reject : Doc -> option Z) (held : gmap string Doc) (i : Z)
    (docs : list Doc) : gmap string Doc * list string * list WriteError :=
  match docs with
  | [] => (held, [], [])
  | d :: rest =>
      match reject d with
      | Some c =>
          let '(held', inserted, errors) := bulk_write reject held (i + 1) rest in
          (held', inserted, {| index := i; code := c |} :: errors)
      | None =>
          match held !! _id d with
          | Some _ =>
              let '(held', inserted, errors) := bulk_write reject held (i + 1) rest in
              (held', inserted, {| index := i; code := DUPLICATE_KEY |} :: errors)
          | None =>
              let '(held', inserted, errors) :=
                bulk_write reject (<[_id d := d]> held) (i + 1) rest in
              (held', _id d :: inserted, errors)
          end
      end
  end.

(** [collection.insert_many(documents, ordered=False)]: the result, or the
    exception it raises, as an outcome. *)
Definition insert_many (coll : Collection) (documents : list Doc)
  : World -> InsertManyOutcome * World :=
  fun w =>
    let w := set_out (out w ++ [InsertMany coll documents]) w in
    match faults w with
    | true :: later => (ServerSelectionTimeoutError, set_faults later w)
    | _ =>
        let w := set_faults (tail (faults w)) w in
        let '(held', inserted, errors) :=
          bulk_write (write_error w) (held_by w coll) 0 documents in
        let w := set_mongo (<[coll_key coll := held']> (mongo w)) w in
        (match errors with
         | [] => InsertManyResult inserted
         | _ :: _ => BulkWriteError (Z.of_nat (length inserted)) errors
         end, w)
    end.

(** ** [mongo.ipynb] *)

Module Mongo.

Definition CLUSTERS : list (string * Cluster) :=
  [ ("cluster1", {| uri := getenv "MONGO_ATLAS_URI_1";
                    start_date := "2024-01-01T00:00:00Z";
                    end_date := "2024-03-01T23:59:59Z" |});
    ("cluster2", {| uri := getenv "MONGO_ATLAS_URI_2";
                    start_date := "2024-03-02T00:00:00Z";
                    end_date := "2024-04-26T23:59:59Z" |});
    ("cluster3", {| uri := getenv "MONGO_ATLAS_URI_3";
                    start_date := "2024-04-27T00:00:00Z";
                    end_date := "2024-06-30T23:59:59Z" |}) ].

Definition KEYWORDS : list string := ["tesla"; "apple"; "google"; "nvidia"; "microsoft"].

(** [datetime.strptime(x, "%Y-%m-%dT%H:%M:%SZ")] on any value. *)
Definition strptime (x : json) : Result datetime :=
  match x with
  | JStr s => or_raise ValueError (strptime_iso s)
  | _ => Raise TypeError
  end.

Definition get_client_for_date (date_str : json) : M MongoClient :=
  let* date_obj := lift (strptime date_str) in
  let* cluster := lift (cluster_for_date CLUSTERS date_obj) in
  new_client (uri cluster).

(** [article.get(key, default)] *)
Definition get (article : json) (key : string) (default_ : json) : Result json :=
  match article with
  | JObj fields => Ok (default default_ (assoc key fields))
  | _ => Raise AttributeError
  end.

(** [v.lower()] *)
Definition lower (v : json) : Result string :=
  match v with
  | JStr s => Ok (Text.lower s)
  | _ => Raise AttributeError
  end.

(** [v != "ENGLISH"] *)
Definition differs (v : json) (s : string) : bool :=
  match v with
  | JStr s' => negb (String.eqb s' s)
  | _ => true
  end.

(** [v.encode('utf-8')] *)
Definition encode (v : json) : Result string :=
  match v with
  | JStr s => if Codec.has_surrogate s then Raise UnicodeEncodeError else Ok s
  | _ => Raise AttributeError
  end.

(** [any(keyword in title or keyword in url for keyword in KEYWORDS)] *)
Definition any_keyword (title_l url_l : string) : bool :=
  existsb (fun keyword => Text.contains keyword title_l || Text.contains keyword url_l) KEYWORDS.

Section Articles.

(** [str(article)], Python's rendering of a dictionary. *)
Variable py_str : json -> string.

(** [article.get("url") or article.get("title") or str(article)] *)
Definition url_or_title (article : json) : Result json :=
  let? u := get article "url" JNull in
  let? t := get article "title" JNull in
  Ok (py_or u (py_or t (JStr (py_str article)))).

(** The body of the loop that prepares the documents: [None] when the
    article is skipped by a [continue]. *)
Definition normalize (article : json) : Result (option Doc) :=
  let? language := get article "lang" JNull in
  if differs language "ENGLISH" then Ok None
  else
    let? title_v := get article "title" (JStr "") in
    let? title_l := lower title_v in
    let? url_v := get article "url" (JStr "") in
    let? url_l := lower url_v in
    if negb (any_keyword title_l url_l) then Ok None
    else
      let? source := url_or_title article in
      let? bytes := encode source in
      let? date_v := get article "date" JNull in
      let? title_d := get article "title" JNull in
      let? url_d := get article "url" JNull in
      let? lang_d := get article "lang" JNull in
      let? docembed_d := get article "docembed" (JArr []) in
      Ok (Some {| _id := MD5.hexdigest bytes; date := date_v; title := title_d;
                  url := url_d; lang := lang_d; docembed := docembed_d |}).

Fixpoint prepare (articles : list json) (documents : list Doc) : Result (list Doc) :=
  match articles with
  | [] => Ok documents
  | article :: rest =>
      let? doc := normalize article in
      prepare rest (match doc with Some d => documents ++ [d] | None => documents end)
  end.

(** The [while retries > 0] loop.  It returns [retries] as the loop leaves
    it, with the two counts. *)
Fixpoint attempts (retries : nat) (documents : list Doc) (first : Doc) (counts : Z * Z)
  : M (nat * (Z * Z)) :=
  match retries with
  | O => ret (O, counts)
  | S fewer =>
      let* client := get_client_for_date (date first) in
      let collection :=
        {| coll_client := client; coll_db := "gdelt_news"; coll_name := "articles" |} in
      fun w =>
        match insert_many collection documents w with
        | (InsertManyResult inserted_ids, w') =>
            (Ok (retries, (Z.of_nat (length inserted_ids), snd counts)), w')
        | (ServerSelectionTimeoutError, w') =>
            (print (ConnectionTimeout (Z.of_nat fewer)) ;;
             sleep 5 ;;
             attempts fewer documents first counts) w'
        | (BulkWriteError nInserted writeErrors, w') =>
            (Ok (retries, (nInserted, Z.of_nat (length writeErrors))), w')
        end
  end.

Definition insert_articles (articles : list json) : M (Z * Z) :=
  let* documents := lift (prepare articles []) in
  match documents with
  | [] => ret (0, 0)
  | first :: _ =>
      let* (retries, counts) := attempts 3 documents first (0, 0) in
      (if Nat.eqb retries 0 then print AllRetriesFailed else ret tt) ;;
      ret counts
  end.

End Articles.

End Mongo.

(** ** The S3 loader notebook ([gdelt_loader]) *)

Module Loader.

Definition BATCH_SIZE : Z := 500.

(** [s3.list_objects_v2(Bucket=bucket, Prefix=prefix)]: the keys of one
    page, at most 1000. *)
Definition list_objects_v2 (bucket prefix : string) (w : World) : list string :=
  firstn 1000 (List.filter (Text.startswith prefix) (map fst (s3 w bucket))).

Fixpoint insert_sorted (k : string) (l : list string) : list string :=
  match l with
  | [] => [k]
  | x :: rest => if String.leb k x then k :: l else x :: insert_sorted k rest
  end.

(** [sorted(files)] *)
Definition sorted (files : list string) : list string := fold_right insert_sorted [] files.

Definition list_gz_files_for_day (bucket date_str : string) : M (list string) :=
  fun w =>
    let prefix := date_str ++ "/" in
    let files := List.filter (Text.endswith ".gz") (list_objects_v2 bucket prefix w) in
    (Ok (sorted files), w).

Fixpoint get_object (key : string) (objects : list (string * string)) : option string :=
  match objects with
  | [] => None
  | (k, body) :: rest => if String.eqb key k then Some body else get_object key rest
  end.

(** The exception [json.loads] raises when a limit is reached. *)
Definition limit_error (l : Json.Limit) : exn :=
  match l with
  | Json.IntMaxStrDigits => ValueError
  | Json.RecursionLimit => RecursionError
  end.

(** The loop over the lines of the decompressed stream.  Only
    [json.JSONDecodeError] is caught; the exception of a limit leaves the
    loop and the function. *)
Fixpoint read_lines (lim : Json.Limits) (key : string) (lines : list string)
    (records : list json) : M (list json) :=
  match lines with
  | [] => ret records
  | raw :: rest =>
      let line := Codec.strip (Codec.decode_replace raw) in
      if String.eqb line "" then read_lines lim key rest records
      else
        match Json.loads lim line with
        | Decoded data => read_lines lim key rest (records ++ [data])
        | DecodeError => print (SkippingCorruptedLine key) ;; read_lines lim key rest records
        | Exceeds l => raise (limit_error l)
        end
  end.

Definition read_gz_file_from_s3 (bucket key : string) : M (list json) :=
  fun w =>
    match get_object key (s3 w bucket) with
    | Some body => read_lines (limits w) key (Codec.readlines body) [] w
    | None => (Raise ClientError, w)
    end.

Section Day.

Variable py_str : json -> string.

(** The loop over the keys of the day. *)
Fixpoint process_keys (bucket : string) (keys : list string) (pending_batch : list json)
    (total_inserted total_duplicates : Z) : M (list json * Z * Z) :=
  match keys with
  | [] => ret (pending_batch, total_inserted, total_duplicates)
  | key :: rest =>
      print (ProcessingFile key) ;;
      let* articles := read_gz_file_from_s3 bucket key in
      match articles with
      | [] => process_keys bucket rest pending_batch total_inserted total_duplicates
      | _ :: _ =>
          let pending_batch := (pending_batch ++ articles)%list in
          if BATCH_SIZE <=? Z.of_nat (length pending_batch) then
            let* (inserted, duplicates) := Mongo.insert_articles py_str pending_batch in
            sleep 1 ;;
            process_keys bucket rest []
              (total_inserted + inserted) (total_duplicates + duplicates)
          else process_keys bucket rest pending_batch total_inserted total_duplicates
      end
  end.

Definition process_articles_for_day (bucket date_str : string) : M (Z * Z) :=
  let* keys := list_gz_files_for_day bucket date_str in
  let* (state, total_duplicates) := process_keys bucket keys [] 0 0 in
  let (pending_batch, total_inserted) := state in
  match pending_batch with
  | [] => ret (total_inserted, total_duplicates)
  | _ :: _ =>
      let* (inserted, duplicates) := Mongo.insert_articles py_str pending_batch in
      ret (total_inserted + inserted, total_duplicates + duplicates)
  end.

End Day.

End Loader.

(** ** [db.ipynb] *)

Module Db.

Definition CLUSTERS : list (string * Cluster) :=
  [ ("cluster1", {| uri := getenv "MONGO_ATLAS_URI_1";
                    start_date := "2024-01-01T00:00:00Z";
                    end_date := "2024-03-01T23:59:59Z" |});
    ("cluster2", {| uri := getenv "MONGO_ATLAS_URI_2";
                    start_date := "2024-03-02T00:00:00Z";
                    end_date := "2024-04-26T23:59:59Z" |});
    ("cluster3", {| uri := getenv "MONGO_ATLAS_URI_3";
                    start_date := "2024-04-27T00:00:00Z";
                    end_date := "2024-06-30T23:59:59Z" |}) ].

Definition get_client_for_date (date_obj : datetime) : M MongoClient :=
  let* cluster := lift (cluster_for_date CLUSTERS date_obj) in
  new_client (uri cluster).

(** [stats["storageSize"] / (1024 * 1024)] is a quotient of integers; it is
    kept exact, and the comparison with 490 below is the one the floating
    point quotient gives (490 and the multiples of 2^-20 near it are
    doubles). *)
Definition check_storage_limit (date_obj : datetime) : M Q :=
  let* client := get_client_for_date date_obj in
  emit (Dbstats (client_uri client)) ;;
  fun w =>
    let storage_mb :=
      Qdiv (inject_Z (storageSize w (client_uri client) date_obj)) (inject_Z (1024 * 1024)) in
    (emit (Close (client_uri client)) ;; ret storage_mb) w.

(** How the loop of [load_articles_for_date_range] is left: the range is
    exhausted, or the [break] is taken on some day. *)
Inductive RunEnd :=
| Completed
| Halted (day : datetime).

Section Run.

Variable py_str : json -> string.

(** The [while current_date <= end_date] loop; [None] when [fuel] does not
    cover the days left.  The wall-clock time of a day is not modelled. *)
Fixpoint days (fuel : nat) (bucket : string) (current_date end_date : datetime)
  : M (option RunEnd) :=
  if negb (current_date <=? end_date) then ret (Some Completed)
  else
    match fuel with
    | O => ret None
    | S fuel' =>
        let date_str := strftime_Ymd current_date in
        print (Processing date_str) ;;
        let* (inserted, duplicates) := Loader.process_articles_for_day py_str bucket date_str in
        print (Finished date_str inserted duplicates) ;;
        emit (LogLine date_str inserted duplicates) ;;
        let* storage_mb := check_storage_limit current_date in
        print (StorageUsed storage_mb) ;;
        if Qlt_le_dec 490 storage_mb then
          print ApproachingLimit ;; ret (Some (Halted current_date))
        else
          let* next := lift (or_raise OverflowError (add_days current_date 1)) in
          days fuel' bucket next end_date
    end.

Definition load_articles_for_date_range (bucket : string) (start_date end_date : datetime)
  : M (option RunEnd) :=
  days (Z.to_nat ((end_date - start_date) / DAY + 1)) bucket start_date end_date.

End Run.

End Db.

(** ** The FastAPI notebook *)

Module Api.

Definition collection_of (env_var : string) : Collection :=
  {| coll_client := {| client_uri := getenv env_var |};
     coll_db := "stock_analysis"; coll_name := "articles" |}.

Definition articles1 : Collection := collection_of "MONGO_ATLAS_URI_1".
Definition articles2 : Collection := collection_of "MONGO_ATLAS_URI_2".
Definition articles3 : Collection := collection_of "MONGO_ATLAS_URI_3".

Definition get_collection_for_date (date_str : string) : Result Collection :=
  let? date_obj := or_raise ValueError (strptime_date date_str) in
  let? april_27 := or_raise ValueError (make 2024 4 27 0 0 0) in
  let? march_2 := or_raise ValueError (make 2024 3 2 0 0 0) in
  if april_27 <=? date_obj then Ok articles3
  else if march_2 <=? date_obj then Ok articles2
  else Ok articles1.

End Api.

(** ** [db.ipynb], run as a script *)

Module Script.

(** One alternative of a directive: two digits that [two] accepts, or one
    digit that [one] accepts. *)
Definition two_digit (two : Z -> Z -> bool) (s : string) : option (Z * string) :=
  '(d1, r1) ← digit s;
  '(d2, r2) ← digit r1;
  if two d1 d2 then Some (10 * d1 + d2, r2) else None.

Definition one_digit (one : Z -> bool) (s : string) : option (Z * string) :=
  '(d1, r1) ← digit s;
  if one d1 then Some (d1, r1) else None.

(** [datetime.strptime(s, "%Y%m%d")]; [None] is [ValueError].  No literal
    separates the directives: when the day does not match after a month of
    two digits, the month is tried again with one digit.  The match found
    first is the one kept, and the text it leaves must be empty. *)
Definition strptime_Ymd (s : string) : option datetime :=
  '(y, s1) ← directive_Y s;
  let day_after (month : option (Z * string)) : option (Z * Z * string) :=
    '(m, s2) ← month;
    '(d, s3) ← directive_d s2;
    Some (m, d, s3) in
  let two := two_digit (fun a b => ((a =? 1) && (b <=? 2)) || ((a =? 0) && (1 <=? b))) s1 in
  let one := one_digit (fun a => 1 <=? a) s1 in
  '(m, d, s3) ← match day_after two with
                | Some r => Some r
                | None => day_after one
                end;
  match s3 with
  | EmptyString => make y m d 0 0 0
  | String _ _ => None
  end.

Section Main.

Variable py_str : json -> string.

(** The body of [if __name__ == "__main__":]. *)
Definition main : M (option Db.RunEnd) :=
  let bucket := "gdelt-peace-speech" in
  let* start := lift (or_raise ValueError (strptime_Ymd "20240111")) in
  let* end_ := lift (or_raise ValueError (strptime_Ymd "20241031")) in
  Db.load_articles_for_date_range py_str bucket start end_.

End Main.

End Script.

(** * Vocabulary of the properties *)

Local Open Scope list_scope.

(** The window of a cluster holds the timestamp. *)
Definition covers (c : Cluster) (t : datetime) : Prop :=
  exists s e, strptime_iso (start_date c) = Some s /\ strptime_iso (end_date c) = Some e
              /\ s <= t <= e.

Definition window_parses (c : Cluster) : Prop :=
  is_Some (strptime_iso (start_date c)) /\ is_Some (strptime_iso (end_date c)).

(** The client both notebooks build for a cluster. *)
Definition client_of (c : Cluster) : MongoClient := {| client_uri := uri c |}.

Definition connected (u : string) (w : World) : World := set_out (out w ++ [Connect u]) w.

Definition cluster (name : string) : Cluster :=
  default {| uri := ""; start_date := ""; end_date := "" |} (lookup_cluster name Db.CLUSTERS).

(** [datetime(year, month, day)] *)
Definition midnight (year month day : Z) : datetime := default 0 (make year month day 0 0 0).

(** [k] occurs in [s] when letter case is ignored: some part of [s] is [k]
    up to the case of its letters. *)
Definition occurs_ignoring_case (k s : string) : Prop :=
  exists pre m post, s = (pre ++ m ++ post)%string /\ Text.lower m = Text.lower k.

(** The text [article.get(key, "")] gives: the empty text for a missing
    key, nothing when the value is not text. *)
Definition text_field (fields : list (string * json)) (key : string) : option string :=
  match assoc key fields with
  | None => Some ""
  | Some (JStr s) => Some s
  | Some _ => None
  end.

(** A field that [or] skips: missing, null, or empty. *)
Definition blank (fields : list (string * json)) (key : string) : Prop :=
  truthy (default JNull (assoc key fields)) = false.

Definition articles_collection (c : Cluster) : Collection :=
  {| coll_client := client_of c; coll_db := "gdelt_news"; coll_name := "articles" |}.

(** The world once the events [evs] have happened. *)
Definition after (evs : list Event) (w : World) : World := set_out (out w ++ evs) w.

(** The counts a bulk write that is answered gives. *)
Definition answered (reject : Doc -> option Z) (held : gmap string Doc) (docs : list Doc)
  : Z * Z :=
  let '(_, inserted, errors) := bulk_write reject held 0 docs in
  (Z.of_nat (length inserted), Z.of_nat (length errors)).

Definition stored (reject : Doc -> option Z) (held : gmap string Doc) (docs : list Doc)
  : gmap string Doc :=
  fst (fst (bulk_write reject held 0 docs)).

(** How many of the coming attempts, at most [budget], time out in a row. *)
Fixpoint leading_timeouts (budget : nat) (fs : list bool) : nat :=
  match budget, fs with
  | S b, true :: later => S (leading_timeouts b later)
  | _, _ => O
  end.

Definition is_insert_many (e : Event) : bool :=
  match e with
  | InsertMany _ _ => true
  | _ => false
  end.

(** The number of [insert_many] calls among the events. *)
Definition insert_many_calls (evs : list Event) : nat := length (List.filter is_insert_many evs).

(** The events of a flush of the documents [first :: rest], routed to the
    cluster [c], in which [k] attempts time out. *)
Definition flush_events (first : Doc) (rest : list Doc) (c : Cluster) (k : nat) : list Event :=
  let docs := first :: rest in
  let coll := articles_collection c in
  let attempt := [Connect (uri c); InsertMany coll docs] in
  let timeout (left : Z) := [Print (ConnectionTimeout left); Sleep 5] in
  match k with
  | 0%nat => attempt
  | 1%nat => attempt ++ timeout 2 ++ attempt
  | 2%nat => attempt ++ timeout 2 ++ attempt ++ timeout 1 ++ attempt
  | _ => attempt ++ timeout 2 ++ attempt ++ timeout 1 ++ attempt ++ timeout 0
         ++ [Print AllRetriesFailed]
  end.

(** The collection already holds a document with the [_id] of [d]. *)
Definition holds (ids : gmap string Doc) (d : Doc) : bool :=
  match ids !! _id d with
  | Some _ => true
  | None => false
  end.

(** The documents of the batch whose [_id] the collection already holds. *)
Definition preexisting (ids : gmap string Doc) (docs : list Doc) : list Doc :=
  List.filter (holds ids) docs.

(** [w'] comes after [w]: more events, all in [P], and the same bucket
    contents, storage readings and limits of the interpreter. *)
Definition extends (P : Event -> Prop) (w w' : World) : Prop :=
  (exists evs, out w' = out w ++ evs /\ Forall P evs)
  /\ storageSize w' = storageSize w /\ s3 w' = s3 w /\ limits w' = limits w.

(** Every run of [m] extends the world with events in [P] and gives a
    result in [Q]. *)
Definition run_post {A : Type} (P : Event -> Prop) (Q : Result A -> Prop) (m : M A) : Prop :=
  forall w, extends P w (snd (m w)) /\ Q (fst (m w)).

Definition anything {A : Type} : Result A -> Prop := fun _ => True.

(** An event of the writer that sends documents sends [docs]. *)
Definition sends (docs : list Doc) (e : Event) : Prop :=
  match e with
  | InsertMany _ ds => ds = docs
  | _ => True
  end.

(** What the reader makes of a raw line: the line is decoded, ill-formed
    bytes replaced, and stripped; an empty line is passed over, a line that
    parses gives a record, a line on which [json.loads] raises
    [json.JSONDecodeError] is corrupt, and a line on which it raises
    another exception is fatal to the file. *)
Inductive LineKind :=
| Blank
| Parsed (data : json)
| Corrupt
| Fatal (e : exn).

Definition classify (lim : Json.Limits) (raw : string) : LineKind :=
  let line := Codec.strip (Codec.decode_replace raw) in
  if String.eqb line "" then Blank
  else match Json.loads lim line with
       | Decoded data => Parsed data
       | DecodeError => Corrupt
       | Exceeds l => Fatal (Loader.limit_error l)
       end.

(** The records of the lines that parse, in order. *)
Fixpoint records_of (lim : Json.Limits) (lines : list string) : list json :=
  match lines with
  | [] => []
  | raw :: rest =>
      match classify lim raw with
      | Parsed data => data :: records_of lim rest
      | _ => records_of lim rest
      end
  end.

(** One diagnostic for each corrupt line. *)
Fixpoint diagnostics_of (lim : Json.Limits) (key : string) (lines : list string)
  : list Event :=
  match lines with
  | [] => []
  | raw :: rest =>
      match classify lim raw with
      | Corrupt => Print (SkippingCorruptedLine key) :: diagnostics_of lim key rest
      | _ => diagnostics_of lim key rest
      end
  end.

(** The exception of the first fatal line, if there is one, and the lines
    before it. *)
Fixpoint aborts (lim : Json.Limits) (lines : list string) : option exn :=
  match lines with
  | [] => None
  | raw :: rest =>
      match classify lim raw with
      | Fatal e => Some e
      | _ => aborts lim rest
      end
  end.

Fixpoint lines_read (lim : Json.Limits) (lines : list string) : list string :=
  match lines with
  | [] => []
  | raw :: rest =>
      match classify lim raw with
      | Fatal _ => []
      | _ => raw :: lines_read lim rest
      end
  end.



(** The double quote, for writing JSON text. *)
Definition dq : string := String (ascii_of_nat 34) "".
Definition quoted (s : string) : string := (dq ++ s ++ dq)%string.

(** The documents of a batch flushed before the end of the day: the batch
    is what was pending, fewer than [BATCH_SIZE] records, followed by the
    whole of the archive just read, and has reached [BATCH_SIZE]. *)
Definition flushed_on_threshold (py_str : json -> string) (ds : list Doc) : Prop :=
  exists pending archive,
    Mongo.prepare py_str (pending ++ archive) [] = Ok ds
    /\ (Z.of_nat (length pending) < Loader.BATCH_SIZE <= Z.of_nat (length (pending ++ archive)))
    /\ (length ds <= length pending + length archive)%nat.

(** The documents of the remainder flushed at the end of the day. *)
Definition flushed_at_day_end (py_str : json -> string) (ds : list Doc) : Prop :=
  exists pending,
    Mongo.prepare py_str pending [] = Ok ds
    /\ (0 < Z.of_nat (length pending) < Loader.BATCH_SIZE)
    /\ (length ds <= length pending)%nat.

Definition threshold_event (py_str : json -> string) (e : Event) : Prop :=
  match e with
  | InsertMany _ ds => flushed_on_threshold py_str ds
  | _ => True
  end.

Definition day_event (py_str : json -> string) (e : Event) : Prop :=
  match e with
  | InsertMany _ ds => flushed_on_threshold py_str ds \/ flushed_at_day_end py_str ds
  | _ => True
  end.

(** Modelled from the spec: the batches of a day as the amended claim C6
    words them, to be compared with what [process_articles_for_day] does.
    The records of the archives are appended, archive by archive, to the
    pending batch, and the batch is cut as soon as it holds [BATCH_SIZE]
    records or more.  [threshold_batches] gives the batches that are cut
    and the records left pending; [batches_of_day] adds what is left, when
    it is not empty, as the last batch. *)
Fixpoint threshold_batches (pending : list json) (archives : list (list json))
  : list (list json) * list json :=
  match archives with
  | [] => ([], pending)
  | archive :: rest =>
      let batch := pending ++ archive in
      if Loader.BATCH_SIZE <=? Z.of_nat (length batch) then
        let '(batches, remaining) := threshold_batches [] rest in (batch :: batches, remaining)
      else threshold_batches batch rest
  end.

Definition batches_of_day (archives : list (list json)) : list (list json) :=
  let '(batches, remaining) := threshold_batches [] archives in
  batches ++ match remaining with [] => [] | _ :: _ => [remaining] end.

(** A batch cut on the threshold: fewer than [BATCH_SIZE] pending records
    and the whole archive that brought them to [BATCH_SIZE] or more. *)
Definition cut_on_threshold (batch : list json) : Prop :=
  exists pending archive,
    batch = pending ++ archive
    /\ Z.of_nat (length pending) < Loader.BATCH_SIZE <= Z.of_nat (length batch).

(** A remainder: between 1 and [BATCH_SIZE] - 1 records. *)
Definition remainder (batch : list json) : Prop :=
  0 < Z.of_nat (length batch) < Loader.BATCH_SIZE.

(** The records of each archive of the given keys, in order. *)
Definition day_archives (lim : Json.Limits) (objects : list (string * string))
    (keys : list string) : list (list json) :=
  map (fun key =>
         match Loader.get_object key objects with
         | Some body => records_of lim (Codec.readlines body)
         | None => []
         end)
      keys.

(** An event of the writer that sends documents sends those prepared from
    one of the batches. *)
Definition sends_one_of (py_str : json -> string) (batches : list (list json))
    (e : Event) : Prop :=
  match e with
  | InsertMany _ ds => exists batch, In batch batches /\ Mongo.prepare py_str batch [] = Ok ds
  | _ => True
  end.

(** The events of the loop over the archives other than those of a flush. *)
Definition between_flushes (e : Event) : Prop :=
  match e with
  | Print (ProcessingFile _) | Print (SkippingCorruptedLine _) => True
  | Sleep seconds => seconds = 1
  | _ => False
  end.

(** From [w] to [w'] the batches were flushed in turn, each by a run of
    [insert_articles] that returned, with nothing but events of the loop
    before, between and after the flushes; the counts add up to [inserted]
    and [duplicates]. *)
Fixpoint flushed_in_turn (py_str : json -> string) (batches : list (list json))
    (w w' : World) (inserted duplicates : Z) : Prop :=
  match batches with
  | [] =>
      (exists evs, Forall between_flushes evs /\ w' = after evs w)
      /\ inserted = 0 /\ duplicates = 0
  | batch :: rest =>
      exists evs i d w2,
        Forall between_flushes evs
        /\ Mongo.insert_articles py_str batch (after evs w) = (Ok (i, d), w2)
        /\ flushed_in_turn py_str rest w2 w' (inserted - i) (duplicates - d)
  end.

Definition short_pending (r : Result (list json * Z * Z)) : Prop :=
  match r with
  | Ok (pending, _, _) => Z.of_nat (length pending) < Loader.BATCH_SIZE
  | Raise _ => True
  end.

(** The sizes of the batches handed to [insert_many]. *)
Definition batch_sizes (evs : list Event) : list nat :=
  flat_map (fun e => match e with InsertMany _ ds => [length ds] | _ => [] end) evs.

(** An archive of [n] lines, each an article tagged "ENGLISH" about tesla
    with a url of its own. *)
Definition example_line (i : nat) : string :=
  ("{" ++ quoted "lang" ++ ":" ++ quoted "ENGLISH" ++ ","
   ++ quoted "url" ++ ":" ++ quoted ("https://example.com/tesla/" ++ str_int (Z.of_nat i)) ++ ","
   ++ quoted "date" ++ ":" ++ quoted "2024-01-11T00:00:00Z" ++ "}"
   ++ String (ascii_of_nat 10) "")%string.

Definition example_archive (n : nat) : string :=
  fold_right (fun i acc => (example_line i ++ acc)%string) ""%string (seq 0 n).

(** The cluster [check_storage_limit] asks for a day, and the reading it
    returns: the [storageSize] of that cluster over 1024 * 1024. *)
Definition shard_uri (d : datetime) : string :=
  match cluster_for_date Db.CLUSTERS d with
  | Ok c => uri c
  | Raise _ => ""
  end.

Definition reading (w : World) (d : datetime) : Q :=
  Qdiv (inject_Z (storageSize w (shard_uri d) d)) (inject_Z (1024 * 1024)).

Definition any_event : Event -> Prop := fun _ => True.

(** How a run that started on [start] ended, in terms of the readings of
    the days from [start] on: halted on the first day whose reading is
    above 490, or completed with no such day in the range. *)
Definition ended_as (end_date : datetime) (w : World) (start : datetime)
    (r : option Db.RunEnd) : Prop :=
  match r with
  | None => False
  | Some (Db.Halted h) =>
      exists k, 0 <= k /\ h = start + k * DAY /\ h <= end_date
                /\ (490 < reading w h)%Q
                /\ forall j, 0 <= j < k -> (reading w (start + j * DAY)%Z <= 490)%Q
  | Some Db.Completed =>
      forall j, 0 <= j -> start + j * DAY <= end_date ->
                (reading w (start + j * DAY)%Z <= 490)%Q
  end.

(** The limits of an interpreter started with its defaults: an [int] of at
    most 4300 digits, and 980 of the 1000 frames of the recursion limit
    left to the scanner. *)
Definition usual_limits : Json.Limits :=
  {| int_max_str_digits := 4300; recursion_left := 980 |}.

(** A world with empty buckets and collections and no fault. *)
Definition quiet : World :=
  {| s3 := fun _ => []; mongo := ∅; write_error := fun _ => None; faults := [];
     storageSize := fun _ _ => 0; limits := usual_limits; out := [] |}.

Definition with_faults (f : list bool) : World := set_faults f quiet.

(** An article about tesla dated 2024-01-11, with the given url. *)
Definition tesla_article (u : string) : json :=
  JObj [("lang", JStr "ENGLISH"); ("url", JStr u); ("title", JStr "Tesla rallies");
        ("date", JStr "2024-01-11T00:15:00Z")].

(** A collection that already holds the first of two articles: the flush
    of both inserts one and counts one duplicate. *)
Definition first_held : World :=
  set_mongo
    {[ coll_key (articles_collection (cluster "cluster1")) :=
         {[ MD5.hexdigest "https://example.com/a" :=
              {| _id := MD5.hexdigest "https://example.com/a"; date := JNull; title := JNull;
                 url := JNull; lang := JNull; docembed := JNull |} ]} ]}
    quiet.

(** The document made for [tesla_article u]. *)
Definition tesla_doc (u : string) : Doc :=
  {| _id := MD5.hexdigest u; date := JStr "2024-01-11T00:15:00Z";
     title := JStr "Tesla rallies"; url := JStr u; lang := JStr "ENGLISH";
     docembed := JArr [] |}.


(** A bucket with three archives on 2024-01-11, of 300, 300 and 100
    articles. *)
Definition three_archives : World :=
  {| s3 := fun _ => [("20240111/a.gz", example_archive 300);
                     ("20240111/b.gz", example_archive 300);
                     ("20240111/c.gz", example_archive 100)];
     mongo := ∅; write_error := fun _ => None; faults := [];
     storageSize := fun _ _ => 0; limits := usual_limits; out := [] |}.

(** Readings of 489 up to January 11 and of 491 from January 12: the run
    from January 11 to January 14 halts on January 12. *)
Definition filling_up : World :=
  {| s3 := fun _ => []; mongo := ∅; write_error := fun _ => None; faults := [];
     storageSize := fun _ d => if d <? midnight 2024 1 12 then 489 * 1024 * 1024
                               else 491 * 1024 * 1024;
     limits := usual_limits; out := [] |}.

(** ** Vocabulary of the further properties *)

(** The text is made of ASCII characters only. *)
Definition is_ascii (s : string) : bool :=
  forallb (fun c => Text.byte_of c <? 128) (list_ascii_of_string s).

(** A lowercase hexadecimal digit. *)
Definition is_hex_lower (c : ascii) : bool :=
  let b := Text.byte_of c in
  ((48 <=? b) && (b <=? 57)) || ((97 <=? b) && (b <=? 102)).

(** The keys of an article that [insert_articles] reads. *)
Definition READ_KEYS : list string := ["lang"; "title"; "url"; "date"; "docembed"].

(** Every run of [m] takes the world to one that [R] relates to it. *)
Definition preserves {A : Type} (R : World -> World -> Prop) (m : M A) : Prop :=
  forall w, R w (snd (m w)).

(** The messages and pauses of a flush, of a day and of a run, the events
    of the driver apart. *)
Definition flush_message (e : Event) : Prop :=
  match e with
  | Print (ConnectionTimeout _) | Print AllRetriesFailed => True
  | Sleep seconds => seconds = 5
  | _ => False
  end.

Definition day_message (e : Event) : Prop :=
  match e with
  | Print (ConnectionTimeout _) | Print AllRetriesFailed => True
  | Print (ProcessingFile _) | Print (SkippingCorruptedLine _) => True
  | Sleep seconds => seconds = 5 \/ seconds = 1
  | _ => False
  end.

Definition run_message (e : Event) : Prop :=
  match e with
  | Print _ | LogLine _ _ _ => True
  | Sleep seconds => seconds = 5 \/ seconds = 1
  | _ => False
  end.

(** The collections the pipeline writes to. *)
Definition pipeline_collections : list (string * string * string) :=
  map (fun x => coll_key (articles_collection (snd x))) Mongo.CLUSTERS.

(** Documents are only added, and only to the pipeline's collections. *)
Definition store_grows (w w' : World) : Prop :=
  (forall coll id d, held_by w coll !! id = Some d -> held_by w' coll !! id = Some d)
  /\ (forall coll, ~ In (coll_key coll) pipeline_collections ->
                   held_by w' coll = held_by w coll).

Definition is_connect (e : Event) : bool :=
  match e with
  | Connect _ => true
  | _ => false
  end.

Definition is_close (e : Event) : bool :=
  match e with
  | Close _ => true
  | _ => false
  end.

(** The clients opened and the clients closed among the events. *)
Definition clients_opened (evs : list Event) : nat := List.length (List.filter is_connect evs).
Definition clients_closed (evs : list Event) : nat := List.length (List.filter is_close evs).

(** Between [w] and [w'], as many clients were opened as there were bulk
    writes and clients closed, together. *)
Definition clients_balance (w w' : World) : Prop :=
  exists evs, out w' = out w ++ evs
              /\ clients_opened evs = (insert_many_calls evs + clients_closed evs)%nat.

(** The keys announced by "Processing file" messages, in order. *)
Definition announced (evs : list Event) : list string :=
  flat_map (fun e => match e with Print (ProcessingFile key) => [key] | _ => [] end) evs.

(** The days of the lines appended to the ETL log, in order. *)
Definition logged (evs : list Event) : list string :=
  flat_map (fun e => match e with LogLine date_str _ _ => [date_str] | _ => [] end) evs.

(** [n] consecutive days from [start]. *)
Definition day_range (start : datetime) (n : nat) : list datetime :=
  map (fun j => start + Z.of_nat j * DAY) (seq 0 n).

(** Keys in ascending order, as [sorted] compares text. *)
Definition key_le (a b : string) : Prop := String.leb a b = true.

(** The records held by the archives of the given keys. *)
Definition records_in (lim : Json.Limits) (objects : list (string * string))
    (keys : list string) : nat :=
  fold_right
    (fun key n =>
       (match Loader.get_object key objects with
        | Some body => List.length (records_of lim (Codec.readlines body))
        | None => 0
        end + n)%nat)
    0%nat keys.

(** The documents handed to [insert_many], call after call. *)
Definition sent (evs : list Event) : list Doc :=
  flat_map (fun e => match e with InsertMany _ documents => documents | _ => [] end) evs.

(** The records of the archives of the given keys, in order. *)
Definition day_records (lim : Json.Limits) (objects : list (string * string))
    (keys : list string) : list json :=
  flat_map
    (fun key =>
       match Loader.get_object key objects with
       | Some body => records_of lim (Codec.readlines body)
       | None => []
       end)
    keys.

(** Some document is held, under the [_id] of [d], by the pipeline's
    collection on one of the clusters. *)
Definition kept (w : World) (d : Doc) : Prop :=
  exists c, In c (map snd Mongo.CLUSTERS)
            /\ is_Some (held_by w (articles_collection c) !! _id d).

(** Between [w] and [w'] the bucket, the limits of the interpreter and
    the server's refusals are the same, and no timeout is pending in [w']
    when none was in [w]. *)
Definition calm (w w' : World) : Prop :=
  s3 w' = s3 w /\ limits w' = limits w /\ write_error w' = write_error w
  /\ (faults w = [] -> faults w' = []).

(** Every document that a collection holds in [w'] it held in [w], or it
    is one of the documents handed to [insert_many] in between and is held
    under its own [_id]. *)
Definition written_from (w w' : World) : Prop :=
  exists evs,
    out w' = out w ++ evs
    /\ forall coll id d, held_by w' coll !! id = Some d ->
                         held_by w coll !! id = Some d \/ (In d (sent evs) /\ _id d = id).

(** Under the [_id] of [d], the pipeline's collection on one of the
    clusters holds in [w'] a document: the one it held there in [w], or
    one of the documents [ds] with that [_id]. *)
Definition kept_from (w : World) (ds : list Doc) (w' : World) (d : Doc) : Prop :=
  exists c d',
    In c (map snd Mongo.CLUSTERS)
    /\ held_by w' (articles_collection c) !! _id d = Some d'
    /\ (held_by w (articles_collection c) !! _id d = Some d'
        \/ (In d' ds /\ _id d' = _id d)).

(** No collection of the pipeline holds a document under the [_id] of
    [d]. *)
Definition unknown (w : World) (d : Doc) : Prop :=
  forall c, In c (map snd Mongo.CLUSTERS) ->
            held_by w (articles_collection c) !! _id d = None.

(** [d] is the only one of the documents [ds] with its [_id]. *)
Definition only_one (ds : list Doc) (d : Doc) : Prop :=
  forall x, In x ds -> _id x = _id d -> x = d.

(** In [w'], under the [_id] of each document prepared from the archives
    that the bucket of [w] holds for the day, some document is held. *)
Definition day_kept (py_str : json -> string) (bucket : string) (w w' : World)
    (day : datetime) : Prop :=
  forall keys ds,
    Loader.list_gz_files_for_day bucket (strftime_Ymd day) w = (Ok keys, w) ->
    Mongo.prepare py_str (day_records (limits w) (s3 w bucket) keys) [] = Ok ds ->
    forall d, In d ds -> kept w' d.

(** The same for a run from [w] to [w'] that handed the documents [ds] to
    [insert_many]: the document held is the one held in [w] or one of
    [ds]. *)
Definition day_kept_from (py_str : json -> string) (bucket : string) (w : World)
    (ds : list Doc) (w' : World) (day : datetime) : Prop :=
  forall keys day_ds,
    Loader.list_gz_files_for_day bucket (strftime_Ymd day) w = (Ok keys, w) ->
    Mongo.prepare py_str (day_records (limits w) (s3 w bucket) keys) [] = Ok day_ds ->
    forall d, In d day_ds -> kept_from w ds w' d.

(** An article about Tesla dated in May, in the window of cluster3. *)
Definition may_article : json :=
  JObj [("lang", JStr "ENGLISH"); ("url", JStr "https://example.com/may");
        ("title", JStr "Tesla in May"); ("date", JStr "2024-05-20T08:00:00Z")].

Definition may_doc : Doc :=
  {| _id := MD5.hexdigest "https://example.com/may"; date := JStr "2024-05-20T08:00:00Z";
     title := JStr "Tesla in May"; url := JStr "https://example.com/may";
     lang := JStr "ENGLISH"; docembed := JArr [] |}.

(** An article tagged "ENGLISH" whose title is null. *)
Definition untitled_article : json :=
  JObj [("lang", JStr "ENGLISH"); ("url", JStr "https://example.com/tesla");
        ("title", JNull)].

(** A bucket with two archives of one article each on 2024-01-11, listed
    after an object that is no archive. *)
Definition two_archives : World :=
  {| s3 := fun _ => [("20240111/notes.txt", ""); ("20240111/b.gz", example_line 1);
                     ("20240111/a.gz", example_line 0)];
     mongo := ∅; write_error := fun _ => None; faults := [];
     storageSize := fun _ _ => 0; limits := usual_limits; out := [] |}.

(** * Properties *)

(** ** Test vectors of RFC 1321 *)

Example md5_empty : MD5.hexdigest "" = "d41d8cd98f00b204e9800998ecf8427e".
Proof. vm_compute. reflexivity. Qed.

Example md5_abc : MD5.hexdigest "abc" = "900150983cd24fb0d6963f7d28e17f72".
Proof. vm_compute. reflexivity. Qed.

Example md5_two_blocks :
  MD5.hexdigest "aaaaaaaaaaaaaaaaaaaaaaaaaaaaaaaaaaaaaaaaaaaaaaaaaaaaaaaa"
  = "3b0c8ac703f828b04c6c197006d17218".
Proof. vm_compute. reflexivity. Qed.

(** ** [json.loads] at the limits of the interpreter *)

Example loads_integer_of_4301_digits :
  Json.loads usual_limits (string_of_list_ascii (repeat (ascii_of_nat 49) 4301))
  = Exceeds IntMaxStrDigits.
Proof. vm_compute. reflexivity. Qed.

Example loads_integer_of_700_digits :
  Json.loads usual_limits (string_of_list_ascii (repeat (ascii_of_nat 49) 700))
  = Decoded (JInt ((10 ^ 700 - 1) / 9)).
Proof. vm_compute. reflexivity. Qed.

Example loads_integer_past_a_limit_of_640 :
  Json.loads {| int_max_str_digits := 640; recursion_left := 980 |}
    ("-" ++ string_of_list_ascii (repeat (ascii_of_nat 49) 641))
  = Exceeds IntMaxStrDigits.
Proof. vm_compute. reflexivity. Qed.

Example loads_integer_without_limit :
  Json.loads {| int_max_str_digits := 0; recursion_left := 980 |}
    (string_of_list_ascii (repeat (ascii_of_nat 49) 700))
  = Decoded (JInt ((10 ^ 700 - 1) / 9)).
Proof. vm_compute. reflexivity. Qed.

Example loads_float_past_a_limit_of_640 :
  Json.loads {| int_max_str_digits := 640; recursion_left := 980 |}
    (string_of_list_ascii (repeat (ascii_of_nat 49) 641) ++ ".1")
  = Decoded (JFloat (Finite false ((10 ^ 642 - 1) / 9) (-1))).
Proof. vm_compute. reflexivity. Qed.

Example loads_nested_to_the_limit :
  Json.loads {| int_max_str_digits := 4300; recursion_left := 3 |} "[[{}]]"
  = Decoded (JArr [JArr [JObj []]]).
Proof. vm_compute. reflexivity. Qed.

Example loads_nested_past_the_limit :
  Json.loads {| int_max_str_digits := 4300; recursion_left := 3 |} "[[[{}]]]"
  = Exceeds RecursionLimit.
Proof. vm_compute. reflexivity. Qed.

Example loads_error_met_before_the_limit :
  Json.loads {| int_max_str_digits := 4300; recursion_left := 3 |} "[[[x,[[[[0]]]]]]]"
  = DecodeError.
Proof. vm_compute. reflexivity. Qed.

Example loads_limit_met_before_the_error :
  Json.loads {| int_max_str_digits := 4300; recursion_left := 3 |} "[[[[0]]]],x"
  = Exceeds RecursionLimit.
Proof. vm_compute. reflexivity. Qed.

(** ** Reasoning about effectful code *)

Lemma bind_ok {A B : Type} (m : M A) (k : A -> M B) (w w' : World) (a : A) :
  m w = (Ok a, w') -> bind m k w = k a w'.
Proof. intros H. unfold bind. rewrite H. reflexivity. Qed.

Lemma bind_raise {A B : Type} (m : M A) (k : A -> M B) (w w' : World) (e : exn) :
  m w = (Raise e, w') -> bind m k w = (Raise e, w').
Proof. intros H. unfold bind. rewrite H. reflexivity. Qed.

Lemma bind_inv_ok {A B : Type} (m : M A) (k : A -> M B) (w w2 : World) (b : B) :
  bind m k w = (Ok b, w2) -> exists a w1, m w = (Ok a, w1) /\ k a w1 = (Ok b, w2).
Proof.
  unfold bind. destruct (m w) as [[a|e] w1]; intros H.
  - exists a, w1. split; [reflexivity | exact H].
  - discriminate H.
Qed.

(** ** The shard router *)

Lemma first_cluster_covering_skip (c : Cluster) (n : string) (rest : list (string * Cluster))
    (t : datetime) :
  window_parses c -> ~ covers c t ->
  first_cluster_covering ((n, c) :: rest) t = first_cluster_covering rest t.
Proof.
  intros [[s Hs] [e He]] Hno. simpl. rewrite Hs, He. simpl.
  destruct ((s <=? t) && (t <=? e)) eqn:Hin; [| reflexivity].
  exfalso. apply Hno. exists s, e. apply andb_true_iff in Hin.
  rewrite !Z.leb_le in Hin. tauto.
Qed.

Lemma first_cluster_covering_hit (c : Cluster) (n : string) (rest : list (string * Cluster))
    (t : datetime) :
  covers c t -> first_cluster_covering ((n, c) :: rest) t = Ok (Some c).
Proof.
  intros (s & e & Hs & He & Hin). simpl. rewrite Hs, He. simpl.
  replace ((s <=? t) && (t <=? e)) with true; [reflexivity |].
  symmetry. apply andb_true_iff. rewrite !Z.leb_le. exact Hin.
Qed.

(** The loop returns the first cluster of the list whose window holds the
    timestamp. *)
Lemma first_cluster_covering_first (pre post : list (string * Cluster)) (n : string)
    (c : Cluster) (t : datetime) :
  Forall (fun x => window_parses (snd x) /\ ~ covers (snd x) t) pre ->
  covers c t ->
  first_cluster_covering (pre ++ (n, c) :: post) t = Ok (Some c).
Proof.
  induction 1 as [| [n' c'] pre' [Hp Hno] _ IH]; intros Hc; simpl app.
  - apply first_cluster_covering_hit, Hc.
  - rewrite first_cluster_covering_skip by assumption. apply IH, Hc.
Qed.

Lemma first_cluster_covering_none (clusters : list (string * Cluster)) (t : datetime) :
  Forall (fun x => window_parses (snd x) /\ ~ covers (snd x) t) clusters ->
  first_cluster_covering clusters t = Ok None.
Proof.
  induction 1 as [| [n c] rest [Hp Hno] _ IH]; [reflexivity |].
  rewrite first_cluster_covering_skip by assumption. exact IH.
Qed.

Lemma clusters_same : Mongo.CLUSTERS = Db.CLUSTERS.
Proof. reflexivity. Qed.

Lemma clusters_parse : Forall (fun x => window_parses (snd x)) Db.CLUSTERS.
Proof. repeat constructor; vm_compute; eauto. Qed.

Lemma Forall_prefix {A : Type} (P : A -> Prop) (pre post : list A) :
  Forall P (pre ++ post) -> Forall P pre.
Proof. intros H. apply Forall_app in H. tauto. Qed.

Lemma db_get_client_for_date_eq (t : datetime) (w : World) (c : Cluster) :
  cluster_for_date Db.CLUSTERS t = Ok c ->
  Db.get_client_for_date t w = (Ok (client_of c), connected (uri c) w).
Proof. intros H. unfold Db.get_client_for_date, bind, lift. rewrite H. reflexivity. Qed.

Lemma mongo_get_client_for_date_eq (s : string) (t : datetime) (w : World) (c : Cluster) :
  strptime_iso s = Some t ->
  cluster_for_date Mongo.CLUSTERS t = Ok c ->
  Mongo.get_client_for_date (JStr s) w = (Ok (client_of c), connected (uri c) w).
Proof.
  intros Hs H. unfold Mongo.get_client_for_date, bind, lift. simpl. rewrite Hs. simpl.
  rewrite H. reflexivity.
Qed.

(** C3.  Both [get_client_for_date] functions return the client of the first
    cluster of [CLUSTERS] whose inclusive window from [start_date] to
    [end_date] holds the timestamp; for a timestamp that no window holds they
    return the client of cluster1.  The client depends on the timestamp
    only: the outside is left as it was but for the record of the new
    client.  [mongo.ipynb] takes the timestamp as text, [db.ipynb] as a
    [datetime]. *)
Theorem shard_router_first_window_or_default (s : string) (t : datetime) (w : World) :
  strptime_iso s = Some t ->
  (forall pre n c post,
      Db.CLUSTERS = (pre ++ (n, c) :: post)%list ->
      (forall x, In x pre -> ~ covers (snd x) t) ->
      covers c t ->
      Db.get_client_for_date t w = (Ok (client_of c), connected (uri c) w)
      /\ Mongo.get_client_for_date (JStr s) w = (Ok (client_of c), connected (uri c) w))
  /\ ((forall x, In x Db.CLUSTERS -> ~ covers (snd x) t) ->
      let u := getenv "MONGO_ATLAS_URI_1" in
      Db.get_client_for_date t w = (Ok {| client_uri := u |}, connected u w)
      /\ Mongo.get_client_for_date (JStr s) w = (Ok {| client_uri := u |}, connected u w))
  /\ (forall w2,
      fst (Db.get_client_for_date t w2) = fst (Db.get_client_for_date t w)
      /\ fst (Mongo.get_client_for_date (JStr s) w2) = fst (Mongo.get_client_for_date (JStr s) w)).
Proof.
  intros Hs. split; [| split].
  - intros pre n c post Hsplit Hpre Hc.
    assert (Hfound : cluster_for_date Db.CLUSTERS t = Ok c).
    { unfold cluster_for_date. rewrite Hsplit.
      rewrite first_cluster_covering_first; [reflexivity | | exact Hc].
      pose proof clusters_parse as Hp. rewrite Hsplit in Hp.
      apply Forall_prefix in Hp. rewrite List.Forall_forall in Hp.
      apply List.Forall_forall. intros x Hx. split; [apply Hp, Hx | apply Hpre, Hx]. }
    split.
    + apply db_get_client_for_date_eq, Hfound.
    + apply (mongo_get_client_for_date_eq s t w c Hs). rewrite clusters_same. exact Hfound.
  - intros Hnone u.
    assert (Hfound : cluster_for_date Db.CLUSTERS t
                     = or_raise KeyError (lookup_cluster "cluster1" Db.CLUSTERS)).
    { unfold cluster_for_date. rewrite first_cluster_covering_none; [reflexivity |].
      pose proof clusters_parse as Hp. rewrite List.Forall_forall in Hp.
      apply List.Forall_forall. intros x Hx. split; [apply Hp, Hx | apply Hnone, Hx]. }
    split.
    + erewrite db_get_client_for_date_eq by exact Hfound. reflexivity.
    + rewrite <- clusters_same in Hfound.
      rewrite (mongo_get_client_for_date_eq s t w _ Hs Hfound). reflexivity.
  - intros w2. unfold Db.get_client_for_date, Mongo.get_client_for_date, bind, lift.
    simpl. rewrite Hs. simpl. rewrite clusters_same.
    destruct (cluster_for_date Db.CLUSTERS t); split; reflexivity.
Qed.

(** *** The configured windows, as numbers *)

Lemma cluster_for_date_closed_form (t : datetime) :
  cluster_for_date Db.CLUSTERS t =
  Ok (if (63839664000000000 <=? t) && (t <=? 63844934399000000) then cluster "cluster1"
      else if (63844934400000000 <=? t) && (t <=? 63849772799000000) then cluster "cluster2"
      else if (63849772800000000 <=? t) && (t <=? 63855388799000000) then cluster "cluster3"
      else cluster "cluster1").
Proof.
  unfold cluster_for_date, Db.CLUSTERS. cbn [first_cluster_covering start_date end_date].
  replace (strptime_iso "2024-01-01T00:00:00Z") with (Some 63839664000000000)
    by (vm_compute; reflexivity).
  replace (strptime_iso "2024-03-01T23:59:59Z") with (Some 63844934399000000)
    by (vm_compute; reflexivity).
  replace (strptime_iso "2024-03-02T00:00:00Z") with (Some 63844934400000000)
    by (vm_compute; reflexivity).
  replace (strptime_iso "2024-04-26T23:59:59Z") with (Some 63849772799000000)
    by (vm_compute; reflexivity).
  replace (strptime_iso "2024-04-27T00:00:00Z") with (Some 63849772800000000)
    by (vm_compute; reflexivity).
  replace (strptime_iso "2024-06-30T23:59:59Z") with (Some 63855388799000000)
    by (vm_compute; reflexivity).
  cbn [or_raise rbind].
  destruct (_ && _); [reflexivity |].
  destruct (_ && _); [reflexivity |].
  destruct (_ && _); reflexivity.
Qed.

Lemma cluster_for_date_total (t : datetime) :
  exists c, cluster_for_date Db.CLUSTERS t = Ok c.
Proof. rewrite cluster_for_date_closed_form. eauto. Qed.

(** ** Query layer and pipeline route alike (C10) *)

Lemma make_midnight (y m d : Z) (v : datetime) :
  make y m d 0 0 0 = Some v -> v = (ymd2ord y m d - 1) * DAY.
Proof.
  unfold make. destruct (_ && _); [| discriminate].
  intros H. injection H as <-. unfold DAY. lia.
Qed.

Lemma strptime_date_midnight (date_str : string) (d : datetime) :
  strptime_date date_str = Some d -> exists k, d = k * DAY.
Proof.
  unfold strptime_date. intros H.
  repeat match type of H with
         | mbind _ ?o = Some _ => destruct o as [[? ?] |]; simpl in H; [| discriminate H]
         | mbind _ ?o = Some _ => destruct o as [? |]; simpl in H; [| discriminate H]
         end.
  match type of H with match ?s with _ => _ end = _ => destruct s; [| discriminate H] end.
  apply make_midnight in H. eauto.
Qed.

(** C10.  For every date of the horizon 2024-01-01 .. 2024-06-30, written
    as the query layer reads it ([%Y-%m-%d]), and every timestamp [t] of that
    day in whole seconds (midnight, which [db.ipynb] passes, and the
    timestamps [mongo.ipynb] parses), [get_collection_for_date] answers
    with a collection of the cluster whose client both
    [get_client_for_date] functions return: cluster1 before 2024-03-02,
    cluster2 up to 2024-04-26, cluster3 from 2024-04-27. *)
Theorem query_layer_and_pipeline_choose_same_cluster
    (date_str : string) (d t : datetime) (w : World) :
  strptime_date date_str = Some d ->
  midnight 2024 1 1 <= d <= midnight 2024 6 30 ->
  d <= t < d + DAY ->
  t mod 1000000 = 0 ->
  exists coll,
    Api.get_collection_for_date date_str = Ok coll
    /\ fst (Db.get_client_for_date t w) = Ok (coll_client coll)
    /\ (forall s, strptime_iso s = Some t ->
                  fst (Mongo.get_client_for_date (JStr s) w) = Ok (coll_client coll))
    /\ coll = (if d <? midnight 2024 3 2 then Api.articles1
               else if d <? midnight 2024 4 27 then Api.articles2
               else Api.articles3).
Proof.
  intros Hd Hrange Ht Hsec.
  destruct (strptime_date_midnight _ _ Hd) as [k Hk].
  apply Z.mod_divide in Hsec; [| discriminate]. destruct Hsec as [j Hj].
  change (midnight 2024 1 1) with 63839664000000000 in Hrange.
  change (midnight 2024 6 30) with 63855302400000000 in Hrange.
  change (midnight 2024 3 2) with 63844934400000000.
  change (midnight 2024 4 27) with 63849772800000000.
  unfold DAY in *.
  assert (Hroute : cluster_for_date Db.CLUSTERS t
                   = Ok (if d <? 63844934400000000 then cluster "cluster1"
                         else if d <? 63849772800000000 then cluster "cluster2"
                         else cluster "cluster3")).
  { rewrite cluster_for_date_closed_form. f_equal.
    repeat match goal with
           | |- context [?a <=? ?b] => destruct (Z.leb_spec a b)
           | |- context [?a <? ?b] => destruct (Z.ltb_spec a b)
           end; simpl; try reflexivity; exfalso; lia. }
  eexists. split; [| split; [| split]].
  - unfold Api.get_collection_for_date. rewrite Hd.
    change (make 2024 4 27 0 0 0) with (Some 63849772800000000).
    change (make 2024 3 2 0 0 0) with (Some 63844934400000000).
    cbn [or_raise rbind].
    instantiate (1 := if d <? 63844934400000000 then Api.articles1
                      else if d <? 63849772800000000 then Api.articles2
                      else Api.articles3).
    repeat match goal with
           | |- context [?a <=? ?b] => destruct (Z.leb_spec a b)
           | |- context [?a <? ?b] => destruct (Z.ltb_spec a b)
           end; simpl; try reflexivity; exfalso; lia.
  - rewrite (db_get_client_for_date_eq t w _ Hroute). simpl.
    destruct (d <? 63844934400000000); [reflexivity |].
    destruct (d <? 63849772800000000); reflexivity.
  - intros s Hs. rewrite <- clusters_same in Hroute.
    rewrite (mongo_get_client_for_date_eq s t w _ Hs Hroute). simpl.
    destruct (d <? 63844934400000000); [reflexivity |].
    destruct (d <? 63849772800000000); reflexivity.
  - reflexivity.
Qed.

(** ** Text lemmas *)

Lemma startswith_iff (p s : string) :
  Text.startswith p s = true <-> exists post, s = (p ++ post)%string.
Proof.
  revert s. induction p as [| a p IH]; intros s; simpl.
  - split; eauto.
  - destruct s as [| b s].
    + split; [discriminate | intros [post H]; discriminate H].
    + destruct (Ascii.eqb_spec a b) as [-> | Hne].
      * rewrite IH. split; intros [post H]; exists post.
        -- rewrite H. reflexivity.
        -- injection H as H. exact H.
      * split; [discriminate | intros [post H]; injection H as H _; congruence].
Qed.

Lemma contains_iff (k s : string) :
  Text.contains k s = true <-> exists pre post, s = (pre ++ k ++ post)%string.
Proof.
  induction s as [| c s IH].
  - simpl. rewrite orb_false_r, startswith_iff. split.
    + intros [post H]. exists "", post. exact H.
    + intros ([| a pre] & post & H); [exists post; exact H | discriminate H].
  - simpl. rewrite orb_true_iff, startswith_iff, IH. split.
    + intros [[post H] | (pre & post & H)].
      * exists "", post. exact H.
      * exists (String c pre), post. simpl. rewrite H. reflexivity.
    + intros ([| a pre] & post & H).
      * left. exists post. exact H.
      * right. injection H as _ H. eauto.
Qed.

Lemma lower_app (a b : string) :
  Text.lower (a ++ b)%string = (Text.lower a ++ Text.lower b)%string.
Proof. induction a as [| c a IH]; simpl; [reflexivity | rewrite IH; reflexivity]. Qed.

Lemma lower_split (s a b : string) :
  Text.lower s = (a ++ b)%string ->
  exists x y, s = (x ++ y)%string /\ Text.lower x = a /\ Text.lower y = b.
Proof.
  revert s. induction a as [| c a IH]; intros s H.
  - exists "", s. auto.
  - destruct s as [| c' s]; [discriminate H |].
    simpl in H. injection H as Hc H. destruct (IH s H) as (x & y & -> & Hx & Hy).
    exists (String c' x), y. simpl. rewrite Hc, Hx. auto.
Qed.

Lemma contains_lower_iff (k s : string) :
  Text.contains (Text.lower k) (Text.lower s) = true <-> occurs_ignoring_case k s.
Proof.
  rewrite contains_iff. split.
  - intros (pre' & post' & H).
    destruct (lower_split _ _ _ H) as (pre & rest & -> & _ & Hrest).
    destruct (lower_split _ _ _ Hrest) as (m & post & -> & Hm & _).
    exists pre, m, post. auto.
  - intros (pre & m & post & -> & Hm).
    exists (Text.lower pre), (Text.lower post). rewrite !lower_app, Hm. reflexivity.
Qed.

Lemma keywords_lower (k : string) : In k Mongo.KEYWORDS -> Text.lower k = k.
Proof.
  simpl. intros H. repeat (destruct H as [<- | H]; [reflexivity |]). contradiction.
Qed.

Lemma any_keyword_iff (t u : string) :
  Mongo.any_keyword (Text.lower t) (Text.lower u) = true
  <-> exists k, In k Mongo.KEYWORDS /\ (occurs_ignoring_case k t \/ occurs_ignoring_case k u).
Proof.
  unfold Mongo.any_keyword. rewrite existsb_exists. split.
  - intros (k & Hk & H). exists k. split; [exact Hk |].
    rewrite <- !contains_lower_iff, (keywords_lower k Hk). apply orb_true_iff, H.
  - intros (k & Hk & H). exists k. split; [exact Hk |].
    rewrite <- !contains_lower_iff, (keywords_lower k Hk) in H. apply orb_true_iff, H.
Qed.

(** ** The normalizer *)

Lemma differs_false (v : json) (s : string) : Mongo.differs v s = false <-> v = JStr s.
Proof.
  destruct v; simpl; try (split; [discriminate | discriminate]).
  rewrite negb_false_iff, String.eqb_eq. split; [intros ->; reflexivity | congruence].
Qed.

Lemma lower_text_field (fields : list (string * json)) (key : string) (l : string) :
  Mongo.lower (default (JStr "") (assoc key fields)) = Ok l
  <-> exists t, text_field fields key = Some t /\ l = Text.lower t.
Proof.
  unfold text_field. destruct (assoc key fields) as [[] |]; simpl;
    try (split; [discriminate | intros (t & H & _); discriminate H]).
  - split; [intros H; injection H as <-; eauto |].
    intros (t & H & ->). injection H as <-. reflexivity.
  - split; [intros H; injection H as <-; eauto |].
    intros (t & H & ->). injection H as <-. reflexivity.
Qed.

Section Normalizer.

Variable py_str : json -> string.

Lemma normalize_wrong_language (fields : list (string * json)) :
  assoc "lang" fields <> Some (JStr "ENGLISH") ->
  Mongo.normalize py_str (JObj fields) = Ok None.
Proof.
  intros H. unfold Mongo.normalize. simpl.
  destruct (Mongo.differs _ _) eqn:Hd; [reflexivity |].
  apply differs_false in Hd. destruct (assoc "lang" fields); simpl in Hd; congruence.
Qed.

Lemma normalize_no_keyword (fields : list (string * json)) (t u : string) :
  text_field fields "title" = Some t ->
  text_field fields "url" = Some u ->
  Mongo.any_keyword (Text.lower t) (Text.lower u) = false ->
  Mongo.normalize py_str (JObj fields) = Ok None.
Proof.
  intros Ht Hu Hk. unfold Mongo.normalize. simpl.
  destruct (Mongo.differs _ _); [reflexivity |].
  assert (H1 : Mongo.lower (default (JStr "") (assoc "title" fields)) = Ok (Text.lower t))
    by (apply lower_text_field; eauto).
  assert (H2 : Mongo.lower (default (JStr "") (assoc "url" fields)) = Ok (Text.lower u))
    by (apply lower_text_field; eauto).
  rewrite H1. simpl. rewrite H2. simpl. rewrite Hk. reflexivity.
Qed.

(** What a produced document tells about the article. *)
Lemma normalize_some (fields : list (string * json)) (d : Doc) :
  Mongo.normalize py_str (JObj fields) = Ok (Some d) ->
  assoc "lang" fields = Some (JStr "ENGLISH")
  /\ exists t u src,
      text_field fields "title" = Some t /\ text_field fields "url" = Some u
      /\ Mongo.any_keyword (Text.lower t) (Text.lower u) = true
      /\ Mongo.url_or_title py_str (JObj fields) = Ok (JStr src)
      /\ d = {| _id := MD5.hexdigest src;
                date := default JNull (assoc "date" fields);
                title := default JNull (assoc "title" fields);
                url := default JNull (assoc "url" fields);
                lang := default JNull (assoc "lang" fields);
                docembed := default (JArr []) (assoc "docembed" fields) |}.
Proof.
  unfold Mongo.normalize. simpl.
  destruct (Mongo.differs _ _) eqn:Hd; [discriminate |].
  apply differs_false in Hd.
  destruct (Mongo.lower (default (JStr "") (assoc "title" fields))) as [tl |] eqn:H1;
    [| discriminate].
  destruct (Mongo.lower (default (JStr "") (assoc "url" fields))) as [ul |] eqn:H2;
    [| discriminate].
  simpl. apply lower_text_field in H1 as (t & Ht & ->).
  apply lower_text_field in H2 as (u & Hu & ->).
  destruct (Mongo.any_keyword _ _) eqn:Hk; [| discriminate]. simpl.
  unfold Mongo.url_or_title. simpl.
  destruct (py_or _ _) as [| | | | s | |] eqn:Hsrc; simpl; try discriminate.
  destruct (Codec.has_surrogate s); [discriminate |].
  intros H. injection H as <-. split.
  - destruct (assoc "lang" fields); simpl in Hd; congruence.
  - exists t, u, s. auto.
Qed.

(** What does hold of the two gates (C7).  An article whose language tag
    is not exactly "ENGLISH" is dropped, whatever its title and url; an
    article tagged "ENGLISH" in whose title and url (text, empty when
    missing) no keyword occurs, letter case ignored, is dropped; a document
    is only made for an article tagged "ENGLISH" with a keyword occurring
    in its title or its url. *)
Lemma language_and_relevance_gates (fields : list (string * json)) :
  (assoc "lang" fields <> Some (JStr "ENGLISH") ->
   Mongo.normalize py_str (JObj fields) = Ok None)
  /\ (forall t u,
        assoc "lang" fields = Some (JStr "ENGLISH") ->
        text_field fields "title" = Some t ->
        text_field fields "url" = Some u ->
        (forall k, In k Mongo.KEYWORDS ->
                   ~ occurs_ignoring_case k t /\ ~ occurs_ignoring_case k u) ->
        Mongo.normalize py_str (JObj fields) = Ok None)
  /\ (forall d,
        Mongo.normalize py_str (JObj fields) = Ok (Some d) ->
        assoc "lang" fields = Some (JStr "ENGLISH")
        /\ exists t u k,
            text_field fields "title" = Some t /\ text_field fields "url" = Some u
            /\ In k Mongo.KEYWORDS
            /\ (occurs_ignoring_case k t \/ occurs_ignoring_case k u)).
Proof.
  split; [| split].
  - apply normalize_wrong_language.
  - intros t u _ Ht Hu Hnone. apply (normalize_no_keyword fields t u Ht Hu).
    destruct (Mongo.any_keyword _ _) eqn:Hk; [| reflexivity].
    apply any_keyword_iff in Hk as (k & Hin & Hocc).
    destruct (Hnone k Hin) as [Hnt Hnu]. tauto.
  - intros d Hd. apply normalize_some in Hd as (Hlang & t & u & src & Ht & Hu & Hk & _).
    split; [exact Hlang |].
    apply any_keyword_iff in Hk as (k & Hin & Hocc). exists t, u, k. auto.
Qed.

(** C7, at the failing inputs.  An article tagged "ENGLISH" whose title or
    url is present and is not text (null, a number, a list) is neither
    dropped nor made a document, whether a keyword occurs or not: the
    normalizer raises [AttributeError] at [.lower()], before the relevance
    gate is evaluated, and [insert_articles] lets the exception escape. *)
Theorem non_text_title_or_url_is_not_dropped (fields : list (string * json)) (w : World) :
  assoc "lang" fields = Some (JStr "ENGLISH") ->
  text_field fields "title" = None \/ text_field fields "url" = None ->
  Mongo.normalize py_str (JObj fields) = Raise AttributeError
  /\ Mongo.insert_articles py_str [JObj fields] w = (Raise AttributeError, w).
Proof.
  intros Hlang Hbad.
  assert (Mongo.normalize py_str (JObj fields) = Raise AttributeError) as Hn.
  { unfold Mongo.normalize. cbn [Mongo.get rbind]. rewrite Hlang.
    cbn [default from_option id Mongo.differs String.eqb Ascii.eqb Bool.eqb negb].
    unfold text_field in Hbad.
    destruct (assoc "title" fields) as [[] |]; cbn [default from_option id Mongo.lower rbind];
      try reflexivity;
      destruct Hbad as [Hbad | Hbad]; try discriminate Hbad;
      destruct (assoc "url" fields) as [[] |]; cbn [default from_option id Mongo.lower rbind];
      try reflexivity; discriminate Hbad. }
  split; [exact Hn |].
  unfold Mongo.insert_articles, bind, lift. cbn [Mongo.prepare]. rewrite Hn. reflexivity.
Qed.

End Normalizer.

(** ** Document identity (C2) *)

Section Identity.

Variable py_str : json -> string.

Lemma url_or_title_url (fields : list (string * json)) (u : string) :
  assoc "url" fields = Some (JStr u) -> u <> "" ->
  Mongo.url_or_title py_str (JObj fields) = Ok (JStr u).
Proof.
  intros Hu Hne. unfold Mongo.url_or_title, py_or. simpl. rewrite Hu. simpl.
  destruct (String.eqb_spec u ""); [contradiction | reflexivity].
Qed.

Lemma url_or_title_title (fields : list (string * json)) (t : string) :
  blank fields "url" -> assoc "title" fields = Some (JStr t) -> t <> "" ->
  Mongo.url_or_title py_str (JObj fields) = Ok (JStr t).
Proof.
  intros Hb Ht Hne. unfold Mongo.url_or_title, py_or. simpl. rewrite Hb, Ht. simpl.
  destruct (String.eqb_spec t ""); [contradiction | reflexivity].
Qed.

Lemma url_or_title_str (fields : list (string * json)) :
  blank fields "url" -> blank fields "title" ->
  Mongo.url_or_title py_str (JObj fields) = Ok (JStr (py_str (JObj fields))).
Proof.
  intros Hu Ht. unfold Mongo.url_or_title, py_or. simpl. rewrite Hu, Ht. reflexivity.
Qed.

(** C2, amended.  The [_id] of a document is the MD5 digest of
    [url_or_title]: the url when it is a non-empty text; the title when the
    url is missing, null or empty and the title is a non-empty text; the
    rendering of the whole article when both are missing, null or empty.
    Two articles with the same non-empty url get the same [_id].  The
    document is a function of the article alone. *)
Theorem identity_from_url_or_title (fields : list (string * json)) (d : Doc) :
  Mongo.normalize py_str (JObj fields) = Ok (Some d) ->
  (exists src, Mongo.url_or_title py_str (JObj fields) = Ok (JStr src)
               /\ _id d = MD5.hexdigest src)
  /\ (forall u, assoc "url" fields = Some (JStr u) -> u <> "" ->
                Mongo.url_or_title py_str (JObj fields) = Ok (JStr u))
  /\ (forall t, blank fields "url" -> assoc "title" fields = Some (JStr t) -> t <> "" ->
                Mongo.url_or_title py_str (JObj fields) = Ok (JStr t))
  /\ (blank fields "url" -> blank fields "title" ->
      Mongo.url_or_title py_str (JObj fields) = Ok (JStr (py_str (JObj fields))))
  /\ (forall u fields' d',
        assoc "url" fields = Some (JStr u) -> assoc "url" fields' = Some (JStr u) ->
        u <> "" ->
        Mongo.normalize py_str (JObj fields') = Ok (Some d') ->
        _id d' = _id d /\ _id d = MD5.hexdigest u).
Proof.
  intros Hd. split; [| split; [| split; [| split]]].
  - apply normalize_some in Hd as (_ & t & u & src & _ & _ & _ & Hsrc & ->).
    exists src. auto.
  - apply url_or_title_url.
  - apply url_or_title_title.
  - apply url_or_title_str.
  - intros u fields' d' Hu Hu' Hne Hd'.
    apply normalize_some in Hd as (_ & t & x & src & _ & _ & _ & Hsrc & ->).
    apply normalize_some in Hd' as (_ & t' & x' & src' & _ & _ & _ & Hsrc' & ->).
    rewrite (url_or_title_url fields u Hu Hne) in Hsrc.
    rewrite (url_or_title_url fields' u Hu' Hne) in Hsrc'.
    injection Hsrc as <-. injection Hsrc' as <-. auto.
Qed.

(** The relevance gate leaves no article with both fields blank: the
    rendering of the article is never what is hashed. *)
Lemma identity_never_from_str (fields : list (string * json)) (d : Doc) :
  Mongo.normalize py_str (JObj fields) = Ok (Some d) ->
  ~ (blank fields "url" /\ blank fields "title").
Proof.
  intros Hd [Hu Ht].
  apply normalize_some in Hd as (_ & t & u & src & Htt & Htu & Hk & _).
  unfold blank, text_field in *.
  destruct (assoc "url" fields) as [[] |]; try discriminate;
    destruct (assoc "title" fields) as [[] |]; try discriminate;
    simpl in Hu, Ht; injection Htt as <-; injection Htu as <-;
    repeat match goal with
           | H : negb (String.eqb ?s "") = false |- _ =>
               apply negb_false_iff, String.eqb_eq in H; subst s
           end; vm_compute in Hk; discriminate Hk.
Qed.

End Identity.

(** C2, as stated, fails: two articles with the same url, the empty text,
    and different titles get different [_id]s. *)
Lemma same_empty_url_different_id :
  ~ (forall (py_str : json -> string) (a b : json) (da db : Doc),
        Mongo.get a "url" JNull = Mongo.get b "url" JNull ->
        Mongo.normalize py_str a = Ok (Some da) ->
        Mongo.normalize py_str b = Ok (Some db) ->
        _id da = _id db).
Proof.
  intros H.
  specialize (H (fun _ => "")
                (JObj [("lang", JStr "ENGLISH"); ("url", JStr ""); ("title", JStr "tesla a")])
                (JObj [("lang", JStr "ENGLISH"); ("url", JStr ""); ("title", JStr "tesla b")])
                _ _ eq_refl eq_refl eq_refl).
  vm_compute in H. discriminate H.
Qed.

(** ** Values that are not text (C8) *)

Section Completion.

Variable py_str : json -> string.

(** C8, at the failing input: an article tagged "ENGLISH" whose title is
    null makes the normalizer raise [AttributeError], at
    [article.get("title", "").lower()]; the default only stands in for a
    missing key.  [insert_articles] lets the exception escape. *)
Theorem null_title_raises (w : World) :
  let article :=
    JObj [("lang", JStr "ENGLISH"); ("url", JStr "https://example.com/tesla");
          ("title", JNull)] in
  Mongo.normalize py_str article = Raise AttributeError
  /\ Mongo.insert_articles py_str [article] w = (Raise AttributeError, w).
Proof. split; reflexivity. Qed.

(** What does hold: when title and url are each missing or text without a
    lone surrogate, the normalizer completes, and a missing [docembed]
    becomes the empty list. *)
Lemma normalize_completes_on_text (fields : list (string * json)) (t u : string) :
  text_field fields "title" = Some t ->
  text_field fields "url" = Some u ->
  Codec.has_surrogate t = false -> Codec.has_surrogate u = false ->
  Mongo.normalize py_str (JObj fields) = Ok None
  \/ exists d, Mongo.normalize py_str (JObj fields) = Ok (Some d)
               /\ (assoc "docembed" fields = None -> docembed d = JArr []).
Proof.
  intros Ht Hu Hst Hsu. unfold Mongo.normalize. simpl.
  destruct (Mongo.differs _ _); [left; reflexivity |].
  assert (H1 : Mongo.lower (default (JStr "") (assoc "title" fields)) = Ok (Text.lower t))
    by (apply lower_text_field; eauto).
  assert (H2 : Mongo.lower (default (JStr "") (assoc "url" fields)) = Ok (Text.lower u))
    by (apply lower_text_field; eauto).
  rewrite H1. simpl. rewrite H2. simpl.
  destruct (Mongo.any_keyword _ _) eqn:Hk; [| left; reflexivity]. simpl. right.
  assert (Hsrc : exists src, py_or (default JNull (assoc "url" fields))
                               (py_or (default JNull (assoc "title" fields))
                                  (JStr (py_str (JObj fields)))) = JStr src
                             /\ Codec.has_surrogate src = false).
  { unfold text_field in Ht, Hu. unfold py_or.
    destruct (assoc "url" fields) as [[] |]; try discriminate;
      destruct (assoc "title" fields) as [[] |]; try discriminate;
      injection Ht as <-; injection Hu as <-; simpl;
      repeat match goal with
             | |- context [String.eqb ?s ""] => destruct (String.eqb_spec s ""); subst; simpl
             end; eauto; vm_compute in Hk; discriminate Hk. }
  destruct Hsrc as (src & -> & Hs). simpl. rewrite Hs. simpl.
  eexists. split; [reflexivity |]. simpl. intros ->. reflexivity.
Qed.

End Completion.

(** ** The batch writer *)

Ltac world_eq :=
  match goal with
  | w : World |- _ =>
      destruct w; unfold after, connected, set_out, set_faults, set_mongo; simpl;
      repeat rewrite <- app_assoc; reflexivity
  end.

Lemma after_after (e1 e2 : list Event) (w : World) :
  after e2 (after e1 w) = after (e1 ++ e2) w.
Proof. world_eq. Qed.

Lemma strptime_ok (v : json) (t : datetime) :
  Mongo.strptime v = Ok t -> exists s, v = JStr s /\ strptime_iso s = Some t.
Proof.
  destruct v; simpl; try discriminate.
  destruct (strptime_iso s) eqn:H; simpl; [| discriminate].
  intros E. injection E as <-. eauto.
Qed.

Lemma get_client_resolved (v : json) (t : datetime) (c : Cluster) (w : World) :
  Mongo.strptime v = Ok t ->
  cluster_for_date Mongo.CLUSTERS t = Ok c ->
  Mongo.get_client_for_date v w = (Ok (client_of c), after [Connect (uri c)] w).
Proof.
  intros Hv Hc. apply strptime_ok in Hv as (s & -> & Hs).
  apply (mongo_get_client_for_date_eq s t w c Hs Hc).
Qed.

Section Writer.

Variable py_str : json -> string.

Variables (docs : list Doc) (first : Doc) (t : datetime) (c : Cluster).
Hypothesis Hdate : Mongo.strptime (date first) = Ok t.
Hypothesis Hcluster : cluster_for_date Mongo.CLUSTERS t = Ok c.

Let coll : Collection := articles_collection c.
Let attempt : list Event := [Connect (uri c); InsertMany coll docs].

(** An attempt that times out: message, five seconds of sleep, and the loop
    goes on with one retry less. *)
Lemma attempts_timeout (fewer : nat) (counts : Z * Z) (w : World) (later : list bool) :
  faults w = true :: later ->
  Mongo.attempts (S fewer) docs first counts w
  = Mongo.attempts fewer docs first counts
      (after (attempt ++ [Print (ConnectionTimeout (Z.of_nat fewer)); Sleep 5])
             (set_faults later w)).
Proof.
  intros Hf. cbn [Mongo.attempts].
  rewrite (bind_ok _ _ _ _ _ (get_client_resolved _ _ _ w Hdate Hcluster)).
  unfold insert_many. cbn [faults after set_out]. rewrite Hf.
  unfold bind, print, sleep, emit. cbn [fst snd]. f_equal.
  destruct w; unfold after, set_out, set_faults; simpl in *.
  repeat rewrite <- app_assoc. reflexivity.
Qed.

(** An attempt that is answered ends the loop with the counts of the bulk
    write. *)
Lemma attempts_answered (fewer : nat) (w : World) :
  (faults w = [] \/ exists later, faults w = false :: later) ->
  Mongo.attempts (S fewer) docs first (0, 0) w
  = (Ok (S fewer, answered (write_error w) (held_by w coll) docs),
     set_mongo (<[coll_key coll := stored (write_error w) (held_by w coll) docs]> (mongo w))
       (after attempt (set_faults (tail (faults w)) w))).
Proof.
  intros Hf. cbn [Mongo.attempts].
  rewrite (bind_ok _ _ _ _ _ (get_client_resolved _ _ _ w Hdate Hcluster)).
  unfold insert_many, answered, stored, held_by.
  cbn [faults write_error mongo after set_out set_faults].
  fold coll.
  assert (Hhead : match faults w with true :: _ => False | _ => True end)
    by (destruct Hf as [-> | [later ->]]; exact I).
  destruct (faults w) as [| [] later] eqn:E; [| contradiction |];
    destruct (bulk_write (write_error w) _ 0 docs) as [[ids' inserted] errors];
    destruct errors; cbn [fst snd length]; f_equal;
    destruct w; unfold after, set_out, set_faults, set_mongo; simpl in *;
    repeat rewrite <- app_assoc; subst; reflexivity.
Qed.

End Writer.

Section Flush.

Variable py_str : json -> string.

Variables (articles : list json) (first : Doc) (rest : list Doc) (t : datetime) (c : Cluster).
Hypothesis Hprepare : Mongo.prepare py_str articles [] = Ok (first :: rest).
Hypothesis Hdate : Mongo.strptime (date first) = Ok t.
Hypothesis Hcluster : cluster_for_date Mongo.CLUSTERS t = Ok c.

Let docs : list Doc := first :: rest.
Let coll : Collection := articles_collection c.
Let attempt : list Event := [Connect (uri c); InsertMany coll docs].
Let timeout (left : Z) : list Event := [Print (ConnectionTimeout left); Sleep 5].

Lemma insert_articles_unfold (w : World) :
  Mongo.insert_articles py_str articles w
  = (let* (retries, counts) := Mongo.attempts 3 docs first (0, 0) in
     (if Nat.eqb retries 0 then print AllRetriesFailed else ret tt) ;; ret counts) w.
Proof.
  unfold Mongo.insert_articles, bind at 1, lift. rewrite Hprepare. reflexivity.
Qed.

(** The flush, in closed form: the attempts that time out, then either the
    answer of the bulk write or, once three attempts have timed out, the
    message and the counts (0, 0) with the store untouched. *)
Lemma insert_articles_closed_form (w : World) :
  let k := leading_timeouts 3 (faults w) in
  exists w',
    Mongo.insert_articles py_str articles w
    = (Ok (if Nat.eqb k 3 then (0, 0) else answered (write_error w) (held_by w coll) docs), w')
    /\ out w' = out w ++ flush_events first rest c k
    /\ mongo w' = (if Nat.eqb k 3 then mongo w
                   else <[coll_key coll := stored (write_error w) (held_by w coll) docs]> (mongo w))
    /\ faults w' = skipn (if Nat.eqb k 3 then 3 else S k) (faults w)
    /\ s3 w' = s3 w /\ storageSize w' = storageSize w /\ write_error w' = write_error w.
Proof.
  rewrite insert_articles_unfold.
  destruct (faults w) as [| [] [| [] [| [] l3]]] eqn:Hf; cbn [leading_timeouts Nat.eqb];
    unfold bind at 1;
    repeat (erewrite (attempts_timeout docs first t c Hdate Hcluster)
              by first [exact Hf | reflexivity]);
    try (erewrite (attempts_answered docs first t c Hdate Hcluster)
           by first [left; first [exact Hf | reflexivity]
                    | right; eexists; first [exact Hf | reflexivity]]);
    (eexists; split; [reflexivity |]);
    try rewrite Hf; simpl; rewrite <- ?app_assoc; auto 10.
Qed.

End Flush.

(** *** Accounting of a bulk write *)

Lemma bulk_write_lengths (reject : Doc -> option Z) (docs : list Doc)
    (ids : gmap string Doc) (i : Z) :
  (length (snd (fst (bulk_write reject ids i docs)))
   + length (snd (bulk_write reject ids i docs)) = length docs)%nat.
Proof.
  revert ids i. induction docs as [| d docs IH]; intros ids i; [reflexivity |].
  cbn [bulk_write]. destruct (reject d).
  - specialize (IH ids (i + 1)). destruct (bulk_write reject ids (i + 1) docs) as [[? ?] ?].
    simpl in *. lia.
  - destruct (ids !! _id d).
    + specialize (IH ids (i + 1)).
      destruct (bulk_write reject ids (i + 1) docs) as [[? ?] ?]. simpl in *. lia.
    + specialize (IH (<[_id d := d]> ids) (i + 1)).
      destruct (bulk_write reject (<[_id d := d]> ids) (i + 1) docs) as [[? ?] ?].
      simpl in *. lia.
Qed.

Lemma preexisting_fresh (ids : gmap string Doc) (x : Doc) (docs : list Doc) :
  ~ In (_id x) (map _id docs) ->
  preexisting (<[_id x := x]> ids) docs = preexisting ids docs.
Proof.
  induction docs as [| d docs IH]; intros Hx; [reflexivity |].
  simpl in Hx. unfold preexisting, holds in *. simpl.
  rewrite IH by tauto.
  rewrite lookup_insert_ne by (intros E; apply Hx; left; symmetry; exact E).
  reflexivity.
Qed.

(** When the server refuses nothing on its own and the [_id]s of the batch
    are distinct, the write errors are the duplicate keys of the documents
    that were there before. *)
Lemma bulk_write_duplicates (reject : Doc -> option Z) (docs : list Doc)
    (ids : gmap string Doc) (i : Z) :
  (forall d, In d docs -> reject d = None) ->
  NoDup (map _id docs) ->
  length (snd (bulk_write reject ids i docs)) = length (preexisting ids docs)
  /\ Forall (fun e => code e = DUPLICATE_KEY) (snd (bulk_write reject ids i docs)).
Proof.
  revert ids i. induction docs as [| d docs IH]; intros ids i Hrej Hnd.
  - split; [reflexivity | constructor].
  - apply NoDup_cons in Hnd as [Hfresh Hnd].
    assert (Hrej' : forall d', In d' docs -> reject d' = None)
      by (intros d' Hd'; apply Hrej; right; exact Hd').
    cbn [bulk_write]. rewrite (Hrej d) by (left; reflexivity).
    unfold preexisting. cbn [List.filter].
    unfold holds at 1. destruct (ids !! _id d) as [held |] eqn:Hin.
    + destruct (IH ids (i + 1) Hrej' Hnd) as [Hlen Hall].
      destruct (bulk_write reject ids (i + 1) docs) as [[? ?] errs]. simpl in *.
      split; [unfold preexisting in Hlen; lia | constructor; [reflexivity | exact Hall]].
    + destruct (IH (<[_id d := d]> ids) (i + 1) Hrej' Hnd) as [Hlen Hall].
      rewrite preexisting_fresh in Hlen by (rewrite <- list_elem_of_In; exact Hfresh).
      destruct (bulk_write reject (<[_id d := d]> ids) (i + 1) docs) as [[? ?] errs].
      simpl in *. split; [exact Hlen | exact Hall].
Qed.

Section FlushProperties.

Variable py_str : json -> string.

(** C4, amended.  When the bulk write is answered within the three
    attempts, the flush counts the documents it accepted as inserted and
    every write error as a duplicate, whatever the error is; the two
    counts add up to the size of the batch.  When the server refuses
    nothing on its own and the [_id]s of the batch are distinct, the write
    errors are exactly the duplicate keys of the [k] documents that were in
    the collection before, so the flush returns [(n - k, k)]. *)
Theorem flush_counts (articles : list json) (first : Doc) (rest : list Doc)
    (t : datetime) (c : Cluster) (w : World) :
  Mongo.prepare py_str articles [] = Ok (first :: rest) ->
  Mongo.strptime (date first) = Ok t ->
  cluster_for_date Mongo.CLUSTERS t = Ok c ->
  leading_timeouts 3 (faults w) <> 3%nat ->
  let docs := first :: rest in
  let ids := held_by w (articles_collection c) in
  let accepted := snd (fst (bulk_write (write_error w) ids 0 docs)) in
  let errors := snd (bulk_write (write_error w) ids 0 docs) in
  fst (Mongo.insert_articles py_str articles w)
  = Ok (Z.of_nat (length accepted), Z.of_nat (length errors))
  /\ Z.of_nat (length accepted) + Z.of_nat (length errors) = Z.of_nat (length docs)
  /\ ((forall d, In d docs -> write_error w d = None) ->
      NoDup (map _id docs) ->
      let n := Z.of_nat (length docs) in
      let k := Z.of_nat (length (preexisting ids docs)) in
      fst (Mongo.insert_articles py_str articles w) = Ok (n - k, k)
      /\ Forall (fun e => code e = DUPLICATE_KEY) errors).
Proof.
  intros Hprep Hdate Hcluster Hbudget docs ids accepted errors.
  destruct (insert_articles_closed_form py_str articles first rest t c Hprep Hdate Hcluster w)
    as (w' & Hrun & _).
  apply Nat.eqb_neq in Hbudget. rewrite Hbudget in Hrun.
  pose proof (bulk_write_lengths (write_error w) docs ids 0) as Hlen.
  fold accepted errors in Hlen.
  assert (Hcounts : answered (write_error w) ids docs
                    = (Z.of_nat (length accepted), Z.of_nat (length errors))).
  { unfold answered, accepted, errors.
    destruct (bulk_write (write_error w) ids 0 docs) as [[? ?] ?]. reflexivity. }
  rewrite Hrun. cbn [fst]. fold docs ids. rewrite Hcounts.
  split; [reflexivity | split; [lia |]].
  intros Hrej Hnd. cbv zeta.
  destruct (bulk_write_duplicates (write_error w) docs ids 0 Hrej Hnd) as [Hdup Hall].
  fold errors in Hdup, Hall. split; [| exact Hall].
  rewrite <- Hdup. do 2 f_equal. lia.
Qed.

(** C5.  A flush whose first document's date resolves to a cluster makes at
    most three attempts.  Each attempt builds a new client for that date and
    sends the whole batch; each timeout is followed by a message and five
    seconds of sleep.  When only the first two attempts time out, the third
    is answered and its counts are returned.  When three attempts time out,
    the flush prints a message and returns (0, 0) without raising, the
    store untouched. *)
Theorem retry_budget (articles : list json) (first : Doc) (rest : list Doc)
    (t : datetime) (c : Cluster) (w : World) :
  Mongo.prepare py_str articles [] = Ok (first :: rest) ->
  Mongo.strptime (date first) = Ok t ->
  cluster_for_date Mongo.CLUSTERS t = Ok c ->
  let docs := first :: rest in
  let coll := articles_collection c in
  let attempt := [Connect (uri c); InsertMany coll docs] in
  let timeout left := [Print (ConnectionTimeout left); Sleep 5] in
  (forall later,
      faults w = true :: true :: later ->
      (later = [] \/ exists l, later = false :: l) ->
      exists w',
        Mongo.insert_articles py_str articles w
        = (Ok (answered (write_error w) (held_by w coll) docs), w')
        /\ out w' = out w ++ attempt ++ timeout 2 ++ attempt ++ timeout 1 ++ attempt
        /\ held_by w' coll = stored (write_error w) (held_by w coll) docs)
  /\ (forall later,
      faults w = true :: true :: true :: later ->
      exists w',
        Mongo.insert_articles py_str articles w = (Ok (0, 0), w')
        /\ out w' = out w ++ attempt ++ timeout 2 ++ attempt ++ timeout 1 ++ attempt
                      ++ timeout 0 ++ [Print AllRetriesFailed]
        /\ mongo w' = mongo w)
  /\ (exists evs,
        out (snd (Mongo.insert_articles py_str articles w)) = out w ++ evs
        /\ (insert_many_calls evs <= 3)%nat
        /\ Forall (fun e => match e with
                            | InsertMany cl ds => cl = coll /\ ds = docs
                            | Sleep s => s = 5
                            | _ => True
                            end) evs).
Proof.
  intros Hprep Hdate Hcluster docs coll attempt timeout.
  destruct (insert_articles_closed_form py_str articles first rest t c Hprep Hdate Hcluster w)
    as (w' & Hrun & Hout & Hmongo & _).
  split; [| split].
  - intros later Hf Hlater. exists w'.
    assert (Hk : leading_timeouts 3 (faults w) = 2%nat)
      by (rewrite Hf; destruct Hlater as [-> | [l ->]]; reflexivity).
    rewrite Hk in Hrun, Hout, Hmongo. cbn [Nat.eqb] in Hrun, Hmongo.
    split; [exact Hrun | split; [exact Hout |]].
    unfold held_by at 1. rewrite Hmongo, lookup_insert_eq. reflexivity.
  - intros later Hf. exists w'.
    assert (Hk : leading_timeouts 3 (faults w) = 3%nat) by (rewrite Hf; reflexivity).
    rewrite Hk in Hrun, Hout, Hmongo. cbn [Nat.eqb] in Hrun, Hmongo.
    split; [exact Hrun | split; [| exact Hmongo]].
    rewrite Hout. reflexivity.
  - exists (flush_events first rest c (leading_timeouts 3 (faults w))).
    rewrite Hrun. cbn [snd]. split; [exact Hout |].
    destruct (leading_timeouts 3 (faults w)) as [| [| [| k]]];
      unfold insert_many_calls, flush_events; simpl;
      (split; [lia | repeat constructor]).
Qed.

End FlushProperties.

(** C4, as stated, fails: a document the server refuses for a reason of its
    own (here code 121, a failed validation) is counted as a duplicate,
    although the collection is empty and nothing collides. *)
Lemma other_write_error_counted_as_duplicate :
  let article :=
    JObj [("lang", JStr "ENGLISH"); ("url", JStr "https://example.com/tesla");
          ("date", JStr "2024-01-11T00:00:00Z")] in
  let w := {| s3 := fun _ => []; mongo := ∅; write_error := fun _ => Some 121;
              faults := []; storageSize := fun _ _ => 0; limits := usual_limits;
              out := [] |} in
  fst (Mongo.insert_articles (fun _ => "") [article] w) = Ok (0, 1)
  /\ held_by w (articles_collection (cluster "cluster1")) = ∅.
Proof. split; reflexivity. Qed.

(** ** What an action leaves behind *)

Lemma extends_refl (P : Event -> Prop) (w : World) : extends P w w.
Proof.
  split; [| repeat split; reflexivity].
  exists []. rewrite app_nil_r. split; [reflexivity | constructor].
Qed.

Lemma extends_trans (P : Event -> Prop) (w1 w2 w3 : World) :
  extends P w1 w2 -> extends P w2 w3 -> extends P w1 w3.
Proof.
  intros [(e1 & H1 & F1) (S1 & B1 & L1)] [(e2 & H2 & F2) (S2 & B2 & L2)].
  split; [| repeat split; congruence].
  exists (e1 ++ e2). rewrite H2, H1, app_assoc. split; [reflexivity |].
  apply Forall_app. split; assumption.
Qed.

Lemma extends_weaken (P P' : Event -> Prop) (w w' : World) :
  (forall e, P e -> P' e) -> extends P w w' -> extends P' w w'.
Proof.
  intros HP [(evs & H & F) HS]. split; [| exact HS].
  exists evs. split; [exact H |]. eapply List.Forall_impl; [| exact F]. exact HP.
Qed.

Lemma extends_after (P : Event -> Prop) (evs : list Event) (w : World) :
  Forall P evs -> extends P w (after evs w).
Proof.
  intros F. split; [| repeat split; reflexivity].
  exists evs. split; [reflexivity | exact F].
Qed.

Lemma post_ret {A : Type} (P : Event -> Prop) (Q : Result A -> Prop) (a : A) :
  Q (Ok a) -> run_post P Q (ret a).
Proof. intros H w. split; [apply extends_refl | exact H]. Qed.

Lemma post_lift {A : Type} (P : Event -> Prop) (Q : Result A -> Prop) (r : Result A) :
  Q r -> run_post P Q (lift r).
Proof. intros H w. split; [apply extends_refl | exact H]. Qed.

Lemma post_emit (P : Event -> Prop) (Q : Result unit -> Prop) (e : Event) :
  P e -> Q (Ok tt) -> run_post P Q (emit e).
Proof.
  intros He H w. split; [| exact H].
  apply (extends_after P [e] w). constructor; [exact He | constructor].
Qed.

Lemma post_bind {A B : Type} (P : Event -> Prop) (Q1 : Result A -> Prop)
    (Q : Result B -> Prop) (m : M A) (k : A -> M B) :
  run_post P Q1 m ->
  (forall a, Q1 (Ok a) -> run_post P Q (k a)) ->
  (forall e, Q1 (Raise e) -> Q (Raise e)) ->
  run_post P Q (bind m k).
Proof.
  intros Hm Hk He w. unfold bind. destruct (Hm w) as [Hext HQ].
  destruct (m w) as [[a | e] w1]; simpl in *.
  - destruct (Hk a HQ w1) as [Hext' HQ']. split; [| exact HQ'].
    eapply extends_trans; eassumption.
  - split; [exact Hext | apply He, HQ].
Qed.

Lemma post_weaken {A : Type} (P P' : Event -> Prop) (Q Q' : Result A -> Prop) (m : M A) :
  (forall e, P e -> P' e) -> (forall r, Q r -> Q' r) ->
  run_post P Q m -> run_post P' Q' m.
Proof.
  intros HP HQ Hm w. destruct (Hm w) as [Hext Hr].
  split; [eapply extends_weaken; eassumption | apply HQ, Hr].
Qed.

Lemma insert_many_extends (P : Event -> Prop) (coll : Collection) (docs : list Doc) (w : World) :
  P (InsertMany coll docs) -> extends P w (snd (insert_many coll docs w)).
Proof.
  intros HP. unfold insert_many. cbn [faults set_out].
  assert (Hev : Forall P [InsertMany coll docs]) by (constructor; [exact HP | constructor]).
  destruct (faults w) as [| [] later].
  - destruct (bulk_write _ _ _ _) as [[? ?] ?]. simpl.
    split; [| repeat split; reflexivity]. eexists. split; [reflexivity | exact Hev].
  - simpl. split; [| repeat split; reflexivity]. eexists. split; [reflexivity | exact Hev].
  - destruct (bulk_write _ _ _ _) as [[? ?] ?]. simpl.
    split; [| repeat split; reflexivity]. eexists. split; [reflexivity | exact Hev].
Qed.

Lemma get_client_post (P : Event -> Prop) (v : json) :
  (forall u, P (Connect u)) -> run_post P anything (Mongo.get_client_for_date v).
Proof.
  intros HP. unfold Mongo.get_client_for_date.
  eapply post_bind; [apply (post_lift P anything); exact I | | intros; exact I].
  intros t _.
  eapply post_bind; [apply (post_lift P anything); exact I | | intros; exact I].
  intros c _. unfold new_client.
  eapply post_bind; [apply (post_emit P anything); [apply HP | exact I] | | intros; exact I].
  intros _ _. apply post_ret. exact I.
Qed.

Lemma attempts_post (docs : list Doc) (first : Doc) (retries : nat) (counts : Z * Z) :
  run_post (sends docs) anything (Mongo.attempts retries docs first counts).
Proof.
  induction retries as [| fewer IH]; [apply post_ret; exact I |].
  cbn [Mongo.attempts].
  eapply post_bind; [apply (get_client_post (sends docs)); intros; exact I | | intros; exact I].
  intros client _ w.
  pose proof (insert_many_extends (sends docs)
                {| coll_client := client; coll_db := "gdelt_news"; coll_name := "articles" |}
                docs w eq_refl) as Hext.
  destruct (insert_many _ docs w) as [[ids | | n errs] w1]; cbn [fst snd] in *.
  - split; [exact Hext | exact I].
  - assert (Hrest : run_post (sends docs) anything
                      (print (ConnectionTimeout (Z.of_nat fewer)) ;; sleep 5 ;;
                       Mongo.attempts fewer docs first counts)).
    { eapply post_bind; [apply (post_emit _ anything); exact I | | intros; exact I].
      intros _ _.
      eapply post_bind; [apply (post_emit _ anything); exact I | | intros; exact I].
      intros _ _. exact IH. }
    destruct (Hrest w1) as [Hext' _]. split; [| exact I].
    eapply extends_trans; eassumption.
  - split; [exact Hext | exact I].
Qed.

Section WriterPost.

Variable py_str : json -> string.

(** Every [insert_many] call of a flush carries the documents prepared
    from the batch. *)
Lemma insert_articles_post (articles : list json) :
  run_post (fun e => match e with
                     | InsertMany _ ds => Mongo.prepare py_str articles [] = Ok ds
                     | _ => True
                     end)
           anything (Mongo.insert_articles py_str articles).
Proof.
  unfold Mongo.insert_articles. intros w. unfold bind at 1, lift.
  destruct (Mongo.prepare py_str articles []) as [[| first rest] | e] eqn:Hprep.
  - split; [apply extends_refl | exact I].
  - revert w. change (run_post (fun e => match e with
                                         | InsertMany _ ds => Ok (first :: rest) = Ok ds
                                         | _ => True
                                         end) anything
                        (let* (retries, counts) :=
                           Mongo.attempts 3 (first :: rest) first (0, 0) in
                         (if Nat.eqb retries 0 then print AllRetriesFailed else ret tt) ;;
                         ret counts)).
    eapply post_weaken with (P := sends (first :: rest)) (Q := anything);
      [intros [] H; simpl in *; try exact I; congruence | auto |].
    eapply post_bind; [apply attempts_post | | intros; exact I].
    intros [retries counts] _.
    eapply post_bind with (Q1 := anything); [| | intros; exact I].
    + destruct (Nat.eqb retries 0);
        [apply (post_emit _ anything); exact I | apply post_ret; exact I].
    + intros _ _. apply post_ret. exact I.
  - split; [apply extends_refl | exact I].
Qed.

End WriterPost.

(** ** The archive reader (C9) *)

Lemma after_nil (w : World) : after [] w = w.
Proof. destruct w. unfold after, set_out. simpl. rewrite app_nil_r. reflexivity. Qed.

Lemma read_lines_step (lim : Json.Limits) (key raw : string) (rest : list string)
    (records : list json) :
  Loader.read_lines lim key (raw :: rest) records
  = match classify lim raw with
    | Blank => Loader.read_lines lim key rest records
    | Parsed data => Loader.read_lines lim key rest (records ++ [data])
    | Corrupt => print (SkippingCorruptedLine key) ;; Loader.read_lines lim key rest records
    | Fatal e => raise e
    end.
Proof.
  cbn [Loader.read_lines]. unfold classify.
  destruct (String.eqb _ ""); [reflexivity |].
  destruct (Json.loads lim _); reflexivity.
Qed.

Lemma read_lines_closed_form (lim : Json.Limits) (key : string) (lines : list string)
    (records : list json) (w : World) :
  Loader.read_lines lim key lines records w
  = (match aborts lim lines with
     | Some e => Raise e
     | None => Ok (records ++ records_of lim lines)
     end,
     after (diagnostics_of lim key (lines_read lim lines)) w).
Proof.
  revert records w. induction lines as [| raw rest IH]; intros records w.
  - simpl. rewrite app_nil_r, after_nil. reflexivity.
  - rewrite read_lines_step. cbn [records_of aborts lines_read].
    destruct (classify lim raw) as [| data | | e] eqn:Hraw;
      cbn [diagnostics_of]; rewrite ?Hraw.
    + apply IH.
    + rewrite IH, <- app_assoc. reflexivity.
    + unfold bind, print, emit. cbn [fst snd]. rewrite IH.
      change (set_out (out w ++ [Print (SkippingCorruptedLine key)]) w)
        with (after [Print (SkippingCorruptedLine key)] w).
      rewrite after_after. reflexivity.
    + rewrite after_nil. reflexivity.
Qed.


Lemma readable_lines_read (lim : Json.Limits) (lines : list string) :
  aborts lim lines = None -> lines_read lim lines = lines.
Proof.
  induction lines as [| raw rest IH]; [reflexivity |]. cbn [aborts lines_read].
  destruct (classify lim raw); try discriminate; intros H; rewrite (IH H); reflexivity.
Qed.



Lemma diagnostics_of_app (lim : Json.Limits) (key : string) (a b : list string) :
  diagnostics_of lim key (a ++ b) = diagnostics_of lim key a ++ diagnostics_of lim key b.
Proof.
  induction a as [| raw rest IH]; [reflexivity |]. cbn [app diagnostics_of].
  destruct (classify lim raw); rewrite IH; reflexivity.
Qed.




(** ** The batches of a day (C6) *)

Lemma diagnostics_all (P : Event -> Prop) (lim : Json.Limits) (key : string)
    (lines : list string) :
  P (Print (SkippingCorruptedLine key)) -> Forall P (diagnostics_of lim key lines).
Proof.
  intros HP. induction lines as [| raw rest IH]; [constructor |].
  simpl. destruct (classify lim raw); try exact IH. constructor; assumption.
Qed.

Lemma read_gz_post (P : Event -> Prop) (bucket key : string) :
  (forall m, P (Print m)) -> run_post P anything (Loader.read_gz_file_from_s3 bucket key).
Proof.
  intros HP w. split; [| exact I].
  destruct (Loader.get_object key (s3 w bucket)) as [body |] eqn:Hobj.
  - unfold Loader.read_gz_file_from_s3. rewrite Hobj, read_lines_closed_form. cbn [snd].
    apply extends_after, diagnostics_all, HP.
  - unfold Loader.read_gz_file_from_s3. rewrite Hobj. apply extends_refl.
Qed.

Section Batches.

Variable py_str : json -> string.

Lemma prepare_length (articles : list json) (acc ds : list Doc) :
  Mongo.prepare py_str articles acc = Ok ds ->
  (length ds <= length acc + length articles)%nat.
Proof.
  revert acc. induction articles as [| a rest IH]; intros acc H.
  - injection H as <-. simpl. lia.
  - cbn [Mongo.prepare] in H. destruct (Mongo.normalize py_str a) as [[d |] | e]; simpl in H.
    + apply IH in H. rewrite length_app in H. simpl in *. lia.
    + apply IH in H. simpl. lia.
    + discriminate H.
Qed.

Lemma process_keys_post (bucket : string) (keys : list string) (pending : list json)
    (ti td : Z) :
  Z.of_nat (length pending) < Loader.BATCH_SIZE ->
  run_post (threshold_event py_str) short_pending (Loader.process_keys py_str bucket keys pending ti td).
Proof.
  revert pending ti td. induction keys as [| key rest IH]; intros pending ti td Hshort.
  - apply post_ret. exact Hshort.
  - cbn [Loader.process_keys].
    eapply post_bind with (Q1 := anything);
      [apply (post_emit _ anything); exact I | | intros; exact I].
    intros _ _.
    eapply post_bind with (Q1 := anything);
      [apply read_gz_post; intros; exact I | | intros; exact I].
    intros [| a articles] _; [apply IH, Hshort |].
    destruct (Loader.BATCH_SIZE <=? _) eqn:Hfull.
    + apply Z.leb_le in Hfull.
      eapply post_bind with (Q1 := anything); [| | intros; exact I].
      * eapply post_weaken; [| | apply (insert_articles_post py_str)]; [| auto].
        intros [] H; simpl; try exact I.
        exists pending, (a :: articles). split; [exact H | split; [lia |]].
        apply prepare_length in H. rewrite length_app in H. simpl in *. lia.
      * intros [inserted duplicates] _.
        eapply post_bind with (Q1 := anything);
          [apply (post_emit _ anything); exact I | | intros; exact I].
        intros _ _. apply IH. unfold Loader.BATCH_SIZE. simpl. lia.
    + apply Z.leb_gt in Hfull. apply IH. exact Hfull.
Qed.

Lemma process_articles_for_day_post (bucket date_str : string) :
  run_post (day_event py_str) anything
    (Loader.process_articles_for_day py_str bucket date_str).
Proof.
  unfold Loader.process_articles_for_day.
  eapply post_bind with (Q1 := anything); [| | intros; exact I].
  { intros w0. split; [apply extends_refl | exact I]. }
  intros keys _.
  eapply post_bind with (Q1 := short_pending); [| | intros; exact I].
  { eapply post_weaken; [| | apply process_keys_post];
      [intros [] He; simpl in *; auto | auto | unfold Loader.BATCH_SIZE; simpl; lia]. }
  intros [[pending ti] td] Hshort. simpl in Hshort.
  destruct pending as [| a pending]; [apply post_ret; exact I |].
  eapply post_bind with (Q1 := anything); [| | intros; exact I].
  - eapply post_weaken; [| | apply (insert_articles_post py_str)]; [| auto].
    intros [] He; simpl; try exact I. right.
    exists (a :: pending). split; [exact He | split; [simpl in *; lia |]].
    apply prepare_length in He. simpl in *. lia.
  - intros [inserted duplicates] _. apply post_ret. exact I.
Qed.

Lemma flush_keeps_bucket (articles : list json) (w : World) :
  s3 (snd (Mongo.insert_articles py_str articles w)) = s3 w
  /\ limits (snd (Mongo.insert_articles py_str articles w)) = limits w.
Proof.
  destruct (insert_articles_post py_str articles w) as [(_ & _ & Hs3 & Hlim) _].
  split; assumption.
Qed.

(** What a read that returns gives: the records of the archive, after
    its diagnostics. *)
Lemma read_returns (lim : Json.Limits) (key : string) (lines : list string) (w w' : World)
    (articles : list json) :
  Loader.read_lines lim key lines [] w = (Ok articles, w') ->
  articles = records_of lim lines /\ w' = after (diagnostics_of lim key lines) w.
Proof.
  rewrite read_lines_closed_form. destruct (aborts lim lines) eqn:Hab; [discriminate |].
  rewrite (readable_lines_read _ _ Hab). cbn [app]. intros H. injection H as <- <-.
  split; reflexivity.
Qed.

Lemma diagnostics_between (lim : Json.Limits) (key : string) (lines : list string) :
  Forall between_flushes (diagnostics_of lim key lines).
Proof. apply diagnostics_all. exact I. Qed.

Lemma flushed_after (batches : list (list json)) (evs0 : list Event) (w w' : World)
    (inserted duplicates : Z) :
  Forall between_flushes evs0 ->
  flushed_in_turn py_str batches (after evs0 w) w' inserted duplicates ->
  flushed_in_turn py_str batches w w' inserted duplicates.
Proof.
  intros H0. destruct batches as [| batch rest]; cbn [flushed_in_turn].
  - intros [(evs & Hevs & ->) Hcounts]. split; [| exact Hcounts].
    exists (evs0 ++ evs). split; [apply Forall_app; split; assumption |].
    apply after_after.
  - intros (evs & i & d & w2 & Hevs & Hrun & Hrest).
    exists (evs0 ++ evs), i, d, w2. split; [apply Forall_app; split; assumption |].
    rewrite <- after_after. split; assumption.
Qed.

Lemma flushed_app (batches later : list (list json)) (w w1 w' : World) (i1 d1 i2 d2 : Z) :
  flushed_in_turn py_str batches w w1 i1 d1 ->
  flushed_in_turn py_str later w1 w' i2 d2 ->
  flushed_in_turn py_str (batches ++ later) w w' (i1 + i2) (d1 + d2).
Proof.
  revert w i1 d1. induction batches as [| batch rest IH]; intros w i1 d1; cbn [flushed_in_turn app].
  - intros [(evs & Hevs & ->) [-> ->]] Hlater. apply (flushed_after later evs); assumption.
  - intros (evs & i & d & w2 & Hevs & Hrun & Hrest) Hlater.
    exists evs, i, d, w2. split; [exact Hevs |]. split; [exact Hrun |].
    replace (i1 + i2 - i) with (i1 - i + i2) by lia.
    replace (d1 + d2 - d) with (d1 - d + d2) by lia.
    apply IH; assumption.
Qed.

(** The loop cuts the batches that [threshold_batches] gives and leaves
    pending what it leaves. *)
Lemma process_keys_flushes (bucket : string) (keys : list string) (pending : list json)
    (ti td : Z) (w w' : World) (pending' : list json) (ti' td' : Z) :
  Z.of_nat (length pending) < Loader.BATCH_SIZE ->
  Loader.process_keys py_str bucket keys pending ti td w = (Ok (pending', ti', td'), w') ->
  exists batches,
    threshold_batches pending (day_archives (limits w) (s3 w bucket) keys)
    = (batches, pending')
    /\ flushed_in_turn py_str batches w w' (ti' - ti) (td' - td).
Proof.
  revert pending ti td w. induction keys as [| key rest IH]; intros pending ti td w Hshort Hrun.
  - injection Hrun as <- <- <- <-. exists []. split; [reflexivity |].
    cbn [flushed_in_turn]. split; [| lia].
    exists []. split; [constructor | symmetry; apply after_nil].
  - cbn [Loader.process_keys] in Hrun. unfold bind at 1, print at 1, emit at 1 in Hrun.
    unfold bind at 1 in Hrun. unfold Loader.read_gz_file_from_s3 at 1 in Hrun.
    cbn [s3 limits set_out] in Hrun. cbn [day_archives map threshold_batches].
    fold (day_archives (limits w) (s3 w bucket) rest).
    destruct (Loader.get_object key (s3 w bucket)) as [body |]; [| discriminate Hrun].
    destruct (Loader.read_lines _ _ _ _ _) as [[articles | e] w1] eqn:Hread;
      [| discriminate Hrun].
    apply read_returns in Hread as [-> ->].
    change (set_out (out w ++ [Print (ProcessingFile key)]) w)
      with (after [Print (ProcessingFile key)] w) in Hrun.
    rewrite after_after in Hrun.
    set (evs := [Print (ProcessingFile key)]
                ++ diagnostics_of (limits w) key (Codec.readlines body)) in *.
    assert (Forall between_flushes evs) as Hevs.
    { apply Forall_app. split; [repeat constructor | apply diagnostics_between]. }
    destruct (records_of (limits w) (Codec.readlines body)) as [| a articles].
    + rewrite app_nil_r.
      replace (Loader.BATCH_SIZE <=? Z.of_nat (length pending)) with false
        by (symmetry; apply Z.leb_gt; exact Hshort).
      destruct (IH pending ti td (after evs w) Hshort Hrun) as (batches & Hcut & Hchain).
      exists batches. split; [exact Hcut |]. apply (flushed_after batches evs); assumption.
    + destruct (Loader.BATCH_SIZE <=? Z.of_nat (length (pending ++ a :: articles))) eqn:Hfull.
      * unfold bind at 1 in Hrun.
        pose proof (flush_keeps_bucket (pending ++ a :: articles) (after evs w))
          as [Hs3 Hlim].
        destruct (Mongo.insert_articles py_str (pending ++ a :: articles) (after evs w))
          as [[[i d] | e] w2] eqn:Hflush; [| discriminate Hrun].
        cbn [snd] in Hs3, Hlim.
        unfold bind at 1, sleep at 1, emit at 1 in Hrun.
        change (set_out (out w2 ++ [Sleep 1]) w2) with (after [Sleep 1] w2) in Hrun.
        destruct (IH [] (ti + i) (td + d) (after [Sleep 1] w2)) as (batches & Hcut & Hchain);
          [unfold Loader.BATCH_SIZE; simpl; lia | exact Hrun |].
        cbn [s3 limits after set_out] in Hcut. rewrite Hs3, Hlim in Hcut.
        cbn [s3 limits after set_out] in Hcut. rewrite Hcut.
        exists ((pending ++ a :: articles) :: batches). split; [reflexivity |].
        cbn [flushed_in_turn]. exists evs, i, d, w2.
        split; [exact Hevs |]. split; [exact Hflush |].
        apply (flushed_after batches [Sleep 1]); [repeat constructor |].
        replace (ti' - ti - i) with (ti' - (ti + i)) by lia.
        replace (td' - td - d) with (td' - (td + d)) by lia.
        exact Hchain.
      * apply Z.leb_gt in Hfull.
        destruct (IH (pending ++ a :: articles) ti td (after evs w) Hfull Hrun)
          as (batches & Hcut & Hchain).
        exists batches. split; [exact Hcut |].
        apply (flushed_after batches evs); assumption.
Qed.

Lemma sends_one_of_more (batches more : list (list json)) (evs : list Event) :
  (forall batch, In batch batches -> In batch more) ->
  Forall (sends_one_of py_str batches) evs -> Forall (sends_one_of py_str more) evs.
Proof.
  intros Hsub. apply List.Forall_impl. intros [] H; cbn [sends_one_of] in *; try exact I.
  destruct H as (batch & Hin & Hprep). exists batch. split; [apply Hsub, Hin | exact Hprep].
Qed.

Lemma between_flushes_sends (batches : list (list json)) (evs : list Event) :
  Forall between_flushes evs -> Forall (sends_one_of py_str batches) evs.
Proof.
  apply List.Forall_impl. intros [] H; cbn [sends_one_of between_flushes] in *;
    try exact I; contradiction.
Qed.

Lemma flush_sends_batch (batch : list json) (w : World) :
  exists evs,
    out (snd (Mongo.insert_articles py_str batch w)) = out w ++ evs
    /\ Forall (sends_one_of py_str [batch]) evs.
Proof.
  destruct (insert_articles_post py_str batch w) as [((evs & Hout & Hall) & _) _].
  exists evs. split; [exact Hout |]. revert Hall. apply List.Forall_impl.
  intros [] H; cbn [sends_one_of]; try exact I.
  exists batch. split; [left; reflexivity | exact H].
Qed.

(** Whatever the outcome of the loop, each bulk write carries the documents
    prepared from one of the batches that [threshold_batches] cuts. *)
Lemma process_keys_writes (bucket : string) (keys : list string) (pending : list json)
    (ti td : Z) (w : World) :
  Z.of_nat (length pending) < Loader.BATCH_SIZE ->
  exists evs,
    out (snd (Loader.process_keys py_str bucket keys pending ti td w)) = out w ++ evs
    /\ Forall (sends_one_of py_str
                 (fst (threshold_batches pending
                         (day_archives (limits w) (s3 w bucket) keys)))) evs.
Proof.
  revert pending ti td w. induction keys as [| key rest IH]; intros pending ti td w Hshort.
  - exists []. rewrite app_nil_r. split; [reflexivity | constructor].
  - cbn [Loader.process_keys]. unfold bind at 1, print at 1, emit at 1.
    unfold bind at 1. unfold Loader.read_gz_file_from_s3 at 1.
    cbn [s3 limits set_out]. cbn [day_archives map threshold_batches].
    fold (day_archives (limits w) (s3 w bucket) rest).
    change (set_out (out w ++ [Print (ProcessingFile key)]) w)
      with (after [Print (ProcessingFile key)] w).
    destruct (Loader.get_object key (s3 w bucket)) as [body |].
    2: { exists [Print (ProcessingFile key)]. split; [reflexivity |].
         apply between_flushes_sends. repeat constructor. }
    rewrite read_lines_closed_form, after_after. cbn [app].
    destruct (aborts (limits w) (Codec.readlines body)) as [e |] eqn:Hab.
    { eexists. split; [reflexivity |]. apply between_flushes_sends.
      constructor; [exact I | apply diagnostics_between]. }
    rewrite (readable_lines_read _ _ Hab).
    set (evs := Print (ProcessingFile key)
                :: diagnostics_of (limits w) key (Codec.readlines body)) in *.
    assert (Forall between_flushes evs) as Hevs.
    { constructor; [exact I | apply diagnostics_between]. }
    destruct (records_of (limits w) (Codec.readlines body)) as [| a articles].
    + rewrite app_nil_r.
      replace (Loader.BATCH_SIZE <=? Z.of_nat (length pending)) with false
        by (symmetry; apply Z.leb_gt; exact Hshort).
      destruct (IH pending ti td (after evs w) Hshort) as (evs2 & Hout & Hall).
      exists (evs ++ evs2). split; [rewrite Hout, app_assoc; reflexivity |].
      apply Forall_app. split; [apply between_flushes_sends, Hevs | exact Hall].
    + destruct (Loader.BATCH_SIZE <=? Z.of_nat (length (pending ++ a :: articles))) eqn:Hfull.
      * unfold bind at 1.
        pose proof (flush_keeps_bucket (pending ++ a :: articles) (after evs w))
          as [Hs3 Hlim].
        destruct (flush_sends_batch (pending ++ a :: articles) (after evs w))
          as (evs2 & Hout2 & Hall2).
        destruct (threshold_batches [] (day_archives (limits w) (s3 w bucket) rest))
          as [batches remaining] eqn:Hcut. cbn [fst].
        destruct (Mongo.insert_articles py_str (pending ++ a :: articles) (after evs w))
          as [[[i d] | e] w2] eqn:Hflush; cbn [snd] in *.
        -- unfold bind at 1, sleep at 1, emit at 1.
           change (set_out (out w2 ++ [Sleep 1]) w2) with (after [Sleep 1] w2).
           destruct (IH [] (ti + i) (td + d) (after [Sleep 1] w2)) as (evs3 & Hout3 & Hall3);
             [unfold Loader.BATCH_SIZE; simpl; lia |].
           cbn [s3 limits after set_out] in Hall3. rewrite Hs3, Hlim in Hall3.
           cbn [s3 limits after set_out] in Hall3. rewrite Hcut in Hall3. cbn [fst] in Hall3.
           exists (evs ++ evs2 ++ [Sleep 1] ++ evs3). split.
           ++ rewrite Hout3. cbn [out after set_out]. rewrite Hout2.
              cbn [out after set_out]. rewrite <- !app_assoc. reflexivity.
           ++ apply Forall_app. split; [apply between_flushes_sends, Hevs |].
              apply Forall_app. split.
              ** apply (sends_one_of_more [pending ++ a :: articles]); [| exact Hall2].
                 intros b [<- | []]. left. reflexivity.
              ** apply Forall_app. split; [repeat constructor |].
                 apply (sends_one_of_more batches); [| exact Hall3].
                 intros b Hb. right. exact Hb.
        -- exists (evs ++ evs2). split.
           ++ rewrite Hout2. cbn [out after set_out]. rewrite <- app_assoc. reflexivity.
           ++ apply Forall_app. split; [apply between_flushes_sends, Hevs |].
              apply (sends_one_of_more [pending ++ a :: articles]); [| exact Hall2].
              intros b [<- | []]. left. reflexivity.
      * apply Z.leb_gt in Hfull.
        destruct (IH (pending ++ a :: articles) ti td (after evs w) Hfull)
          as (evs2 & Hout & Hall).
        exists (evs ++ evs2). split; [rewrite Hout, app_assoc; reflexivity |].
        apply Forall_app. split; [apply between_flushes_sends, Hevs | exact Hall].
Qed.

Lemma threshold_batches_shape (archives : list (list json)) (pending : list json)
    (batches : list (list json)) (left : list json) :
  Z.of_nat (length pending) < Loader.BATCH_SIZE ->
  threshold_batches pending archives = (batches, left) ->
  Forall cut_on_threshold batches
  /\ Z.of_nat (length left) < Loader.BATCH_SIZE
  /\ concat batches ++ left = pending ++ concat archives.
Proof.
  revert pending batches left.
  induction archives as [| archive rest IH]; intros pending batches left Hshort Hcut.
  - injection Hcut as <- <-. split; [constructor |]. split; [exact Hshort |].
    cbn [concat app]. rewrite app_nil_r. reflexivity.
  - cbn [threshold_batches] in Hcut.
    destruct (Loader.BATCH_SIZE <=? Z.of_nat (length (pending ++ archive))) eqn:Hfull.
    + destruct (threshold_batches [] rest) as [bs l] eqn:Hrest. injection Hcut as <- <-.
      destruct (IH [] bs l) as (Hall & Hleft & Hcat);
        [unfold Loader.BATCH_SIZE; simpl; lia | exact Hrest |].
      split; [| split; [exact Hleft |]].
      * constructor; [| exact Hall]. exists pending, archive.
        apply Z.leb_le in Hfull. split; [reflexivity | lia].
      * cbn [concat app] in *. rewrite <- !app_assoc, Hcat. reflexivity.
    + apply Z.leb_gt in Hfull. destruct (IH _ _ _ Hfull Hcut) as (Hall & Hleft & Hcat).
      split; [exact Hall |]. split; [exact Hleft |].
      rewrite Hcat. cbn [concat]. rewrite app_assoc. reflexivity.
Qed.

(** C6, amended.  Whatever the outcome of the day, each bulk write of
    [process_articles_for_day] carries the documents prepared from one of
    the batches of the day: the records of the archives, in key order, are
    appended archive by archive to the pending batch, which is cut whole
    as soon as it holds 500 records or more, and what is left at the end
    of the day, if anything, is the last batch.  A day that returns has
    flushed exactly these batches, in turn and with nothing but the events
    of the loop in between.  A batch cut on the threshold is made of fewer
    than 500 pending records and the whole archive that brought their
    number to 500 or more: it is bounded by 499 plus the size of that
    archive, not by 500; only the last batch can be shorter than 500, and
    then holds between 1 and 499 records. *)
Theorem batches_flushed_on_threshold (bucket date_str : string) (w : World) :
  (exists keys evs,
     Loader.list_gz_files_for_day bucket date_str w = (Ok keys, w)
     /\ out (snd (Loader.process_articles_for_day py_str bucket date_str w)) = out w ++ evs
     /\ Forall (sends_one_of py_str
                  (batches_of_day (day_archives (limits w) (s3 w bucket) keys))) evs)
  /\ (forall inserted duplicates w',
        Loader.process_articles_for_day py_str bucket date_str w
        = (Ok (inserted, duplicates), w') ->
        exists keys,
          Loader.list_gz_files_for_day bucket date_str w = (Ok keys, w)
          /\ flushed_in_turn py_str
               (batches_of_day (day_archives (limits w) (s3 w bucket) keys))
               w w' inserted duplicates)
  /\ (forall archives,
        concat (batches_of_day archives) = concat archives
        /\ forall earlier batch later,
             batches_of_day archives = earlier ++ batch :: later ->
             cut_on_threshold batch \/ (remainder batch /\ later = [])).
Proof.
  split; [| split].
  - eexists. unfold Loader.process_articles_for_day. unfold bind at 1.
    unfold Loader.list_gz_files_for_day. cbv zeta.
    set (keys := Loader.sorted _).
    destruct (process_keys_writes bucket keys [] 0 0 w) as (evs & Hout & Hall);
      [unfold Loader.BATCH_SIZE; simpl; lia |].
    unfold bind at 1. unfold batches_of_day.
    destruct (Loader.process_keys py_str bucket keys [] 0 0 w)
      as [[[[pending ti] td] | e] w1] eqn:Hkeys; cbn [snd] in Hout.
    + apply process_keys_flushes in Hkeys; [| unfold Loader.BATCH_SIZE; simpl; lia].
      destruct Hkeys as (batches & Hcut & _). rewrite Hcut in *. cbn [fst] in Hall.
      destruct pending as [| a pending].
      * exists evs. split; [reflexivity |]. split; [exact Hout |].
        rewrite app_nil_r. exact Hall.
      * destruct (flush_sends_batch (a :: pending) w1) as (evs2 & Hout2 & Hall2).
        exists (evs ++ evs2). split; [reflexivity |]. split.
        -- unfold bind at 1.
           destruct (Mongo.insert_articles py_str (a :: pending) w1) as [[[i d] | e] w2];
             unfold ret; cbn [snd] in *; rewrite Hout2, Hout, app_assoc; reflexivity.
        -- apply Forall_app. split.
           ++ apply (sends_one_of_more batches); [| exact Hall].
              intros b Hb. apply in_or_app. left. exact Hb.
           ++ apply (sends_one_of_more [a :: pending]); [| exact Hall2].
              intros b Hb. apply in_or_app. right. exact Hb.
    + exists evs. split; [reflexivity |]. split; [exact Hout |]. fold keys.
      destruct (threshold_batches [] (day_archives (limits w) (s3 w bucket) keys))
        as [batches remaining]. cbn [fst] in Hall.
      apply (sends_one_of_more batches); [| exact Hall].
      intros b Hb. apply in_or_app. left. exact Hb.
  - intros inserted duplicates w' Hrun. eexists. split; [reflexivity |].
    unfold Loader.process_articles_for_day in Hrun. unfold bind at 1 in Hrun.
    unfold Loader.list_gz_files_for_day at 1 in Hrun. cbv zeta in *.
    set (keys := Loader.sorted _) in *.
    unfold bind at 1 in Hrun.
    destruct (Loader.process_keys py_str bucket keys [] 0 0 w)
      as [[[[pending ti] td] | e] w1] eqn:Hkeys; [| discriminate Hrun].
    apply process_keys_flushes in Hkeys; [| unfold Loader.BATCH_SIZE; simpl; lia].
    destruct Hkeys as (batches & Hcut & Hchain).
    unfold batches_of_day. rewrite Hcut. rewrite !Z.sub_0_r in Hchain.
    destruct pending as [| a pending].
    + injection Hrun as <- <- <-. rewrite app_nil_r. exact Hchain.
    + unfold bind at 1 in Hrun.
      destruct (Mongo.insert_articles py_str (a :: pending) w1)
        as [[[i d] | e] w2] eqn:Hflush; [| discriminate Hrun].
      injection Hrun as <- <- <-. apply (flushed_app batches [a :: pending] w w1 w2).
      * exact Hchain.
      * cbn [flushed_in_turn]. exists [], i, d, w2. split; [constructor |].
        rewrite after_nil. split; [exact Hflush |].
        split; [| lia]. exists []. split; [constructor | symmetry; apply after_nil].
  - intros archives. unfold batches_of_day.
    destruct (threshold_batches [] archives) as [batches left] eqn:Hcut.
    apply threshold_batches_shape in Hcut; [| unfold Loader.BATCH_SIZE; simpl; lia].
    destruct Hcut as (Hall & Hleft & Hcat). cbn [app] in Hcat. split.
    + rewrite concat_app, <- Hcat. destruct left; cbn [concat app];
        rewrite ?app_nil_r; reflexivity.
    + intros earlier batch later Heq.
      assert (In batch batches \/ (left <> [] /\ batch = left /\ later = [])) as [Hin | Hlast].
      { destruct left as [| x left].
        - rewrite app_nil_r in Heq. left. rewrite Heq. apply in_elt.
        - destruct later as [| y later'] using rev_ind.
          + apply app_inj_tail in Heq as [_ <-]. right. split; [discriminate | auto].
          + left. clear IHlater'.
            replace (earlier ++ batch :: later' ++ [y])
              with ((earlier ++ batch :: later') ++ [y]) in Heq
              by (rewrite <- app_assoc; reflexivity).
            apply app_inj_tail in Heq as [-> _]. apply in_elt. }
      * left. rewrite List.Forall_forall in Hall. apply Hall, Hin.
      * destruct Hlast as (Hne & -> & ->). right. split; [| reflexivity].
        unfold remainder. split; [| exact Hleft].
        destruct left; [contradiction | cbn [length]; lia].
Qed.

End Batches.

(** C6, as stated, fails: a day whose only archive holds 501 matching
    lines gives one [insert_many] call with 501 documents. *)
Lemma batch_of_501_documents :
  let w := {| s3 := fun _ => [("20240111/a.gz", example_archive 501)]; mongo := ∅;
              write_error := fun _ => None; faults := [];
              storageSize := fun _ _ => 0; limits := usual_limits; out := [] |} in
  batch_sizes (out (snd (Loader.process_articles_for_day (fun _ => ""%string)
                           "bucket" "20240111" w))) = [501%nat]
  /\ fst (Loader.process_articles_for_day (fun _ => ""%string) "bucket" "20240111" w)
     = Ok (501, 0).
Proof. split; vm_compute; reflexivity. Qed.

(** ** The daily loop and the storage guard (C1) *)

Lemma check_storage_limit_closed_form (d : datetime) (w : World) :
  Db.check_storage_limit d w
  = (Ok (reading w d),
     after [Connect (shard_uri d); Dbstats (shard_uri d); Close (shard_uri d)] w).
Proof.
  unfold Db.check_storage_limit, reading, shard_uri.
  destruct (cluster_for_date_total d) as [c Hc].
  unfold bind at 1. rewrite (db_get_client_for_date_eq d w c Hc), Hc.
  unfold bind, emit, ret. cbn [fst snd client_of client_uri]. f_equal.
  destruct w; unfold after, connected, set_out; simpl. rewrite <- !app_assoc. reflexivity.
Qed.

Lemma reading_extends (P : Event -> Prop) (w w' : World) (d : datetime) :
  extends P w w' -> reading w' d = reading w d.
Proof. intros (_ & Hs & _). unfold reading. rewrite Hs. reflexivity. Qed.

Section Orchestrator.

Variable py_str : json -> string.
Variables (bucket : string) (end_date : datetime).

Lemma day_post (date_str : string) (w : World) :
  extends any_event w (snd (Loader.process_articles_for_day py_str bucket date_str w)).
Proof.
  destruct (process_articles_for_day_post py_str bucket date_str w) as [H _].
  eapply extends_weaken; [| exact H]. intros; exact I.
Qed.

(** One turn of the loop, for a day within the range. *)
Lemma days_turn (fuel : nat) (current_date : datetime) (w : World) :
  current_date <= end_date ->
  let date_str := strftime_Ymd current_date in
  Db.days py_str (S fuel) bucket current_date end_date w
  = match Loader.process_articles_for_day py_str bucket date_str
            (after [Print (Processing date_str)] w) with
    | (Raise e, w1) => (Raise e, w1)
    | (Ok (inserted, duplicates), w1) =>
        let u := shard_uri current_date in
        let w2 := after [Print (Finished date_str inserted duplicates);
                         LogLine date_str inserted duplicates;
                         Connect u; Dbstats u; Close u;
                         Print (StorageUsed (reading w1 current_date))] w1 in
        if Qlt_le_dec 490 (reading w1 current_date)
        then (Ok (Some (Db.Halted current_date)), after [Print ApproachingLimit] w2)
        else match add_days current_date 1 with
             | Some next => Db.days py_str fuel bucket next end_date w2
             | None => (Raise OverflowError, w2)
             end
    end.
Proof.
  intros Hle date_str. cbn [Db.days].
  replace (current_date <=? end_date) with true by (symmetry; apply Z.leb_le, Hle).
  cbn [negb]. fold date_str. unfold bind at 1, print at 1, emit at 1. cbn [fst snd].
  change (set_out (out w ++ [Print (Processing date_str)]) w)
    with (after [Print (Processing date_str)] w).
  unfold bind at 1.
  destruct (Loader.process_articles_for_day py_str bucket date_str _)
    as [[[inserted duplicates] | e] w1]; [| reflexivity].
  unfold bind at 1, print at 1, emit at 1. cbn [fst snd].
  unfold bind at 1, emit at 1. cbn [fst snd].
  unfold bind at 1. rewrite check_storage_limit_closed_form.
  replace (reading (set_out _ (set_out _ w1)) current_date) with (reading w1 current_date)
    by reflexivity.
  unfold bind at 1, print at 1, emit at 1. cbn [fst snd].
  match goal with
  | |- context [if Qlt_le_dec 490 ?r then _ else _] => destruct (Qlt_le_dec 490 r)
  end.
  - unfold bind, print, emit, ret. cbn [fst snd]. f_equal.
    destruct w1; unfold after, set_out; simpl. rewrite <- !app_assoc. reflexivity.
  - unfold bind at 1, lift. destruct (add_days current_date 1) as [next |]; cbn [or_raise].
    + f_equal. destruct w1; unfold after, set_out; simpl. rewrite <- !app_assoc. reflexivity.
    + f_equal. destruct w1; unfold after, set_out; simpl. rewrite <- !app_assoc. reflexivity.
Qed.

End Orchestrator.

Section Guard.

Variable py_str : json -> string.
Variables (bucket : string) (end_date : datetime).

Lemma add_days_one (d next : datetime) : add_days d 1 = Some next -> next = d + DAY.
Proof.
  unfold add_days. destruct (_ && _); [| discriminate].
  intros H. injection H as <-. lia.
Qed.

Lemma days_ended_as (fuel : nat) (current_date : datetime) (w w' : World)
    (r : option Db.RunEnd) :
  (end_date - current_date) / DAY + 1 <= Z.of_nat fuel ->
  Db.days py_str fuel bucket current_date end_date w = (Ok r, w') ->
  ended_as end_date w current_date r.
Proof.
  assert (HDAY : DAY = 86400000000) by reflexivity.
  revert current_date w. induction fuel as [| fuel IH]; intros cur w Hfuel Hrun.
  - cbn [Db.days] in Hrun. destruct (Z.leb_spec cur end_date) as [Hle | Hgt].
    + exfalso. assert (0 <= (end_date - cur) / DAY) by (apply Z.div_pos; lia). lia.
    + injection Hrun as <- _. intros j Hj Hin. exfalso. nia.
  - destruct (Z.le_gt_cases cur end_date) as [Hle | Hgt].
    + rewrite (days_turn py_str bucket end_date fuel cur w Hle) in Hrun. cbv zeta in Hrun.
      pose proof (day_post py_str bucket (strftime_Ymd cur)
                    (after [Print (Processing (strftime_Ymd cur))] w)) as Hext.
      destruct (Loader.process_articles_for_day py_str bucket (strftime_Ymd cur) _)
        as [[[inserted duplicates] | e] w1]; [| discriminate Hrun].
      cbn [snd] in Hext.
      assert (Hw1 : extends any_event w w1).
      { eapply extends_trans; [| exact Hext].
        apply extends_after. repeat constructor. }
      assert (Hread : forall d, reading w1 d = reading w d)
        by (intros d; apply (reading_extends any_event), Hw1).
      rewrite Hread in Hrun.
      destruct (Qlt_le_dec 490 (reading w cur)) as [Hhigh | Hlow].
      * injection Hrun as <- _. exists 0.
        replace (cur + 0 * DAY) with cur by lia.
        split; [lia | split; [reflexivity | split; [exact Hle | split; [exact Hhigh |]]]].
        intros j Hj. lia.
      * destruct (add_days cur 1) as [next |] eqn:Hnext; [| discriminate Hrun].
        apply add_days_one in Hnext. subst next.
        match type of Hrun with
        | Db.days _ _ _ _ _ ?w2 = _ =>
            assert (Hw2 : extends any_event w w2)
              by (eapply extends_trans; [exact Hw1 | apply extends_after; repeat constructor]);
            apply IH in Hrun
        end.
        -- assert (Hread2 : forall d, reading
                     (after [Print (Finished (strftime_Ymd cur) inserted duplicates);
                             LogLine (strftime_Ymd cur) inserted duplicates;
                             Connect (shard_uri cur); Dbstats (shard_uri cur);
                             Close (shard_uri cur); Print (StorageUsed (reading w cur))] w1) d
                     = reading w d)
             by (intros d; apply (reading_extends any_event), Hw2).
           destruct r as [[| h] |]; cbn [ended_as] in *.
           ++ intros j Hj Hin. destruct (Z.eq_dec j 0) as [-> | Hne].
              ** replace (cur + 0 * DAY) with cur by lia. exact Hlow.
              ** specialize (Hrun (j - 1)). rewrite Hread2 in Hrun.
                 replace (cur + DAY + (j - 1) * DAY) with (cur + j * DAY) in Hrun by lia.
                 apply Hrun; lia.
           ++ destruct Hrun as (k & Hk & Hh & Hhe & Hhigh & Hbelow).
              exists (k + 1). rewrite Hread2 in Hhigh.
              split; [lia | split; [lia | split; [exact Hhe | split; [exact Hhigh |]]]].
              intros j Hj. destruct (Z.eq_dec j 0) as [-> | Hne].
              ** replace (cur + 0 * DAY) with cur by lia. exact Hlow.
              ** specialize (Hbelow (j - 1)). rewrite Hread2 in Hbelow.
                 replace (cur + DAY + (j - 1) * DAY) with (cur + j * DAY) in Hbelow by lia.
                 apply Hbelow; lia.
           ++ exact Hrun.
        -- replace (end_date - (cur + DAY)) with (end_date - cur + (-1) * DAY) by lia.
           rewrite Z.div_add by lia. lia.
    + cbn [Db.days] in Hrun.
      replace (cur <=? end_date) with false in Hrun by (symmetry; apply Z.leb_gt; lia).
      injection Hrun as <- _. intros j Hj Hin. exfalso. nia.
Qed.

(** C1, amended.  After a day is processed and logged, the loop takes the
    [break] if and only if the reading of that day is above 490 (a reading
    of exactly 490 lets the run go on): a run that returns has either
    halted on the first day of the range whose reading is above 490, or
    completed a range with no such day.  In one turn of the loop on a day
    that is processed without an exception, a reading above 490 ends the
    run on that day, and a reading of at most 490 hands over to the next
    day. *)
Theorem halts_when_reading_above_490 (start_date : datetime) (w : World) :
  (forall r w',
      Db.load_articles_for_date_range py_str bucket start_date end_date w = (Ok r, w') ->
      ended_as end_date w start_date r)
  /\ (forall fuel day w0 inserted duplicates w1,
        day <= end_date ->
        Loader.process_articles_for_day py_str bucket (strftime_Ymd day)
          (after [Print (Processing (strftime_Ymd day))] w0) = (Ok (inserted, duplicates), w1) ->
        ((490 < reading w0 day)%Q ->
         exists w', Db.days py_str (S fuel) bucket day end_date w0
                    = (Ok (Some (Db.Halted day)), w'))
        /\ ((reading w0 day <= 490)%Q ->
            forall next, add_days day 1 = Some next ->
            exists w2, extends any_event w0 w2
                       /\ Db.days py_str (S fuel) bucket day end_date w0
                          = Db.days py_str fuel bucket next end_date w2)).
Proof.
  split.
  - intros r w' Hrun. unfold Db.load_articles_for_date_range in Hrun.
    apply days_ended_as in Hrun; [exact Hrun |].
    destruct (Z.le_gt_cases 0 ((end_date - start_date) / DAY + 1)); [| lia].
    rewrite Z2Nat.id by assumption. lia.
  - intros fuel day w0 inserted duplicates w1 Hle Hday.
    pose proof (day_post py_str bucket (strftime_Ymd day)
                  (after [Print (Processing (strftime_Ymd day))] w0)) as Hext.
    rewrite (days_turn py_str bucket end_date fuel day w0 Hle). cbv zeta.
    rewrite Hday in *. cbn [snd] in Hext.
    assert (Hw1 : extends any_event w0 w1).
    { eapply extends_trans; [| exact Hext]. apply extends_after. repeat constructor. }
    rewrite (reading_extends any_event w0 w1 day Hw1).
    split.
    + intros Hhigh. destruct (Qlt_le_dec 490 (reading w0 day)) as [_ | Hlow].
      * eexists. reflexivity.
      * exfalso. exact (Qlt_not_le _ _ Hhigh Hlow).
    + intros Hlow next Hnext. destruct (Qlt_le_dec 490 (reading w0 day)) as [Hhigh | _].
      * exfalso. exact (Qlt_not_le _ _ Hhigh Hlow).
      * rewrite Hnext. eexists. split; [| reflexivity].
        eapply extends_trans; [exact Hw1 | apply extends_after; repeat constructor].
Qed.

End Guard.

(** C1, as stated, fails: with a reading of exactly 490 on both days, the
    run over two days does not halt on the first; it processes the second
    and completes. *)
Lemma reading_of_490_does_not_halt :
  let w := {| s3 := fun _ => []; mongo := ∅; write_error := fun _ => None; faults := [];
              storageSize := fun _ _ => 490 * 1024 * 1024; limits := usual_limits;
              out := [] |} in
  let run := Db.load_articles_for_date_range (fun _ => ""%string) "bucket"
               (midnight 2024 1 11) (midnight 2024 1 12) w in
  (reading w (midnight 2024 1 11) == 490)%Q
  /\ fst run = Ok (Some Db.Completed)
  /\ In (Print (Processing "20240112")) (out (snd run)).
Proof.
  split; [reflexivity | split; [vm_compute; reflexivity |]].
  vm_compute. tauto.
Qed.

(** * Worked instances *)

(** 2024-03-15T12:30:00 is in the window of cluster2, the second entry. *)
Lemma shard_router_on_march_15 :
  let t := default 0 (strptime_iso "2024-03-15T12:30:00Z") in
  Db.get_client_for_date t quiet
  = (Ok (client_of (cluster "cluster2")), connected (uri (cluster "cluster2")) quiet)
  /\ Mongo.get_client_for_date (JStr "2024-03-15T12:30:00Z") quiet
     = (Ok (client_of (cluster "cluster2")), connected (uri (cluster "cluster2")) quiet).
Proof.
  intros t.
  apply (proj1 (shard_router_first_window_or_default "2024-03-15T12:30:00Z" t quiet eq_refl)
           [("cluster1", cluster "cluster1")] "cluster2" (cluster "cluster2")
           [("cluster3", cluster "cluster3")] eq_refl).
  - intros x [<- | []] (s & e & Hs & He & Hin).
    vm_compute in Hs, He. injection Hs as <-. injection He as <-.
    vm_compute in Hin. destruct Hin as [_ Hin]. apply Hin. reflexivity.
  - exists 63844934400000000, 63849772799000000.
    split; [reflexivity | split; [reflexivity |]]. vm_compute. split; discriminate.
Defined.

(** 2024-03-02 at one in the morning: the query layer and both routers
    choose cluster2. *)
Lemma same_cluster_on_march_2 :
  exists coll,
    Api.get_collection_for_date "2024-03-02" = Ok coll
    /\ fst (Db.get_client_for_date (midnight 2024 3 2 + 3600000000) quiet)
       = Ok (coll_client coll)
    /\ (forall s, strptime_iso s = Some (midnight 2024 3 2 + 3600000000) ->
                  fst (Mongo.get_client_for_date (JStr s) quiet) = Ok (coll_client coll))
    /\ coll = (if midnight 2024 3 2 <? midnight 2024 3 2 then Api.articles1
               else if midnight 2024 3 2 <? midnight 2024 4 27 then Api.articles2
               else Api.articles3).
Proof.
  apply (query_layer_and_pipeline_choose_same_cluster
           "2024-03-02" (midnight 2024 3 2) (midnight 2024 3 2 + 3600000000) quiet).
  - reflexivity.
  - vm_compute. split; discriminate.
  - vm_compute. split; [discriminate | reflexivity].
  - reflexivity.
Defined.

Lemma no_keyword_in (s : string) :
  Mongo.any_keyword (Text.lower s) (Text.lower s) = false ->
  forall k, In k Mongo.KEYWORDS -> ~ occurs_ignoring_case k s /\ ~ occurs_ignoring_case k s.
Proof.
  intros H k Hk. assert (Hno : ~ occurs_ignoring_case k s).
  { intros Hocc. rewrite (proj2 (any_keyword_iff s s)) in H; [discriminate H |].
    exists k. auto. }
  split; exact Hno.
Qed.

(** The gates on three articles: one tagged "english", one about the
    weather, one about Tesla. *)
Lemma gates_on_three_articles :
  Mongo.normalize (fun _ => ""%string)
    (JObj [("lang", JStr "english"); ("title", JStr "Tesla rallies")]) = Ok None
  /\ Mongo.normalize (fun _ => ""%string)
       (JObj [("lang", JStr "ENGLISH"); ("title", JStr "weather"); ("url", JStr "weather")])
     = Ok None
  /\ (assoc "lang" [("lang", JStr "ENGLISH"); ("title", JStr "TESLA rallies")]
      = Some (JStr "ENGLISH")
      /\ exists t u k,
          text_field [("lang", JStr "ENGLISH"); ("title", JStr "TESLA rallies")] "title" = Some t
          /\ text_field [("lang", JStr "ENGLISH"); ("title", JStr "TESLA rallies")] "url" = Some u
          /\ In k Mongo.KEYWORDS
          /\ (occurs_ignoring_case k t \/ occurs_ignoring_case k u)).
Proof.
  split; [| split].
  - apply (proj1 (language_and_relevance_gates (fun _ => ""%string)
                    [("lang", JStr "english"); ("title", JStr "Tesla rallies")])).
    vm_compute. discriminate.
  - apply (proj1 (proj2 (language_and_relevance_gates (fun _ => ""%string)
                           [("lang", JStr "ENGLISH"); ("title", JStr "weather");
                            ("url", JStr "weather")]))
             "weather"%string "weather"%string); try reflexivity.
    apply no_keyword_in. reflexivity.
  - eapply (proj2 (proj2 (language_and_relevance_gates (fun _ => ""%string)
                            [("lang", JStr "ENGLISH"); ("title", JStr "TESLA rallies")]))).
    vm_compute. reflexivity.
Defined.

(** Two articles with the same url and different titles get the same
    [_id], the digest of the url. *)
(** An article tagged "ENGLISH" with a null title and no keyword in its
    url: the claim has it dropped, the normalizer raises. *)
Lemma keywordless_article_with_null_title :
  let fields := [("lang", JStr "ENGLISH"); ("url", JStr "https://example.com/weather");
                 ("title", JNull)] in
  Mongo.any_keyword "" (Text.lower "https://example.com/weather") = false
  /\ Mongo.normalize (fun _ => "") (JObj fields) = Raise AttributeError
  /\ Mongo.insert_articles (fun _ => "") [JObj fields] quiet = (Raise AttributeError, quiet).
Proof.
  intros fields. split; [vm_compute; reflexivity |].
  apply (non_text_title_or_url_is_not_dropped (fun _ => "") fields quiet).
  - reflexivity.
  - left. reflexivity.
Defined.

Lemma same_url_same_id :
  exists d d',
    Mongo.normalize (fun _ => ""%string) (tesla_article "https://example.com/a") = Ok (Some d)
    /\ Mongo.normalize (fun _ => ""%string)
         (JObj [("lang", JStr "ENGLISH"); ("url", JStr "https://example.com/a");
                ("title", JStr "Apple and Tesla")]) = Ok (Some d')
    /\ _id d' = _id d /\ _id d = MD5.hexdigest "https://example.com/a".
Proof.
  eexists. eexists.
  split; [vm_compute; reflexivity |]. split; [vm_compute; reflexivity |].
  refine (proj2 (proj2 (proj2 (proj2
            (identity_from_url_or_title (fun _ => ""%string)
               [("lang", JStr "ENGLISH"); ("url", JStr "https://example.com/a");
                ("title", JStr "Tesla rallies"); ("date", JStr "2024-01-11T00:15:00Z")]
               _ _))))
            "https://example.com/a"%string
            [("lang", JStr "ENGLISH"); ("url", JStr "https://example.com/a");
             ("title", JStr "Apple and Tesla")]
            _ eq_refl eq_refl _ _).
  - vm_compute. reflexivity.
  - discriminate.
  - vm_compute. reflexivity.
Defined.

Lemma flush_of_two_articles :
  fst (Mongo.insert_articles (fun _ => ""%string)
         [tesla_article "https://example.com/a"; tesla_article "https://example.com/b"]
         first_held) = Ok (1, 1).
Proof.
  pose proof (flush_counts (fun _ => ""%string)
                [tesla_article "https://example.com/a"; tesla_article "https://example.com/b"]
                _ _ (default 0 (strptime_iso "2024-01-11T00:15:00Z")) (cluster "cluster1")
                first_held
                ltac:(vm_compute; reflexivity) ltac:(vm_compute; reflexivity)
                ltac:(vm_compute; reflexivity) ltac:(vm_compute; discriminate)) as H.
  cbv zeta in H. destruct H as (_ & _ & H).
  assert (Hdistinct : NoDup ["cd69b81ea00cc2798797293cbc92d643"%string;
                             "43cc12e82d91e0c52428768cbef58eb6"%string]).
  { apply NoDup_cons. split; [rewrite list_elem_of_In; simpl; intuition discriminate |].
    apply NoDup_cons. split; [rewrite list_elem_of_In; simpl; tauto | constructor]. }
  exact (proj1 (H (fun d _ => eq_refl) Hdistinct)).
Defined.

(** Timeouts on the first two attempts: the third is answered and the
    article is inserted.  Timeouts on three attempts: (0, 0), nothing
    stored, no exception. *)
Lemma two_timeouts_then_three :
  let articles := [tesla_article "https://example.com/a"] in
  let coll := articles_collection (cluster "cluster1") in
  let attempt := [Connect "MONGO_ATLAS_URI_1"; InsertMany coll [tesla_doc "https://example.com/a"]] in
  let timeout left := [Print (ConnectionTimeout left); Sleep 5] in
  (exists w',
      Mongo.insert_articles (fun _ => ""%string) articles (with_faults [true; true])
      = (Ok (1, 0), w')
      /\ out w' = attempt ++ timeout 2 ++ attempt ++ timeout 1 ++ attempt
      /\ held_by w' coll
         = {[ MD5.hexdigest "https://example.com/a" := tesla_doc "https://example.com/a" ]})
  /\ (exists w',
        Mongo.insert_articles (fun _ => ""%string) articles (with_faults [true; true; true])
        = (Ok (0, 0), w')
        /\ out w' = attempt ++ timeout 2 ++ attempt ++ timeout 1 ++ attempt ++ timeout 0
                      ++ [Print AllRetriesFailed]
        /\ mongo w' = ∅).
Proof.
  intros articles coll attempt timeout. split.
  - destruct (proj1 (retry_budget (fun _ => ""%string) articles
                       (tesla_doc "https://example.com/a") []
                       (default 0 (strptime_iso "2024-01-11T00:15:00Z")) (cluster "cluster1")
                       (with_faults [true; true])
                       ltac:(vm_compute; reflexivity) ltac:(vm_compute; reflexivity)
                       ltac:(vm_compute; reflexivity))
                    [] eq_refl (or_introl eq_refl)) as (w' & Hrun & Hout & Hheld).
    exists w'. split; [| split].
    + rewrite Hrun. reflexivity.
    + rewrite Hout. reflexivity.
    + etransitivity; [exact Hheld | vm_compute; reflexivity].
  - destruct (proj1 (proj2 (retry_budget (fun _ => ""%string) articles
                              (tesla_doc "https://example.com/a") []
                              (default 0 (strptime_iso "2024-01-11T00:15:00Z"))
                              (cluster "cluster1") (with_faults [true; true; true])
                              ltac:(vm_compute; reflexivity) ltac:(vm_compute; reflexivity)
                              ltac:(vm_compute; reflexivity)))
                    [] eq_refl) as (w' & Hrun & Hout & Hmongo).
    exists w'. split; [exact Hrun | split; [rewrite Hout; reflexivity | exact Hmongo]].
Defined.


Lemma pair_of_fst {A B : Type} (p : A * B) (a : A) : fst p = a -> p = (a, snd p).
Proof. destruct p. simpl. intros ->. reflexivity. Qed.

(** Archives of 300, 300 and 100 records: the first two are flushed
    together, 600 records, when the second is read; the third is flushed
    at the end of the day. *)
Lemma day_of_three_archives :
  (exists keys,
     Loader.list_gz_files_for_day "bucket" "20240111" three_archives
     = (Ok keys, three_archives)
     /\ flushed_in_turn (fun _ => "")
          (batches_of_day (day_archives usual_limits (s3 three_archives "bucket") keys))
          three_archives
          (snd (Loader.process_articles_for_day (fun _ => "") "bucket" "20240111"
                  three_archives))
          300 400)
  /\ map (@length json)
       (batches_of_day
          (day_archives usual_limits (s3 three_archives "bucket")
             ["20240111/a.gz"; "20240111/b.gz"; "20240111/c.gz"]))
     = [600%nat; 100%nat].
Proof.
  split; [| vm_compute; reflexivity].
  apply (proj1 (proj2 (batches_flushed_on_threshold (fun _ => "") "bucket" "20240111"
                         three_archives)) 300 400).
  apply pair_of_fst. vm_compute. reflexivity.
Defined.

Lemma run_halts_on_january_12 :
  ended_as (midnight 2024 1 14) filling_up (midnight 2024 1 11)
    (Some (Db.Halted (midnight 2024 1 12)))
  /\ exists w',
      Db.days (fun _ => ""%string) 1 "bucket" (midnight 2024 1 12) (midnight 2024 1 14) filling_up
      = (Ok (Some (Db.Halted (midnight 2024 1 12))), w').
Proof.
  split.
  - apply (proj1 (halts_when_reading_above_490 (fun _ => ""%string) "bucket"
                    (midnight 2024 1 14) (midnight 2024 1 11) filling_up)
             (Some (Db.Halted (midnight 2024 1 12)))
             (snd (Db.load_articles_for_date_range (fun _ => ""%string) "bucket"
                     (midnight 2024 1 11) (midnight 2024 1 14) filling_up))).
    apply pair_of_fst. vm_compute. reflexivity.
  - apply (proj1 (proj2 (halts_when_reading_above_490 (fun _ => ""%string) "bucket"
                           (midnight 2024 1 14) (midnight 2024 1 11) filling_up)
                    0%nat (midnight 2024 1 12) filling_up 0 0
                    (snd (Loader.process_articles_for_day (fun _ => ""%string) "bucket"
                            (strftime_Ymd (midnight 2024 1 12))
                            (after [Print (Processing (strftime_Ymd (midnight 2024 1 12)))]
                               filling_up)))
                    ltac:(vm_compute; discriminate)
                    ltac:(apply pair_of_fst; vm_compute; reflexivity))).
    vm_compute. reflexivity.
Defined.

(** * Further properties *)

(** ** Preparing the documents *)

Section Preparation.

Variable py_str : json -> string.

Lemma prepare_acc (articles : list json) (acc : list Doc) :
  Mongo.prepare py_str articles acc
  = let? ds := Mongo.prepare py_str articles [] in Ok (acc ++ ds).
Proof.
  revert acc. induction articles as [|a rest IH]; intros acc; simpl.
  - rewrite app_nil_r. reflexivity.
  - destruct (Mongo.normalize py_str a) as [[d|]|e]; simpl; try reflexivity.
    + rewrite (IH (acc ++ [d])), (IH [d]).
      destruct (Mongo.prepare py_str rest []); simpl; [|reflexivity].
      rewrite <- app_assoc. reflexivity.
    + apply IH.
Qed.

Lemma prepare_app (batch archive : list json) :
  Mongo.prepare py_str (batch ++ archive) []
  = let? ds1 := Mongo.prepare py_str batch [] in
    let? ds2 := Mongo.prepare py_str archive [] in
    Ok (ds1 ++ ds2).
Proof.
  induction batch as [|a rest IH]; simpl.
  - destruct (Mongo.prepare py_str archive []); reflexivity.
  - destruct (Mongo.normalize py_str a) as [[d|]|e]; simpl; try reflexivity; [|exact IH].
    rewrite (prepare_acc (rest ++ archive) [d]), (prepare_acc rest [d]), IH.
    destruct (Mongo.prepare py_str rest []); simpl; [|reflexivity].
    destruct (Mongo.prepare py_str archive []); simpl; reflexivity.
Qed.

(** X1.  The documents prepared from a batch followed by an archive are
    the documents of the batch followed by those of the archive, in the
    order of the articles; when an article of either makes the normalizer
    raise, the preparation of the whole raises the first such exception. *)
Theorem prepare_of_concatenation (batch archive : list json) :
  Mongo.prepare py_str (batch ++ archive) []
  = let? ds1 := Mongo.prepare py_str batch [] in
    let? ds2 := Mongo.prepare py_str archive [] in
    Ok (ds1 ++ ds2).
Proof. apply prepare_app. Qed.

Lemma prepare_all_skipped (articles : list json) :
  Forall (fun a => Mongo.normalize py_str a = Ok None) articles ->
  Mongo.prepare py_str articles [] = Ok [].
Proof.
  induction 1 as [|a rest Ha _ IH]; simpl; [reflexivity|].
  rewrite Ha. simpl. exact IH.
Qed.

(** X2.  When every article of a batch is filtered out (the empty batch
    is one), [insert_articles] returns (0, 0) and does nothing: no client,
    no message, the outside as it was. *)
Theorem filtered_batch_is_not_sent (articles : list json) (w : World) :
  Forall (fun a => Mongo.normalize py_str a = Ok None) articles ->
  Mongo.insert_articles py_str articles w = (Ok (0, 0), w).
Proof.
  intros H. unfold Mongo.insert_articles, bind, lift.
  rewrite (prepare_all_skipped _ H). reflexivity.
Qed.

Lemma prepare_raises (pre post : list json) (a : json) (e : exn) :
  Forall (fun x => exists r, Mongo.normalize py_str x = Ok r) pre ->
  Mongo.normalize py_str a = Raise e ->
  Mongo.prepare py_str (pre ++ a :: post) [] = Raise e.
Proof.
  intros Hpre Ha. rewrite prepare_app.
  assert (exists ds, Mongo.prepare py_str pre [] = Ok ds) as [ds ->].
  { clear Ha. induction Hpre as [|x rest [r Hx] _ [ds IH]]; simpl; [eauto|].
    rewrite Hx. simpl. destruct r as [d|].
    - rewrite prepare_acc, IH. simpl. eauto.
    - eauto. }
  simpl. rewrite Ha. reflexivity.
Qed.

(** X3.  One article on which the normalizer raises aborts the flush of
    the whole batch: [insert_articles] raises that exception before any
    client is built, and the documents of the articles before it are not
    written. *)
Theorem malformed_article_aborts_flush (pre post : list json) (a : json) (e : exn)
    (w : World) :
  Forall (fun x => exists r, Mongo.normalize py_str x = Ok r) pre ->
  Mongo.normalize py_str a = Raise e ->
  Mongo.insert_articles py_str (pre ++ a :: post) w = (Raise e, w).
Proof.
  intros Hpre Ha. unfold Mongo.insert_articles, bind, lift.
  rewrite (prepare_raises _ _ _ _ Hpre Ha). reflexivity.
Qed.


(** X5.  An article tagged "ENGLISH" that passes the relevance gate and
    whose url holds an unpaired surrogate (a JSON escape can write one)
    makes the normalizer raise [UnicodeEncodeError] at
    [url_or_title.encode('utf-8')], and with it the flush. *)
Theorem lone_surrogate_aborts_flush (fields : list (string * json)) (t u : string)
    (pre post : list json) (w : World) :
  assoc "lang" fields = Some (JStr "ENGLISH") ->
  text_field fields "title" = Some t ->
  assoc "url" fields = Some (JStr u) ->
  Mongo.any_keyword (Text.lower t) (Text.lower u) = true ->
  Codec.has_surrogate u = true ->
  Forall (fun x => exists r, Mongo.normalize py_str x = Ok r) pre ->
  Mongo.normalize py_str (JObj fields) = Raise UnicodeEncodeError
  /\ Mongo.insert_articles py_str (pre ++ JObj fields :: post) w
     = (Raise UnicodeEncodeError, w).
Proof.
  intros Hlang Ht Hu Hkey Hsur Hpre.
  assert (u <> "") as Hne by (intros ->; discriminate Hsur).
  assert (Mongo.normalize py_str (JObj fields) = Raise UnicodeEncodeError) as Hn.
  { unfold Mongo.normalize. cbn [Mongo.get rbind]. rewrite Hlang.
    cbn [default from_option id Mongo.differs String.eqb Ascii.eqb Bool.eqb negb].
    assert (Mongo.lower (default (JStr "") (assoc "title" fields)) = Ok (Text.lower t)) as ->.
    { apply lower_text_field. eauto. }
    rewrite Hu. cbn [default from_option id Mongo.lower rbind]. rewrite Hkey. cbn [negb].
    rewrite (url_or_title_url py_str fields u Hu Hne). cbn [rbind Mongo.encode].
    rewrite Hsur. reflexivity. }
  split; [exact Hn |].
  unfold Mongo.insert_articles, bind, lift.
  rewrite (prepare_raises _ _ _ _ Hpre Hn). reflexivity.
Qed.

(** X6.  The date of the first document of a batch is parsed before any
    client is built and outside the two [except] clauses: when it is not
    text (a missing date is null) the flush raises [TypeError], when it is
    ASCII text that the format does not accept the flush raises
    [ValueError]; nothing is sent, whatever the other documents are. *)
Theorem unreadable_first_date_aborts_flush (articles : list json) (first : Doc)
    (rest : list Doc) (w : World) :
  Mongo.prepare py_str articles [] = Ok (first :: rest) ->
  ((forall s, date first <> JStr s) ->
   Mongo.insert_articles py_str articles w = (Raise TypeError, w))
  /\ (forall s, date first = JStr s -> is_ascii s = true -> strptime_iso s = None ->
      Mongo.insert_articles py_str articles w = (Raise ValueError, w)).
Proof.
  intros Hp. split.
  - intros Hd. unfold Mongo.insert_articles, bind, lift. rewrite Hp. simpl.
    unfold Mongo.get_client_for_date, bind, lift.
    assert (Mongo.strptime (date first) = Raise TypeError) as ->; [|reflexivity].
    destruct (date first); try reflexivity. exfalso. eapply Hd. reflexivity.
  - intros s Hd _ Hs. unfold Mongo.insert_articles, bind, lift. rewrite Hp. simpl.
    unfold Mongo.get_client_for_date, bind, lift. rewrite Hd. simpl. rewrite Hs. reflexivity.
Qed.

End Preparation.

(** ** The fields that are read *)

Section Fields.

Variable py_str : json -> string.

(** X7.  The normalizer reads the fields lang, title, url, date and
    docembed only: two articles that agree on these five get the same
    result, the same document with the same [_id] when there is one. *)
Theorem other_fields_do_not_matter (fields fields' : list (string * json)) :
  (forall key, In key READ_KEYS -> assoc key fields' = assoc key fields) ->
  Mongo.normalize py_str (JObj fields') = Mongo.normalize py_str (JObj fields).
Proof.
  intros Hsame.
  assert (assoc "lang" fields' = assoc "lang" fields) as Hlang by (apply Hsame; simpl; auto).
  assert (assoc "title" fields' = assoc "title" fields) as Htitle by (apply Hsame; simpl; auto).
  assert (assoc "url" fields' = assoc "url" fields) as Hurl by (apply Hsame; simpl; auto).
  assert (assoc "date" fields' = assoc "date" fields) as Hdate by (apply Hsame; simpl; auto).
  assert (assoc "docembed" fields' = assoc "docembed" fields) as Hdoc
    by (apply Hsame; simpl; auto 10).
  unfold Mongo.normalize, Mongo.url_or_title. cbn [Mongo.get rbind].
  rewrite Hlang, Htitle, Hurl, Hdate, Hdoc.
  destruct (Mongo.differs _ "ENGLISH"); [reflexivity |].
  destruct (assoc "title" fields) as [[| | | | t | |] |];
    cbn [default from_option id Mongo.lower rbind]; try reflexivity;
    (destruct (assoc "url" fields) as [[| | | | u | |] |];
     cbn [default from_option id Mongo.lower rbind]; try reflexivity).
  all: match goal with
       | |- context [Mongo.any_keyword ?a ?b] =>
           destruct (Mongo.any_keyword a b) eqn:Hkey; cbn [negb]; [| reflexivity]
       end.
  all: unfold py_or; cbn [truthy].
  - destruct (String.eqb_spec u ""); cbn [negb]; [| reflexivity].
    destruct (String.eqb_spec t ""); cbn [negb]; [| reflexivity].
    subst. discriminate Hkey.
  - destruct (String.eqb_spec t ""); cbn [negb]; [| reflexivity].
    subst. discriminate Hkey.
  - destruct (String.eqb_spec u ""); cbn [negb]; [| reflexivity].
    subst. discriminate Hkey.
Qed.

End Fields.

(** ** The shape of an identity *)

Lemma hex_digit_lower (n : Z) : 0 <= n < 16 -> is_hex_lower (MD5.hex_digit n) = true.
Proof.
  intros H.
  assert (Hall : forallb (fun k => is_hex_lower (MD5.hex_digit (Z.of_nat k))) (seq 0 16) = true)
    by reflexivity.
  rewrite forallb_forall in Hall. specialize (Hall (Z.to_nat n)).
  rewrite Z2Nat.id in Hall by lia. apply Hall. apply in_seq. lia.
Qed.

Lemma hex_shape (bs : list Z) :
  Forall (fun b => 0 <= b < 256) bs ->
  String.length (MD5.hex bs) = (2 * List.length bs)%nat
  /\ forallb is_hex_lower (list_ascii_of_string (MD5.hex bs)) = true.
Proof.
  induction 1 as [|b rest Hb _ [IH1 IH2]]; [split; reflexivity|].
  split.
  - cbn [MD5.hex String.length]. rewrite IH1. cbn [List.length]. lia.
  - cbn [MD5.hex list_ascii_of_string forallb]. rewrite IH2.
    rewrite !hex_digit_lower; [reflexivity| |].
    + change 15 with (Z.ones 4). rewrite Z.land_ones by lia.
      pose proof (Z.mod_pos_bound b (2 ^ 4)). lia.
    + rewrite Z.shiftr_div_pow2 by lia. change (2 ^ 4) with 16.
      split; [apply Z.div_pos; lia | apply Z.div_lt_upper_bound; lia].
Qed.

Lemma bytes_le_range (n : nat) (x : Z) : Forall (fun b => 0 <= b < 256) (MD5.bytes_le n x).
Proof.
  unfold MD5.bytes_le. apply List.Forall_forall. intros b Hb.
  apply in_map_iff in Hb as [i [<- _]].
  change 255 with (Z.ones 8). rewrite Z.land_ones by lia.
  pose proof (Z.mod_pos_bound (Z.shiftr x (8 * Z.of_nat i)) (2 ^ 8)). lia.
Qed.

Lemma bytes_le_length (n : nat) (x : Z) : List.length (MD5.bytes_le n x) = n.
Proof. unfold MD5.bytes_le. rewrite length_map, length_seq. reflexivity. Qed.

Lemma hexdigest_shape (data : string) :
  String.length (MD5.hexdigest data) = 32%nat
  /\ forallb is_hex_lower (list_ascii_of_string (MD5.hexdigest data)) = true.
Proof.
  unfold MD5.hexdigest, MD5.digest.
  set (st := MD5.blocks _ _ _).
  destruct (hex_shape (MD5.bytes_le 4 (MD5.sA st) ++ MD5.bytes_le 4 (MD5.sB st)
                       ++ MD5.bytes_le 4 (MD5.sC st) ++ MD5.bytes_le 4 (MD5.sD st))) as [H1 H2].
  { repeat (apply Forall_app; split); apply bytes_le_range. }
  split; [|exact H2].
  rewrite H1, !length_app, !bytes_le_length. reflexivity.
Qed.

(** X8.  The [_id] of every document is made of 32 characters, each a
    decimal digit or a letter from a to f. *)
Theorem identity_is_32_hex_digits (py_str : json -> string) (article : json) (d : Doc) :
  Mongo.normalize py_str article = Ok (Some d) ->
  String.length (_id d) = 32%nat
  /\ forallb is_hex_lower (list_ascii_of_string (_id d)) = true.
Proof.
  intros H. destruct article as [| | | | | |fields]; try discriminate.
  apply normalize_some in H as (_ & t & u & src & _ & _ & _ & _ & ->).
  cbn [_id]. apply hexdigest_shape.
Qed.

(** ** Date formats *)

(** X9.  No text is accepted by both date formats: a timestamp that the
    pipeline parses makes [get_collection_for_date] raise [ValueError],
    and a date that the query layer parses makes the pipeline's
    [get_client_for_date] raise [ValueError]. *)
Theorem date_formats_are_disjoint (s : string) (w : World) :
  (forall t, strptime_iso s = Some t -> Api.get_collection_for_date s = Raise ValueError)
  /\ (forall d, strptime_date s = Some d ->
      Mongo.get_client_for_date (JStr s) w = (Raise ValueError, w)).
Proof.
  assert (forall t, strptime_iso s = Some t -> strptime_date s = None) as H1.
  { unfold strptime_iso, strptime_date. intros t.
    destruct (directive_Y s) as [[y s1]|]; simpl; [|discriminate].
    destruct (literal "-" s1) as [s2|]; simpl; [|discriminate].
    destruct (directive_m s2) as [[m s3]|]; simpl; [|discriminate].
    destruct (literal "-" s3) as [s4|]; simpl; [|discriminate].
    destruct (directive_d s4) as [[d s5]|]; simpl; [|discriminate].
    destruct s5 as [|c r]; simpl; [discriminate|reflexivity]. }
  split.
  - intros t Ht. unfold Api.get_collection_for_date. rewrite (H1 _ Ht). reflexivity.
  - intros d Hd. unfold Mongo.get_client_for_date, bind, lift. simpl.
    destruct (strptime_iso s) as [t|] eqn:Ht; [|reflexivity].
    rewrite (H1 _ eq_refl) in Hd. discriminate.
Qed.

(** ** Routing outside the configured windows *)

Lemma route_closed_form (t : datetime) (c : Cluster) (w : World) :
  cluster_for_date Db.CLUSTERS t = Ok c ->
  fst (Db.get_client_for_date t w) = Ok (client_of c)
  /\ (forall s, strptime_iso s = Some t ->
                fst (Mongo.get_client_for_date (JStr s) w) = Ok (client_of c)).
Proof.
  intros Hc. split.
  - rewrite (db_get_client_for_date_eq t w c Hc). reflexivity.
  - intros s Hs. rewrite <- clusters_same in Hc.
    rewrite (mongo_get_client_for_date_eq s t w c Hs Hc). reflexivity.
Qed.

(** X10.  From 2024-07-01 on the two layers choose different clusters:
    [get_collection_for_date] answers with the collection of cluster3,
    both [get_client_for_date] functions fall back to cluster1. *)
Theorem layers_disagree_after_june_30 (date_str : string) (d t : datetime) (w : World) :
  strptime_date date_str = Some d ->
  midnight 2024 7 1 <= d ->
  d <= t ->
  Api.get_collection_for_date date_str = Ok Api.articles3
  /\ fst (Db.get_client_for_date t w) = Ok (client_of (cluster "cluster1"))
  /\ (forall s, strptime_iso s = Some t ->
                fst (Mongo.get_client_for_date (JStr s) w) = Ok (client_of (cluster "cluster1")))
  /\ coll_client Api.articles3 = client_of (cluster "cluster3")
  /\ client_of (cluster "cluster3") <> client_of (cluster "cluster1").
Proof.
  intros Hd Hlow Ht.
  change (midnight 2024 7 1) with 63855388800000000 in Hlow.
  assert (Hroute : cluster_for_date Db.CLUSTERS t = Ok (cluster "cluster1")).
  { rewrite cluster_for_date_closed_form. f_equal.
    repeat match goal with
           | |- context [?a <=? ?b] => destruct (Z.leb_spec a b)
           end; simpl; try reflexivity; exfalso; lia. }
  split; [| split; [| split; [| split]]].
  - unfold Api.get_collection_for_date. rewrite Hd.
    change (make 2024 4 27 0 0 0) with (Some 63849772800000000).
    change (make 2024 3 2 0 0 0) with (Some 63844934400000000).
    cbn [or_raise rbind].
    destruct (Z.leb_spec 63849772800000000 d); [reflexivity | exfalso; lia].
  - apply (route_closed_form t _ w Hroute).
  - apply (route_closed_form t _ w Hroute).
  - reflexivity.
  - discriminate.
Qed.

(** X11.  The windows are closed intervals of whole seconds: an instant
    after 2024-04-26T23:59:59 and before 2024-04-27T00:00:00 is in no
    window, and [get_client_for_date] of [db.ipynb] returns the client of
    cluster1 for it, not that of cluster2 or cluster3. *)
Theorem instant_between_windows_goes_to_cluster1 (t : datetime) (w : World) :
  default 0 (strptime_iso "2024-04-26T23:59:59Z") < t < midnight 2024 4 27 ->
  (forall x, In x Db.CLUSTERS -> ~ covers (snd x) t)
  /\ Db.get_client_for_date t w
     = (Ok (client_of (cluster "cluster1")), connected (uri (cluster "cluster1")) w).
Proof.
  intros Ht.
  replace (strptime_iso "2024-04-26T23:59:59Z") with (Some 63849772799000000) in Ht
    by (vm_compute; reflexivity).
  change (midnight 2024 4 27) with 63849772800000000 in Ht.
  change (default 0 (Some 63849772799000000)) with 63849772799000000 in Ht.
  split.
  - intros x Hx (s & e & Hs & He & Hin).
    unfold Db.CLUSTERS in Hx. cbn [In] in Hx.
    destruct Hx as [<- | [<- | [<- | []]]]; cbn [snd start_date end_date] in Hs, He;
      vm_compute in Hs; vm_compute in He; injection Hs as <-; injection He as <-; lia.
  - apply db_get_client_for_date_eq. rewrite cluster_for_date_closed_form. f_equal.
    repeat match goal with
           | |- context [?a <=? ?b] => destruct (Z.leb_spec a b)
           end; simpl; try reflexivity; exfalso; lia.
Qed.

(** ** The storage check *)

(** X12.  [check_storage_limit] builds one client, for the cluster that
    the router gives for the day, asks it for [dbstats] and closes it; it
    changes nothing else.  Its reading is above 490 exactly when the
    [storageSize] reported is above 513802240 bytes, and is not negative
    when [storageSize] is not. *)
Theorem storage_check_reads_and_closes (d : datetime) (w : World) :
  let u := shard_uri d in
  Db.check_storage_limit d w
  = (Ok (reading w d), after [Connect u; Dbstats u; Close u] w)
  /\ (exists c, cluster_for_date Db.CLUSTERS d = Ok c /\ u = uri c)
  /\ ((490 < reading w d)%Q <-> 513802240 < storageSize w u d)
  /\ (0 <= storageSize w u d -> (0 <= reading w d)%Q).
Proof.
  intros u. split; [apply check_storage_limit_closed_form |]. split.
  - unfold u, shard_uri. destruct (cluster_for_date_total d) as [c Hc]. rewrite Hc. eauto.
  - unfold reading. fold u. set (n := storageSize w u d).
    unfold Qlt, Qle, Qdiv, Qmult, Qinv, inject_Z. simpl. split; [split |]; lia.
Qed.

(** ** What a bulk write leaves in the collection *)

Lemma bulk_write_keeps (reject : Doc -> option Z) (docs : list Doc) (held : gmap string Doc)
    (i : Z) :
  (forall id d0, held !! id = Some d0 ->
                 fst (fst (bulk_write reject held i docs)) !! id = Some d0)
  /\ (forall d, In d docs -> reject d = None ->
                is_Some (fst (fst (bulk_write reject held i docs)) !! _id d)).
Proof.
  revert held i. induction docs as [| x rest IH]; intros held i.
  - split; [intros id d0 H; exact H | intros d []].
  - cbn [bulk_write].
    destruct (reject x) as [c |] eqn:Hrej.
    + destruct (IH held (i + 1)) as [IH1 IH2].
      destruct (bulk_write reject held (i + 1) rest) as [[h ins] errs]. cbn [fst] in *.
      split; [exact IH1 |]. intros d [<- | Hd] Hr; [congruence | auto].
    + destruct (held !! _id x) as [d0 |] eqn:Hheld.
      * destruct (IH held (i + 1)) as [IH1 IH2].
        destruct (bulk_write reject held (i + 1) rest) as [[h ins] errs]. cbn [fst] in *.
        split; [exact IH1 |]. intros d [<- | Hd] Hr; [eauto | auto].
      * destruct (IH (<[_id x := x]> held) (i + 1)) as [IH1 IH2].
        destruct (bulk_write reject (<[_id x := x]> held) (i + 1) rest) as [[h ins] errs].
        cbn [fst] in *. split.
        -- intros id d0 H. apply IH1. rewrite lookup_insert_ne; [exact H | congruence].
        -- intros d [<- | Hd] Hr; [| auto].
           exists x. apply IH1. apply lookup_insert_eq.
Qed.

Lemma bulk_write_all_held (reject : Doc -> option Z) (docs : list Doc)
    (held : gmap string Doc) (i : Z) :
  (forall d, In d docs -> reject d = None /\ is_Some (held !! _id d)) ->
  exists errors,
    bulk_write reject held i docs = (held, [], errors)
    /\ List.length errors = List.length docs
    /\ Forall (fun e => code e = DUPLICATE_KEY) errors.
Proof.
  revert i. induction docs as [| x rest IH]; intros i H.
  - exists []. repeat split. constructor.
  - destruct (H x (or_introl eq_refl)) as [Hrej [d0 Hheld]].
    destruct (IH (i + 1)) as (errors & Hb & Hlen & Hall).
    { intros d Hd. apply H. right. exact Hd. }
    cbn [bulk_write]. rewrite Hrej, Hheld, Hb.
    eexists. split; [reflexivity |]. split; [simpl; lia |].
    constructor; [reflexivity | exact Hall].
Qed.

Lemma held_by_insert (w w' : World) (coll other : Collection) (m : gmap string Doc) :
  mongo w' = <[coll_key coll := m]> (mongo w) ->
  held_by w' coll = m
  /\ (coll_key other <> coll_key coll -> held_by w' other = held_by w other).
Proof.
  intros H. unfold held_by. rewrite H. split.
  - rewrite lookup_insert_eq. reflexivity.
  - intros Hne. rewrite lookup_insert_ne; [reflexivity | congruence].
Qed.

Section Store.

Variable py_str : json -> string.

(** X13.  A flush that is answered writes the whole batch to the
    collection of the cluster of its first document's date: every document
    the server does not refuse is then held there under its [_id],
    whatever its own date; what the collection held stays; and no other
    collection changes. *)
Theorem batch_goes_to_cluster_of_first_document (articles : list json) (first : Doc)
    (rest : list Doc) (t : datetime) (c : Cluster) (w : World) :
  Mongo.prepare py_str articles [] = Ok (first :: rest) ->
  Mongo.strptime (date first) = Ok t ->
  cluster_for_date Mongo.CLUSTERS t = Ok c ->
  leading_timeouts 3 (faults w) <> 3%nat ->
  let w' := snd (Mongo.insert_articles py_str articles w) in
  let coll := articles_collection c in
  (forall d, In d (first :: rest) -> write_error w d = None ->
             is_Some (held_by w' coll !! _id d))
  /\ (forall id d0, held_by w coll !! id = Some d0 -> held_by w' coll !! id = Some d0)
  /\ (forall other, coll_key other <> coll_key coll -> held_by w' other = held_by w other).
Proof.
  intros Hprep Hdate Hcluster Hbudget w' coll.
  destruct (insert_articles_closed_form py_str articles first rest t c Hprep Hdate Hcluster w)
    as (w1 & Hrun & _ & Hmongo & _).
  apply Nat.eqb_neq in Hbudget. rewrite Hbudget in Hmongo.
  assert (w' = w1) as -> by (unfold w'; rewrite Hrun; reflexivity).
  fold coll in Hmongo.
  destruct (bulk_write_keeps (write_error w) (first :: rest) (held_by w coll) 0) as [K1 K2].
  split; [| split].
  - intros d Hd Hr. rewrite (proj1 (held_by_insert w w1 coll coll _ Hmongo)).
    apply K2; assumption.
  - intros id d0 H. rewrite (proj1 (held_by_insert w w1 coll coll _ Hmongo)).
    apply K1. exact H.
  - intros other Hne. apply (proj2 (held_by_insert w w1 coll other _ Hmongo) Hne).
Qed.

(** X14.  Flushing a batch a second time inserts nothing: without
    timeouts, and when the server refuses nothing on its own, the second
    flush returns (0, n) for a batch of n documents and leaves the store
    as the first flush left it. *)
Theorem second_flush_inserts_nothing (articles : list json) (first : Doc)
    (rest : list Doc) (t : datetime) (c : Cluster) (w : World) :
  Mongo.prepare py_str articles [] = Ok (first :: rest) ->
  Mongo.strptime (date first) = Ok t ->
  cluster_for_date Mongo.CLUSTERS t = Ok c ->
  faults w = [] ->
  (forall d, In d (first :: rest) -> write_error w d = None) ->
  exists counts w1 w2,
    Mongo.insert_articles py_str articles w = (Ok counts, w1)
    /\ Mongo.insert_articles py_str articles w1
       = (Ok (0, Z.of_nat (List.length (first :: rest))), w2)
    /\ mongo w2 = mongo w1.
Proof.
  intros Hprep Hdate Hcluster Hf Hrej.
  set (coll := articles_collection c).
  destruct (insert_articles_closed_form py_str articles first rest t c Hprep Hdate Hcluster w)
    as (w1 & Hrun1 & _ & Hmongo1 & Hf1 & _ & _ & Hwe1).
  rewrite Hf in Hrun1, Hmongo1, Hf1. cbn [leading_timeouts Nat.eqb] in Hrun1, Hmongo1, Hf1.
  destruct (insert_articles_closed_form py_str articles first rest t c Hprep Hdate Hcluster w1)
    as (w2 & Hrun2 & _ & Hmongo2 & _).
  assert (faults w1 = []) as Hf1' by (rewrite Hf1; reflexivity).
  rewrite Hf1' in Hrun2, Hmongo2. cbn [leading_timeouts Nat.eqb] in Hrun2, Hmongo2.
  fold coll in Hmongo1, Hmongo2, Hrun2.
  pose proof (proj1 (held_by_insert w w1 coll coll _ Hmongo1)) as Hheld1.
  destruct (bulk_write_keeps (write_error w) (first :: rest) (held_by w coll) 0) as [_ K2].
  destruct (bulk_write_all_held (write_error w1) (first :: rest) (held_by w1 coll) 0)
    as (errors & Hb & Hlen & _).
  { intros d Hd. rewrite Hwe1. split; [apply Hrej; exact Hd |].
    rewrite Hheld1. apply K2; [exact Hd | apply Hrej; exact Hd]. }
  unfold answered in Hrun2. unfold stored in Hmongo2. rewrite Hb in Hrun2, Hmongo2.
  cbn [fst] in Hmongo2. cbn [List.length] in Hrun2. rewrite Hlen in Hrun2.
  eexists _, w1, w2. split; [exact Hrun1 |]. split; [exact Hrun2 |].
  rewrite Hmongo2. unfold held_by. rewrite Hmongo1, lookup_insert_eq. cbn [default from_option id].
  apply insert_insert_eq.
Qed.

Lemma flush_result_bound (articles : list json) (w w' : World)
    (inserted duplicates : Z) :
  Mongo.insert_articles py_str articles w = (Ok (inserted, duplicates), w') ->
  0 <= inserted /\ 0 <= duplicates
  /\ inserted + duplicates <= Z.of_nat (List.length articles).
Proof.
  intros Hrun.
  destruct (Mongo.prepare py_str articles []) as [[| first rest] | e] eqn:Hprep.
  - unfold Mongo.insert_articles, bind, lift in Hrun. rewrite Hprep in Hrun.
    injection Hrun as <- <- _. lia.
  - destruct (Mongo.strptime (date first)) as [t | e] eqn:Hdate.
    + destruct (cluster_for_date_total t) as [c Hc]. rewrite <- clusters_same in Hc.
      destruct (insert_articles_closed_form py_str articles first rest t c Hprep Hdate Hc w)
        as (w1 & Hrun1 & _).
      rewrite Hrun1 in Hrun. injection Hrun as Hcounts _.
      cbv zeta in Hcounts.
      match type of Hcounts with context [Nat.eqb ?a 3] => destruct (Nat.eqb a 3) end.
      * injection Hcounts as <- <-. lia.
      * unfold answered in Hcounts.
        pose proof (bulk_write_lengths (write_error w) (first :: rest)
                      (held_by w (articles_collection c)) 0) as Hlen.
        destruct (bulk_write _ _ 0 (first :: rest)) as [[h ins] errs].
        cbn [fst snd] in Hlen. injection Hcounts as <- <-.
        pose proof (prepare_length py_str articles [] _ Hprep) as Hle.
        cbn [List.length] in Hle, Hlen. lia.
    + unfold Mongo.insert_articles, bind, lift in Hrun. rewrite Hprep in Hrun.
      cbn [Mongo.attempts] in Hrun. unfold Mongo.get_client_for_date, bind, lift in Hrun.
      rewrite Hdate in Hrun. discriminate Hrun.
  - unfold Mongo.insert_articles, bind, lift in Hrun. rewrite Hprep in Hrun. discriminate Hrun.
Qed.

(** X15.  The counts a flush returns are not negative and add up to at
    most the number of articles it was given. *)
Theorem flush_result_within_batch (articles : list json) (w w' : World)
    (inserted duplicates : Z) :
  Mongo.insert_articles py_str articles w = (Ok (inserted, duplicates), w') ->
  0 <= inserted /\ 0 <= duplicates
  /\ inserted + duplicates <= Z.of_nat (List.length articles).
Proof. apply flush_result_bound. Qed.

End Store.

(** ** Relations that every step keeps *)

Lemma get_client_outcome (v : json) (w : World) :
  (exists e, Mongo.get_client_for_date v w = (Raise e, w))
  \/ (exists c, In c (map snd Mongo.CLUSTERS)
                /\ Mongo.get_client_for_date v w = (Ok (client_of c), after [Connect (uri c)] w)).
Proof.
  destruct (Mongo.strptime v) as [t | e] eqn:Ht.
  - right. destruct (cluster_for_date_total t) as [c Hc].
    exists c. split.
    + rewrite cluster_for_date_closed_form in Hc. injection Hc as <-.
      repeat match goal with |- context [if ?b then _ else _] => destruct b end;
        vm_compute; auto.
    + rewrite <- clusters_same in Hc. apply (get_client_resolved v t c w Ht Hc).
  - left. exists e. unfold Mongo.get_client_for_date, bind, lift. rewrite Ht. reflexivity.
Qed.

Section Invariants.

Variable R : World -> World -> Prop.
Variable E : Event -> Prop.

Hypothesis R_refl : forall w, R w w.
Hypothesis R_trans : forall w1 w2 w3, R w1 w2 -> R w2 w3 -> R w1 w3.
Hypothesis R_emit : forall e w, E e -> R w (after [e] w).
Hypothesis R_attempt :
  forall c docs w, In c (map snd Mongo.CLUSTERS) ->
    R w (snd (insert_many (articles_collection c) docs (after [Connect (uri c)] w))).

Lemma preserves_ret {A : Type} (a : A) : preserves R (ret a).
Proof. intros w. apply R_refl. Qed.

Lemma preserves_lift {A : Type} (r : Result A) : preserves R (lift r).
Proof. intros w. apply R_refl. Qed.

Lemma preserves_emit (e : Event) : E e -> preserves R (emit e).
Proof. intros He w. apply (R_emit e w He). Qed.

Lemma preserves_bind {A B : Type} (m : M A) (k : A -> M B) :
  preserves R m -> (forall a, preserves R (k a)) -> preserves R (bind m k).
Proof.
  intros Hm Hk w. unfold bind. pose proof (Hm w) as H1.
  destruct (m w) as [[a | e] w1]; cbn [snd] in *; [| exact H1].
  eapply R_trans; [exact H1 | apply Hk].
Qed.

Lemma attempts_preserves (docs : list Doc) (first : Doc) (retries : nat) (counts : Z * Z) :
  (forall e, flush_message e -> E e) ->
  preserves R (Mongo.attempts retries docs first counts).
Proof.
  intros HE. induction retries as [| fewer IH]; [apply preserves_ret |].
  intros w. cbn [Mongo.attempts]. unfold bind at 1.
  destruct (get_client_outcome (date first) w) as [[e ->] | (c & Hin & ->)];
    [apply R_refl |].
  pose proof (R_attempt c docs w Hin) as Hstep.
  change {| coll_client := client_of c; coll_db := "gdelt_news"; coll_name := "articles" |}
    with (articles_collection c).
  destruct (insert_many (articles_collection c) docs _) as [[ids | | n errs] w1];
    cbn [snd] in *; try exact Hstep.
  eapply R_trans; [exact Hstep |].
  clear Hstep. revert w1.
  change (preserves R (print (ConnectionTimeout (Z.of_nat fewer)) ;; sleep 5 ;;
                       Mongo.attempts fewer docs first counts)).
  apply preserves_bind; [apply preserves_emit, HE; exact I |]. intros _.
  apply preserves_bind; [apply preserves_emit, HE; reflexivity |]. intros _.
  exact IH.
Qed.

Lemma reader_preserves (bucket key : string) :
  E (Print (SkippingCorruptedLine key)) ->
  preserves R (Loader.read_gz_file_from_s3 bucket key).
Proof.
  intros HE w. unfold Loader.read_gz_file_from_s3.
  destruct (Loader.get_object key (s3 w bucket)) as [body |]; [| apply R_refl].
  rewrite read_lines_closed_form. cbn [snd].
  generalize (lines_read (limits w) (Codec.readlines body)). intros lines.
  induction lines as [| raw rest IH] using rev_ind.
  - rewrite after_nil. apply R_refl.
  - rewrite diagnostics_of_app, <- after_after. eapply R_trans; [exact IH |].
    cbn [diagnostics_of]. destruct (classify (limits w) raw);
      try (rewrite after_nil; apply R_refl).
    apply R_emit, HE.
Qed.

Section Functions.

Variable py_str : json -> string.

Lemma flush_preserves (articles : list json) :
  (forall e, flush_message e -> E e) ->
  preserves R (Mongo.insert_articles py_str articles).
Proof.
  intros HE. unfold Mongo.insert_articles.
  apply preserves_bind; [apply preserves_lift |].
  intros [| first rest]; [apply preserves_ret |].
  apply preserves_bind; [apply attempts_preserves, HE |].
  intros [retries counts].
  apply preserves_bind; [| intros _; apply preserves_ret].
  destruct (Nat.eqb retries 0); [apply preserves_emit, HE; exact I | apply preserves_ret].
Qed.

Lemma day_message_of_flush (e : Event) : flush_message e -> day_message e.
Proof. destruct e as [[] | | | | | |]; simpl; auto. Qed.

Lemma run_message_of_day (e : Event) : day_message e -> run_message e.
Proof. destruct e as [[] | | | | | |]; simpl; auto. Qed.

Lemma process_keys_preserves (bucket : string) (keys : list string) (pending : list json)
    (ti td : Z) :
  (forall e, day_message e -> E e) ->
  preserves R (Loader.process_keys py_str bucket keys pending ti td).
Proof.
  intros HE. revert pending ti td.
  induction keys as [| key rest IH]; intros pending ti td; [apply preserves_ret |].
  cbn [Loader.process_keys].
  apply preserves_bind; [apply preserves_emit, HE; exact I |]. intros _.
  apply preserves_bind; [apply reader_preserves, HE; exact I |].
  intros [| a articles]; [apply IH |].
  destruct (Loader.BATCH_SIZE <=? _); [| apply IH].
  apply preserves_bind;
    [apply flush_preserves; intros e He; apply HE, day_message_of_flush, He |].
  intros [inserted duplicates].
  apply preserves_bind; [apply preserves_emit, HE; right; reflexivity |]. intros _.
  apply IH.
Qed.

Lemma day_preserves (bucket date_str : string) :
  (forall e, day_message e -> E e) ->
  preserves R (Loader.process_articles_for_day py_str bucket date_str).
Proof.
  intros HE. unfold Loader.process_articles_for_day.
  apply preserves_bind; [intros w; apply R_refl |]. intros keys.
  apply preserves_bind; [apply process_keys_preserves, HE |].
  intros [[pending ti] td].
  destruct pending as [| a pending]; [apply preserves_ret |].
  apply preserves_bind;
    [apply flush_preserves; intros e He; apply HE, day_message_of_flush, He |].
  intros [inserted duplicates]. apply preserves_ret.
Qed.

Hypothesis R_check : forall d w, R w (snd (Db.check_storage_limit d w)).

Lemma days_preserves (bucket : string) (end_date : datetime) (fuel : nat)
    (current_date : datetime) :
  (forall e, run_message e -> E e) ->
  preserves R (Db.days py_str fuel bucket current_date end_date).
Proof.
  intros HE. revert current_date.
  induction fuel as [| fuel IH]; intros current_date.
  - cbn [Db.days]. destruct (negb _); apply preserves_ret.
  - cbn [Db.days]. destruct (negb _); [apply preserves_ret |].
    apply preserves_bind; [apply preserves_emit, HE; exact I |]. intros _.
    apply preserves_bind;
      [apply day_preserves; intros e He; apply HE, run_message_of_day, He |].
    intros [inserted duplicates].
    apply preserves_bind; [apply preserves_emit, HE; exact I |]. intros _.
    apply preserves_bind; [apply preserves_emit, HE; exact I |]. intros _.
    apply preserves_bind; [intros w; apply R_check |]. intros storage_mb.
    apply preserves_bind; [apply preserves_emit, HE; exact I |]. intros _.
    destruct (Qlt_le_dec 490 storage_mb).
    + apply preserves_bind; [apply preserves_emit, HE; exact I |]. intros _.
      apply preserves_ret.
    + apply preserves_bind; [apply preserves_lift |]. intros next. apply IH.
Qed.

Lemma run_preserves (bucket : string) (start_date end_date : datetime) :
  (forall e, run_message e -> E e) ->
  preserves R (Db.load_articles_for_date_range py_str bucket start_date end_date).
Proof. intros HE. apply days_preserves, HE. Qed.

End Functions.

End Invariants.

(** ** The store only grows *)

Lemma store_grows_refl (w : World) : store_grows w w.
Proof. split; auto. Qed.

Lemma store_grows_trans (w1 w2 w3 : World) :
  store_grows w1 w2 -> store_grows w2 w3 -> store_grows w1 w3.
Proof.
  intros [A1 B1] [A2 B2]. split.
  - intros coll id d H. apply A2, A1, H.
  - intros coll H. rewrite (B2 coll H). apply B1, H.
Qed.

Lemma store_grows_after (evs : list Event) (w : World) : store_grows w (after evs w).
Proof. split; auto. Qed.

Lemma insert_many_store (coll : Collection) (docs : list Doc) (w : World) :
  let w' := snd (insert_many coll docs w) in
  (forall id d, held_by w coll !! id = Some d -> held_by w' coll !! id = Some d)
  /\ (forall other, coll_key other <> coll_key coll -> held_by w' other = held_by w other).
Proof.
  unfold insert_many. cbn [faults set_out].
  assert (Hanswer :
    forall f,
      let w' := snd (let w0 := set_faults f (set_out (out w ++ [InsertMany coll docs]) w) in
                     let '(held', inserted, errors) :=
                       bulk_write (write_error w0) (held_by w0 coll) 0 docs in
                     let w1 := set_mongo (<[coll_key coll := held']> (mongo w0)) w0 in
                     (match errors with
                      | [] => InsertManyResult inserted
                      | _ :: _ => BulkWriteError (Z.of_nat (List.length inserted)) errors
                      end, w1)) in
      (forall id d, held_by w coll !! id = Some d -> held_by w' coll !! id = Some d)
      /\ (forall other, coll_key other <> coll_key coll -> held_by w' other = held_by w other)).
  { intros f. cbv zeta.
    change (held_by (set_faults f (set_out (out w ++ [InsertMany coll docs]) w)) coll)
      with (held_by w coll).
    cbn [write_error set_faults set_out mongo].
    destruct (bulk_write_keeps (write_error w) docs (held_by w coll) 0) as [K _].
    destruct (bulk_write (write_error w) (held_by w coll) 0 docs) as [[held' ins] errs].
    cbn [fst snd] in *.
    split.
    - intros i d H. unfold held_by at 1. cbn [mongo set_mongo].
      rewrite lookup_insert_eq. cbn [default from_option id]. apply K, H.
    - intros other Hne. unfold held_by. cbn [mongo set_mongo].
      rewrite lookup_insert_ne; [reflexivity | congruence]. }
  destruct (faults w) as [| [] later].
  - apply (Hanswer []).
  - cbn [snd]. split; auto.
  - apply (Hanswer later).
Qed.

Lemma store_grows_attempt (c : Cluster) (docs : list Doc) (w : World) :
  In c (map snd Mongo.CLUSTERS) ->
  store_grows w (snd (insert_many (articles_collection c) docs (after [Connect (uri c)] w))).
Proof.
  intros Hin.
  destruct (insert_many_store (articles_collection c) docs (after [Connect (uri c)] w))
    as [K1 K2].
  split.
  - intros coll id d H.
    destruct (decide (coll_key coll = coll_key (articles_collection c))) as [Heq | Hne].
    + assert (forall w0, held_by w0 coll = held_by w0 (articles_collection c)) as Hsame
        by (intros w0; unfold held_by; rewrite Heq; reflexivity).
      rewrite Hsame. apply K1. rewrite <- Hsame. exact H.
    + rewrite (K2 coll Hne). exact H.
  - intros coll Hout. apply K2. intros Heq. apply Hout. rewrite Heq.
    unfold pipeline_collections. apply in_map_iff in Hin as (x & <- & Hx).
    apply in_map_iff. exists x. split; [reflexivity | exact Hx].
Qed.

Lemma store_grows_check (d : datetime) (w : World) :
  store_grows w (snd (Db.check_storage_limit d w)).
Proof. rewrite check_storage_limit_closed_form. apply store_grows_after. Qed.

Lemma run_store_grows (py_str : json -> string) (bucket : string)
    (start_date end_date : datetime) (w : World) :
  store_grows w (snd (Db.load_articles_for_date_range py_str bucket start_date end_date w)).
Proof.
  apply (run_preserves store_grows (fun _ => True) store_grows_refl store_grows_trans
           (fun e w _ => store_grows_after [e] w) store_grows_attempt py_str
           store_grows_check).
  intros; exact I.
Qed.

(** X16.  A run, like a single flush, only adds documents: a document
    held by a collection before is held after, unchanged, and collections
    other than [gdelt_news.articles] on one of the three clusters are left
    as they were. *)
Theorem run_only_adds_documents (py_str : json -> string) (bucket : string)
    (start_date end_date : datetime) (articles : list json) (w : World) :
  store_grows w (snd (Db.load_articles_for_date_range py_str bucket start_date end_date w))
  /\ store_grows w (snd (Mongo.insert_articles py_str articles w)).
Proof.
  split; [apply run_store_grows |].
  apply (flush_preserves store_grows (fun _ => True) store_grows_refl store_grows_trans
           (fun e w _ => store_grows_after [e] w) store_grows_attempt py_str).
  intros; exact I.
Qed.

(** X17.  The collection that [get_collection_for_date] answers with is
    none of the pipeline's: it is in the database [stock_analysis], the
    pipeline writes to [gdelt_news], and a run leaves it as it was. *)
Theorem query_collections_are_never_written (py_str : json -> string) (bucket : string)
    (start_date end_date : datetime) (date_str : string) (coll : Collection) (w : World) :
  Api.get_collection_for_date date_str = Ok coll ->
  ~ In (coll_key coll) pipeline_collections
  /\ held_by (snd (Db.load_articles_for_date_range py_str bucket start_date end_date w)) coll
     = held_by w coll.
Proof.
  intros Hcoll.
  assert (~ In (coll_key coll) pipeline_collections) as Hout.
  { unfold Api.get_collection_for_date in Hcoll.
    destruct (strptime_date date_str); [| discriminate].
    cbn [or_raise rbind] in Hcoll.
    destruct (make 2024 4 27 0 0 0); [| discriminate].
    destruct (make 2024 3 2 0 0 0); [| discriminate].
    cbn [or_raise rbind] in Hcoll.
    repeat match type of Hcoll with
           | (if ?b then _ else _) = _ => destruct b
           end; injection Hcoll as <-; vm_compute; intuition discriminate. }
  split; [exact Hout |].
  apply (proj2 (run_store_grows py_str bucket start_date end_date w)), Hout.
Qed.

(** ** Events of one kind *)

Lemma insert_many_out (coll : Collection) (docs : list Doc) (w : World) :
  out (snd (insert_many coll docs w)) = out w ++ [InsertMany coll docs].
Proof.
  unfold insert_many. cbn [faults set_out].
  destruct (faults w) as [| [] later]; try reflexivity;
    destruct (bulk_write _ _ _ _) as [[? ?] ?]; reflexivity.
Qed.

Lemma extends_attempt (P : Event -> Prop) (c : Cluster) (docs : list Doc) (w : World) :
  (forall u, P (Connect u)) -> (forall coll ds, P (InsertMany coll ds)) ->
  extends P w (snd (insert_many (articles_collection c) docs (after [Connect (uri c)] w))).
Proof.
  intros HC HI. eapply extends_trans.
  - apply (extends_after P [Connect (uri c)] w). constructor; [apply HC | constructor].
  - apply insert_many_extends, HI.
Qed.

Lemma extends_emit (P : Event -> Prop) (e : Event) (w : World) :
  P e -> extends P w (after [e] w).
Proof. intros H. apply extends_after. constructor; [exact H | constructor]. Qed.

Lemma clients_balance_refl (w : World) : clients_balance w w.
Proof. exists []. rewrite app_nil_r. split; reflexivity. Qed.

Lemma clients_balance_trans (w1 w2 w3 : World) :
  clients_balance w1 w2 -> clients_balance w2 w3 -> clients_balance w1 w3.
Proof.
  intros (e1 & H1 & B1) (e2 & H2 & B2). exists (e1 ++ e2).
  rewrite H2, H1, app_assoc. split; [reflexivity |].
  unfold clients_opened, clients_closed, insert_many_calls in *.
  rewrite !List.filter_app, !length_app. lia.
Qed.

Lemma clients_balance_emit (e : Event) (w : World) :
  run_message e -> clients_balance w (after [e] w).
Proof.
  intros He. exists [e]. split; [reflexivity |].
  destruct e as [m | s | u | coll ds | u | u | a b c]; try contradiction; reflexivity.
Qed.

Lemma clients_balance_attempt (c : Cluster) (docs : list Doc) (w : World) :
  In c (map snd Mongo.CLUSTERS) ->
  clients_balance w
    (snd (insert_many (articles_collection c) docs (after [Connect (uri c)] w))).
Proof.
  intros _. exists [Connect (uri c); InsertMany (articles_collection c) docs].
  rewrite insert_many_out. cbn [out after set_out]. rewrite <- app_assoc.
  split; reflexivity.
Qed.

Lemma clients_balance_check (d : datetime) (w : World) :
  clients_balance w (snd (Db.check_storage_limit d w)).
Proof.
  rewrite check_storage_limit_closed_form. eexists. split; reflexivity.
Qed.

Lemma none_closed (evs : list Event) :
  Forall (fun e => is_close e = false) evs -> clients_closed evs = 0%nat.
Proof.
  unfold clients_closed. induction 1 as [| e rest He _ IH]; [reflexivity |].
  cbn [List.filter]. rewrite He. exact IH.
Qed.

(** X18.  The writer builds a client for every bulk write and closes
    none: among the events of a day the clients opened are as many as the
    [insert_many] calls and none is closed; over a run the clients opened
    are those of the bulk writes and those of the storage checks, of which
    only the latter are closed. *)
Theorem bulk_writes_leave_clients_open (py_str : json -> string) (bucket : string)
    (start_date end_date : datetime) (date_str : string) (w : World) :
  clients_balance w
    (snd (Db.load_articles_for_date_range py_str bucket start_date end_date w))
  /\ exists evs,
      out (snd (Loader.process_articles_for_day py_str bucket date_str w)) = out w ++ evs
      /\ clients_closed evs = 0%nat
      /\ clients_opened evs = insert_many_calls evs.
Proof.
  split.
  - apply (run_preserves clients_balance run_message clients_balance_refl
             clients_balance_trans clients_balance_emit clients_balance_attempt py_str
             clients_balance_check).
    auto.
  - destruct (day_preserves clients_balance run_message clients_balance_refl
                clients_balance_trans clients_balance_emit clients_balance_attempt py_str
                bucket date_str (run_message_of_day) w) as (evs & Hout & Hbal).
    destruct (day_preserves (extends (fun e => is_close e = false))
                (fun e => is_close e = false)
                (extends_refl _) (extends_trans _) (extends_emit _)
                (fun c docs w _ => extends_attempt _ c docs w (fun _ => eq_refl)
                                     (fun _ _ => eq_refl))
                py_str bucket date_str) with (w := w) as [(evs' & Hout' & Hnone) _].
    { intros [] He; try contradiction; reflexivity. }
    rewrite Hout in Hout'. apply app_inv_head in Hout'. subst evs'.
    exists evs. split; [exact Hout |].
    pose proof (none_closed evs Hnone) as Hzero.
    split; [exact Hzero | lia].
Qed.

(** ** The archives of a day, in order *)

Lemma announced_app (a b : list Event) : announced (a ++ b) = announced a ++ announced b.
Proof. apply flat_map_app. Qed.

Lemma announced_none (evs : list Event) :
  Forall (fun e => announced [e] = []) evs -> announced evs = [].
Proof.
  induction 1 as [| e rest He _ IH]; [reflexivity |].
  change (e :: rest) with ([e] ++ rest). rewrite announced_app, He, IH. reflexivity.
Qed.

Section Archives.

Variable py_str : json -> string.

Let quiet_event (e : Event) : Prop := announced [e] = [].

Lemma reader_announces_nothing (bucket key : string) (w : World) :
  exists evs, out (snd (Loader.read_gz_file_from_s3 bucket key w)) = out w ++ evs
              /\ announced evs = [].
Proof.
  destruct (reader_preserves (extends quiet_event) quiet_event (extends_refl _)
              (extends_trans _) (extends_emit _) bucket key eq_refl w)
    as [(evs & Hout & Hq) _].
  exists evs. split; [exact Hout | apply announced_none, Hq].
Qed.

Lemma flush_announces_nothing (articles : list json) (w : World) :
  exists evs, out (snd (Mongo.insert_articles py_str articles w)) = out w ++ evs
              /\ announced evs = [].
Proof.
  destruct (flush_preserves (extends quiet_event) quiet_event (extends_refl _)
              (extends_trans _) (extends_emit _)
              (fun c docs w _ => extends_attempt _ c docs w (fun _ => eq_refl)
                                   (fun _ _ => eq_refl))
              py_str articles) with (w := w) as [(evs & Hout & Hq) _].
  { intros [[] | | | | | |] He; try contradiction; reflexivity. }
  exists evs. split; [exact Hout | apply announced_none, Hq].
Qed.

Lemma process_keys_announces (bucket : string) (keys : list string) (pending : list json)
    (ti td : Z) (w w' : World) (r : Result (list json * Z * Z)) :
  Loader.process_keys py_str bucket keys pending ti td w = (r, w') ->
  exists evs,
    out w' = out w ++ evs
    /\ (exists later, keys = announced evs ++ later)
    /\ (forall x, r = Ok x -> announced evs = keys).
Proof.
  revert pending ti td w. induction keys as [| key rest IH]; intros pending ti td w Hrun.
  - injection Hrun as <- <-. exists []. rewrite app_nil_r.
    split; [reflexivity |]. split; [exists [] |]; reflexivity.
  - cbn [Loader.process_keys] in Hrun. unfold bind at 1, print at 1, emit at 1 in Hrun.
    change (set_out (out w ++ [Print (ProcessingFile key)]) w)
      with (after [Print (ProcessingFile key)] w) in Hrun.
    set (w0 := after [Print (ProcessingFile key)] w) in Hrun.
    unfold bind at 1 in Hrun.
    destruct (reader_announces_nothing bucket key w0) as (e1 & Hout1 & Hq1).
    destruct (Loader.read_gz_file_from_s3 bucket key w0) as [[articles | e] w1];
      cbn [fst snd] in *.
    + assert (Hstep : forall pending' ti' td' w2 e2,
                 out w2 = out w1 ++ e2 -> announced e2 = [] ->
                 Loader.process_keys py_str bucket rest pending' ti' td' w2 = (r, w') ->
                 exists evs,
                   out w' = out w ++ evs
                   /\ (exists later, key :: rest = announced evs ++ later)
                   /\ (forall x, r = Ok x -> announced evs = key :: rest)).
      { intros pending' ti' td' w2 e2 Hout2 Hq2 Hrest.
        destruct (IH pending' ti' td' w2 Hrest) as (e3 & Hout3 & [later Hpre] & Hall).
        exists ([Print (ProcessingFile key)] ++ e1 ++ e2 ++ e3).
        split; [| split].
        - rewrite Hout3, Hout2, Hout1. unfold w0. cbn [out after set_out].
          rewrite <- !app_assoc. reflexivity.
        - exists later. rewrite !announced_app, Hq1, Hq2. cbn. rewrite Hpre at 1. reflexivity.
        - intros x Hx. rewrite !announced_app, Hq1, Hq2. cbn. f_equal. eapply Hall, Hx. }
      destruct articles as [| a articles].
      * apply (Hstep pending ti td w1 []); [rewrite app_nil_r; reflexivity | reflexivity |].
        exact Hrun.
      * destruct (Loader.BATCH_SIZE <=? _).
        -- unfold bind at 1 in Hrun.
           destruct (flush_announces_nothing (pending ++ a :: articles) w1)
             as (e2 & Hout2 & Hq2).
           destruct (Mongo.insert_articles py_str (pending ++ a :: articles) w1)
             as [[[inserted duplicates] | e] w2]; cbn [fst snd] in *.
           ++ unfold bind at 1, sleep at 1, emit at 1 in Hrun.
              apply (Hstep [] (ti + inserted) (td + duplicates)
                       (set_out (out w2 ++ [Sleep 1]) w2) (e2 ++ [Sleep 1]));
                [| | exact Hrun].
              ** cbn [out set_out]. rewrite Hout2, <- app_assoc. reflexivity.
              ** rewrite announced_app, Hq2. reflexivity.
           ++ injection Hrun as <- <-.
              exists ([Print (ProcessingFile key)] ++ e1 ++ e2).
              split; [| split].
              ** rewrite Hout2, Hout1. unfold w0. cbn [out after set_out].
                 rewrite <- !app_assoc. reflexivity.
              ** exists rest. rewrite !announced_app, Hq1, Hq2. reflexivity.
              ** intros x Hx. discriminate Hx.
        -- apply (Hstep (pending ++ a :: articles) ti td w1 []);
             [rewrite app_nil_r; reflexivity | reflexivity | exact Hrun].
    + injection Hrun as <- <-. exists ([Print (ProcessingFile key)] ++ e1).
      split; [| split].
      * rewrite Hout1. unfold w0. cbn [out after set_out]. rewrite <- !app_assoc. reflexivity.
      * exists rest. rewrite !announced_app, Hq1. reflexivity.
      * intros x Hx. discriminate Hx.
Qed.

(** X19.  [process_articles_for_day] announces the archives it reads in
    the order of the sorted listing, each once: the keys announced are an
    initial part of the listing, and the whole listing when the day
    returns. *)
Theorem archives_are_read_in_key_order (bucket date_str : string) (w w' : World)
    (r : Result (Z * Z)) :
  Loader.process_articles_for_day py_str bucket date_str w = (r, w') ->
  exists keys evs,
    Loader.list_gz_files_for_day bucket date_str w = (Ok keys, w)
    /\ out w' = out w ++ evs
    /\ (exists later, keys = announced evs ++ later)
    /\ (forall counts, r = Ok counts -> announced evs = keys).
Proof.
  intros Hrun. eexists.
  unfold Loader.process_articles_for_day in Hrun. unfold bind at 1 in Hrun.
  unfold Loader.list_gz_files_for_day at 1 in Hrun. unfold Loader.list_gz_files_for_day.
  cbv zeta in *.
  set (keys := Loader.sorted _) in *.
  unfold bind at 1 in Hrun.
  destruct (Loader.process_keys py_str bucket keys [] 0 0 w)
    as [[[[pending ti] td] | e] w1] eqn:Hkeys;
    destruct (process_keys_announces bucket keys [] 0 0 w _ _ Hkeys)
      as (e1 & Hout1 & Hpre & Hall).
  - destruct pending as [| a pending].
    + injection Hrun as <- <-.
      exists e1. split; [reflexivity |]. split; [exact Hout1 |]. split; [exact Hpre |].
      intros counts _. eapply Hall. reflexivity.
    + destruct (flush_announces_nothing (a :: pending) w1) as (e2 & Hout2 & Hq2).
      exists (e1 ++ e2). split; [reflexivity |]. unfold bind at 1 in Hrun.
      destruct (Mongo.insert_articles py_str (a :: pending) w1)
        as [[[inserted duplicates] | e] w2]; cbn [fst snd] in *; injection Hrun as <- <-.
      * split; [rewrite Hout2, Hout1, app_assoc; reflexivity |].
        rewrite announced_app, Hq2, app_nil_r. split; [exact Hpre |].
        intros counts _. eapply Hall. reflexivity.
      * split; [rewrite Hout2, Hout1, app_assoc; reflexivity |].
        rewrite announced_app, Hq2, app_nil_r. split; [exact Hpre |].
        intros counts Hr. discriminate Hr.
  - injection Hrun as <- <-.
    exists e1. split; [reflexivity |]. split; [exact Hout1 |]. split; [exact Hpre |].
    intros counts Hr. discriminate Hr.
Qed.

End Archives.

(** ** The lines of the ETL log *)

Lemma logged_app (a b : list Event) : logged (a ++ b) = logged a ++ logged b.
Proof. apply flat_map_app. Qed.

Lemma logged_none (evs : list Event) :
  Forall (fun e => logged [e] = []) evs -> logged evs = [].
Proof.
  induction 1 as [| e rest He _ IH]; [reflexivity |].
  change (e :: rest) with ([e] ++ rest). rewrite logged_app, He, IH. reflexivity.
Qed.

Lemma day_range_step (start : datetime) (n : nat) :
  day_range start (S n) = start :: day_range (start + DAY) n.
Proof.
  unfold day_range. cbn [seq map]. f_equal; [lia |].
  rewrite <- seq_shift, map_map. apply map_ext. intros j. lia.
Qed.

Section Log.

Variable py_str : json -> string.
Variables (bucket : string) (end_date : datetime).

Lemma day_logs_nothing (date_str : string) (w : World) :
  exists evs,
    out (snd (Loader.process_articles_for_day py_str bucket date_str w)) = out w ++ evs
    /\ logged evs = [].
Proof.
  destruct (day_preserves (extends (fun e => logged [e] = [])) (fun e => logged [e] = [])
              (extends_refl _) (extends_trans _) (extends_emit _)
              (fun c docs w _ => extends_attempt _ c docs w (fun _ => eq_refl)
                                   (fun _ _ => eq_refl))
              py_str bucket date_str) with (w := w) as [(evs & Hout & Hq) _].
  { intros [[] | | | | | |] He; try contradiction; reflexivity. }
  exists evs. split; [exact Hout | apply logged_none, Hq].
Qed.

Lemma days_logged (fuel : nat) (current_date : datetime) (w w' : World)
    (r : option Db.RunEnd) :
  (end_date - current_date) / DAY + 1 <= Z.of_nat fuel ->
  Db.days py_str fuel bucket current_date end_date w = (Ok r, w') ->
  exists evs,
    out w' = out w ++ evs
    /\ match r with
       | Some Db.Completed =>
           logged evs
           = map strftime_Ymd
               (day_range current_date (Z.to_nat ((end_date - current_date) / DAY + 1)))
       | Some (Db.Halted h) =>
           exists n, h = current_date + Z.of_nat n * DAY
                     /\ logged evs = map strftime_Ymd (day_range current_date (S n))
       | None => False
       end.
Proof.
  assert (HDAY : DAY = 86400000000) by reflexivity.
  revert current_date w w' r. induction fuel as [| fuel IH]; intros cur w w' r Hfuel Hrun.
  - cbn [Db.days] in Hrun. destruct (Z.leb_spec cur end_date) as [Hle | Hgt].
    + exfalso. assert (0 <= (end_date - cur) / DAY) by (apply Z.div_pos; lia). lia.
    + injection Hrun as <- <-. exists []. rewrite app_nil_r. split; [reflexivity |].
      assert ((end_date - cur) / DAY < 0) by (apply Z.div_lt_upper_bound; lia).
      replace (Z.to_nat _) with 0%nat by lia. reflexivity.
  - destruct (Z.le_gt_cases cur end_date) as [Hle | Hgt].
    + rewrite (days_turn py_str bucket end_date fuel cur w Hle) in Hrun. cbv zeta in Hrun.
      destruct (day_logs_nothing (strftime_Ymd cur)
                  (after [Print (Processing (strftime_Ymd cur))] w)) as (e1 & Hout1 & Hq1).
      destruct (Loader.process_articles_for_day py_str bucket (strftime_Ymd cur) _)
        as [[[inserted duplicates] | e] w1]; [| discriminate Hrun].
      cbn [snd] in Hout1.
      assert (0 <= (end_date - cur) / DAY) as Hpos by (apply Z.div_pos; lia).
      destruct (Qlt_le_dec 490 (reading w1 cur)) as [Hhigh | Hlow].
      * injection Hrun as <- <-. eexists. split.
        -- cbn [out after set_out]. rewrite Hout1. cbn [out after set_out].
           rewrite <- !app_assoc. reflexivity.
        -- exists 0%nat. split; [lia |].
           rewrite !logged_app, Hq1, day_range_step. reflexivity.
      * destruct (add_days cur 1) as [next |] eqn:Hnext; [| discriminate Hrun].
        apply add_days_one in Hnext. subst next.
        assert ((end_date - (cur + DAY)) / DAY = (end_date - cur) / DAY - 1) as Hdiv.
        { replace (end_date - (cur + DAY)) with (end_date - cur + (-1) * DAY) by lia.
          rewrite Z.div_add by lia. lia. }
        apply IH in Hrun; [| lia].
        destruct Hrun as (e2 & Hout2 & Hr).
        eexists. split.
        -- rewrite Hout2. cbn [out after set_out]. rewrite Hout1. cbn [out after set_out].
           rewrite <- !app_assoc. reflexivity.
        -- rewrite !logged_app, Hq1.
           change (logged [Print (Processing (strftime_Ymd cur))]) with (@nil string).
           cbn [app].
           match goal with
           | |- context [logged (?a :: ?b :: ?rest)] =>
               change (logged (a :: b :: rest)) with [strftime_Ymd cur]
           end.
           destruct r as [[| h] |]; [| | exact Hr].
           ++ rewrite Hr, Hdiv.
              replace (Z.to_nat ((end_date - cur) / DAY + 1))
                with (S (Z.to_nat ((end_date - cur) / DAY - 1 + 1))) by lia.
              rewrite day_range_step. reflexivity.
           ++ destruct Hr as (n & Hh & Hlog). exists (S n). split; [lia |].
              rewrite Hlog, (day_range_step cur (S n)). reflexivity.
    + cbn [Db.days] in Hrun.
      replace (cur <=? end_date) with false in Hrun by (symmetry; apply Z.leb_gt; lia).
      injection Hrun as <- <-. exists []. rewrite app_nil_r. split; [reflexivity |].
      assert ((end_date - cur) / DAY < 0) by (apply Z.div_lt_upper_bound; lia).
      replace (Z.to_nat _) with 0%nat by lia. reflexivity.
Qed.

(** X20.  A run that returns has appended one line to the log for each
    day it processed, in calendar order: every day of the range when it
    completed, the days from the start to the day of the halt, included,
    when it halted. *)
Theorem one_log_line_per_processed_day (start_date : datetime) (w w' : World)
    (r : option Db.RunEnd) :
  Db.load_articles_for_date_range py_str bucket start_date end_date w = (Ok r, w') ->
  exists evs,
    out w' = out w ++ evs
    /\ match r with
       | Some Db.Completed =>
           logged evs
           = map strftime_Ymd
               (day_range start_date (Z.to_nat ((end_date - start_date) / DAY + 1)))
       | Some (Db.Halted h) =>
           exists n, h = start_date + Z.of_nat n * DAY
                     /\ logged evs = map strftime_Ymd (day_range start_date (S n))
       | None => False
       end.
Proof.
  intros Hrun. unfold Db.load_articles_for_date_range in Hrun.
  apply days_logged in Hrun; [exact Hrun | lia].
Qed.

End Log.

(** ** The listing of a day *)

Lemma insert_sorted_permutation (k : string) (l : list string) :
  Permutation (Loader.insert_sorted k l) (k :: l).
Proof.
  induction l as [| x rest IH]; [reflexivity |].
  cbn [Loader.insert_sorted]. destruct (String.leb k x); [reflexivity |].
  rewrite IH. apply perm_swap.
Qed.

Lemma sorted_permutation (files : list string) : Permutation (Loader.sorted files) files.
Proof.
  induction files as [| k rest IH]; [reflexivity |].
  cbn [Loader.sorted fold_right]. fold (Loader.sorted rest).
  rewrite insert_sorted_permutation, IH. reflexivity.
Qed.

Lemma insert_sorted_head (x k : string) (l : list string) :
  key_le x k -> HdRel key_le x l -> HdRel key_le x (Loader.insert_sorted k l).
Proof.
  intros Hxk Hhd. destruct l as [| y rest]; [constructor; exact Hxk |].
  cbn [Loader.insert_sorted]. destruct (String.leb k y); constructor; [exact Hxk |].
  inversion Hhd. assumption.
Qed.

Lemma insert_sorted_sorted (k : string) (l : list string) :
  Sorted key_le l -> Sorted key_le (Loader.insert_sorted k l).
Proof.
  induction 1 as [| x rest Hs IH Hhd]; [repeat constructor |].
  cbn [Loader.insert_sorted]. destruct (String.leb k x) eqn:Hle.
  - constructor; [constructor; assumption | constructor; exact Hle].
  - constructor; [exact IH |]. apply insert_sorted_head; [| exact Hhd].
    destruct (String.leb_total k x) as [H | H]; [congruence | exact H].
Qed.

Lemma sorted_sorted (files : list string) : Sorted key_le (Loader.sorted files).
Proof.
  induction files as [| k rest IH]; [constructor |].
  cbn [Loader.sorted fold_right]. apply insert_sorted_sorted, IH.
Qed.

Lemma in_firstn {A : Type} (n : nat) (l : list A) (x : A) : In x (firstn n l) -> In x l.
Proof.
  revert l. induction n as [| n IH]; intros [| y l] H; try contradiction.
  destruct H as [<- | H]; [left; reflexivity | right; apply IH, H].
Qed.

(** X21.  [list_gz_files_for_day] leaves the outside as it was and
    returns, in ascending order, the keys of the first page of the listing
    (at most 1000 keys under the prefix of the day) that end in ".gz". *)
Theorem listing_is_sorted_gz_keys (bucket date_str : string) (w : World) :
  exists keys,
    Loader.list_gz_files_for_day bucket date_str w = (Ok keys, w)
    /\ Sorted key_le keys
    /\ Permutation keys
         (List.filter (Text.endswith ".gz")
            (firstn 1000 (List.filter (Text.startswith (date_str ++ "/")%string)
                            (map fst (s3 w bucket)))))
    /\ (forall key, In key keys ->
          Text.endswith ".gz" key = true
          /\ Text.startswith (date_str ++ "/")%string key = true
          /\ In key (map fst (s3 w bucket)))
    /\ (List.length keys <= 1000)%nat.
Proof.
  eexists. split; [reflexivity |].
  set (listed := firstn 1000 (List.filter (Text.startswith (date_str ++ "/")%string)
                                (map fst (s3 w bucket)))).
  change (Loader.list_objects_v2 bucket (date_str ++ "/")%string w) with listed.
  pose proof (sorted_permutation (List.filter (Text.endswith ".gz") listed)) as Hperm.
  split; [apply sorted_sorted |]. split; [exact Hperm |]. split.
  - intros key Hin. eapply Permutation_in in Hin; [| exact Hperm].
    apply List.filter_In in Hin as [Hin Hgz]. split; [exact Hgz |].
    apply in_firstn in Hin. apply List.filter_In in Hin as [Hin Hpre].
    split; assumption.
  - rewrite (Permutation_length Hperm).
    transitivity (List.length listed).
    + clear. induction listed as [| x l IH]; [reflexivity |].
      cbn [List.filter]. destruct (Text.endswith ".gz" x); simpl; lia.
    + unfold listed. rewrite length_firstn. lia.
Qed.

(** ** Counts against records read *)

Section Counts.

Variable py_str : json -> string.

Lemma process_keys_counts (bucket : string) (keys : list string) (pending : list json)
    (ti td : Z) (w w' : World) (pending' : list json) (ti' td' : Z) :
  Loader.process_keys py_str bucket keys pending ti td w = (Ok (pending', ti', td'), w') ->
  ti <= ti' /\ td <= td'
  /\ ti' + td' + Z.of_nat (List.length pending')
     <= ti + td + Z.of_nat (List.length pending)
        + Z.of_nat (records_in (limits w) (s3 w bucket) keys).
Proof.
  revert pending ti td w. induction keys as [| key rest IH]; intros pending ti td w Hrun.
  - injection Hrun as <- <- <- <-. cbn [records_in fold_right]. lia.
  - cbn [Loader.process_keys] in Hrun. unfold bind at 1, print at 1, emit at 1 in Hrun.
    unfold bind at 1 in Hrun. unfold Loader.read_gz_file_from_s3 at 1 in Hrun.
    cbn [s3 limits set_out] in Hrun. cbn [records_in fold_right].
    fold (records_in (limits w) (s3 w bucket) rest).
    destruct (Loader.get_object key (s3 w bucket)) as [body |]; [| discriminate Hrun].
    destruct (Loader.read_lines _ _ _ _ _) as [[articles | e] w1] eqn:Hread;
      [| discriminate Hrun].
    apply read_returns in Hread as [-> ->].
    match type of Hrun with
    | context [after ?d ?w0] => set (w1 := after d w0) in Hrun
    end.
    assert (s3 w1 = s3 w) as Hs3 by reflexivity.
    assert (limits w1 = limits w) as Hlim by reflexivity.
    destruct (records_of (limits w) (Codec.readlines body)) as [| a articles].
    + apply IH in Hrun. rewrite Hs3, Hlim in Hrun. cbn [List.length]. lia.
    + destruct (Loader.BATCH_SIZE <=? _).
      * unfold bind at 1 in Hrun.
        pose proof (flush_keeps_bucket py_str (pending ++ a :: articles) w1) as [Hs3' Hlim'].
        destruct (Mongo.insert_articles py_str (pending ++ a :: articles) w1)
          as [[[inserted duplicates] | e] w2] eqn:Hflush; [| discriminate Hrun].
        apply flush_result_bound in Hflush. cbn [snd] in Hs3', Hlim'.
        unfold bind at 1, sleep at 1, emit at 1 in Hrun.
        apply IH in Hrun. cbn [s3 limits set_out] in Hrun.
        rewrite Hs3', Hs3, Hlim', Hlim in Hrun.
        rewrite length_app in Hflush. cbn [List.length] in *. lia.
      * apply IH in Hrun. rewrite Hs3, Hlim in Hrun.
        rewrite length_app in Hrun. cbn [List.length] in *. lia.
Qed.

(** X22.  The counts a day returns are not negative and add up to at
    most the number of records its archives hold. *)
Theorem day_counts_within_records_read (bucket date_str : string) (w w' : World)
    (inserted duplicates : Z) :
  Loader.process_articles_for_day py_str bucket date_str w
  = (Ok (inserted, duplicates), w') ->
  exists keys,
    Loader.list_gz_files_for_day bucket date_str w = (Ok keys, w)
    /\ 0 <= inserted /\ 0 <= duplicates
    /\ inserted + duplicates <= Z.of_nat (records_in (limits w) (s3 w bucket) keys).
Proof.
  intros Hrun. eexists. split; [reflexivity |].
  unfold Loader.process_articles_for_day in Hrun. unfold bind at 1 in Hrun.
  unfold Loader.list_gz_files_for_day at 1 in Hrun. cbv zeta in *.
  set (keys := Loader.sorted _) in *.
  unfold bind at 1 in Hrun.
  destruct (Loader.process_keys py_str bucket keys [] 0 0 w)
    as [[[[pending ti] td] | e] w1] eqn:Hkeys; [| discriminate Hrun].
  apply process_keys_counts in Hkeys. cbn [List.length] in Hkeys.
  destruct pending as [| a pending].
  - injection Hrun as <- <- _. cbn [List.length] in Hkeys. lia.
  - unfold bind at 1 in Hrun.
    destruct (Mongo.insert_articles py_str (a :: pending) w1)
      as [[[i d] | e] w2] eqn:Hflush; [| discriminate Hrun].
    apply flush_result_bound in Hflush. injection Hrun as <- <- _. lia.
Qed.

End Counts.

(** ** A day without timeouts *)

Lemma sent_app (a b : list Event) : sent (a ++ b) = sent a ++ sent b.
Proof. apply flat_map_app. Qed.

Lemma sent_diagnostics (lim : Json.Limits) (key : string) (lines : list string) :
  sent (diagnostics_of lim key lines) = [].
Proof.
  induction lines as [| raw rest IH]; [reflexivity |].
  cbn [diagnostics_of]. destruct (classify lim raw); exact IH.
Qed.

Lemma bulk_write_origin (reject : Doc -> option Z) (docs : list Doc) (held : gmap string Doc)
    (i : Z) (id : string) (d : Doc) :
  fst (fst (bulk_write reject held i docs)) !! id = Some d ->
  held !! id = Some d \/ (In d docs /\ _id d = id).
Proof.
  revert held i. induction docs as [| x rest IH]; intros held i; [left; assumption |].
  cbn [bulk_write].
  assert (Hskip : fst (fst (bulk_write reject held (i + 1) rest)) !! id = Some d ->
                  held !! id = Some d \/ (In d (x :: rest) /\ _id d = id)).
  { intros H. destruct (IH _ _ H) as [Hh | [Hin Hid]]; [left; exact Hh |].
    right. split; [right; exact Hin | exact Hid]. }
  destruct (reject x) as [c |].
  - destruct (bulk_write reject held (i + 1) rest) as [[h ins] errs]. exact Hskip.
  - destruct (held !! _id x) as [d0 |].
    + destruct (bulk_write reject held (i + 1) rest) as [[h ins] errs]. exact Hskip.
    + specialize (IH (<[_id x := x]> held) (i + 1)).
      destruct (bulk_write reject (<[_id x := x]> held) (i + 1) rest) as [[h ins] errs].
      cbn [fst] in *. intros H. destruct (IH H) as [Hh | [Hin Hid]].
      * destruct (decide (_id x = id)) as [<- | Hne].
        -- rewrite lookup_insert_eq in Hh. injection Hh as <-.
           right. split; [left; reflexivity | reflexivity].
        -- rewrite lookup_insert_ne in Hh by exact Hne. left. exact Hh.
      * right. split; [right; exact Hin | exact Hid].
Qed.

Lemma insert_many_origin (coll other : Collection) (docs : list Doc) (w : World)
    (k : string) (d : Doc) :
  held_by (snd (insert_many coll docs w)) other !! k = Some d ->
  held_by w other !! k = Some d \/ (In d docs /\ _id d = k).
Proof.
  unfold insert_many. cbn [faults set_out].
  assert (Hanswer :
    forall f,
      held_by
        (snd (let w0 := set_faults f (set_out (out w ++ [InsertMany coll docs]) w) in
              let '(held', inserted, errors) :=
                bulk_write (write_error w0) (held_by w0 coll) 0 docs in
              let w1 := set_mongo (<[coll_key coll := held']> (mongo w0)) w0 in
              (match errors with
               | [] => InsertManyResult inserted
               | _ :: _ => BulkWriteError (Z.of_nat (List.length inserted)) errors
               end, w1))) other !! k = Some d ->
      held_by w other !! k = Some d \/ (In d docs /\ _id d = k)).
  { intros f. cbv zeta.
    change (held_by (set_faults f (set_out (out w ++ [InsertMany coll docs]) w)) coll)
      with (held_by w coll).
    cbn [write_error set_faults set_out mongo].
    pose proof (bulk_write_origin (write_error w) docs (held_by w coll) 0 k d) as K.
    destruct (bulk_write (write_error w) (held_by w coll) 0 docs) as [[held' ins] errs].
    cbn [fst snd] in *. unfold held_by at 1. cbn [mongo set_mongo].
    destruct (decide (coll_key other = coll_key coll)) as [Heq | Hne].
    - rewrite Heq, lookup_insert_eq. cbn [default from_option id].
      intros H. unfold held_by at 1. rewrite Heq. apply K. exact H.
    - rewrite lookup_insert_ne by congruence. intros H. left. exact H. }
  destruct (faults w) as [| [] later].
  - apply (Hanswer []).
  - cbn [snd]. intros H. left. exact H.
  - apply (Hanswer later).
Qed.

Lemma written_from_refl (w : World) : written_from w w.
Proof. exists []. rewrite app_nil_r. split; [reflexivity | intros coll id d H; left; exact H]. Qed.

Lemma written_from_trans (w1 w2 w3 : World) :
  written_from w1 w2 -> written_from w2 w3 -> written_from w1 w3.
Proof.
  intros (e1 & H1 & K1) (e2 & H2 & K2). exists (e1 ++ e2).
  split; [rewrite H2, H1, app_assoc; reflexivity |].
  intros coll id d H. rewrite sent_app.
  destruct (K2 coll id d H) as [Hh | [Hin Hid]].
  - destruct (K1 coll id d Hh) as [Hh' | [Hin Hid]]; [left; exact Hh' |].
    right. split; [apply in_or_app; left; exact Hin | exact Hid].
  - right. split; [apply in_or_app; right; exact Hin | exact Hid].
Qed.

Lemma written_from_after (evs : list Event) (w : World) : written_from w (after evs w).
Proof. exists evs. split; [reflexivity | intros coll id d H; left; exact H]. Qed.

Lemma written_from_attempt (c : Cluster) (docs : list Doc) (w : World) :
  In c (map snd Mongo.CLUSTERS) ->
  written_from w (snd (insert_many (articles_collection c) docs (after [Connect (uri c)] w))).
Proof.
  intros _. exists [Connect (uri c); InsertMany (articles_collection c) docs]. split.
  - rewrite insert_many_out. cbn [out after set_out]. rewrite <- app_assoc. reflexivity.
  - intros coll id d H. apply insert_many_origin in H. cbn [sent flat_map app].
    rewrite app_nil_r. exact H.
Qed.

Lemma written_from_check (d : datetime) (w : World) :
  written_from w (snd (Db.check_storage_limit d w)).
Proof. rewrite check_storage_limit_closed_form. apply written_from_after. Qed.

Lemma kept_origin (w w' : World) (evs : list Event) (ds : list Doc) (d : Doc) :
  written_from w w' -> out w' = out w ++ evs -> sent evs = ds ->
  kept w' d -> kept_from w ds w' d.
Proof.
  intros (evs' & Hout' & K) Hout <- (c & Hc & [d' Hheld]).
  rewrite Hout in Hout'. apply app_inv_head in Hout'. subst evs'.
  exists c, d'. split; [exact Hc |]. split; [exact Hheld |]. apply K, Hheld.
Qed.

Lemma kept_itself (w w' : World) (ds : list Doc) (d : Doc) :
  kept_from w ds w' d -> unknown w d -> only_one ds d ->
  exists c, In c (map snd Mongo.CLUSTERS)
            /\ held_by w' (articles_collection c) !! _id d = Some d.
Proof.
  intros (c & d' & Hc & Hheld & [Hold | [Hin Hid]]) Hnew Hone.
  - rewrite (Hnew c Hc) in Hold. discriminate Hold.
  - exists c. split; [exact Hc |]. rewrite (Hone d' Hin Hid) in Hheld. exact Hheld.
Qed.

Section Conservation.

Variable py_str : json -> string.

Lemma flush_without_timeout (articles : list json) (w w' : World) (counts : Z * Z) :
  faults w = [] ->
  Mongo.insert_articles py_str articles w = (Ok counts, w') ->
  exists evs ds,
    Mongo.prepare py_str articles [] = Ok ds
    /\ out w' = out w ++ evs
    /\ sent evs = ds
    /\ fst counts + snd counts = Z.of_nat (List.length ds)
    /\ faults w' = [] /\ s3 w' = s3 w /\ write_error w' = write_error w
    /\ (forall d, In d ds -> write_error w d = None -> kept w' d).
Proof.
  intros Hf Hrun.
  destruct (Mongo.prepare py_str articles []) as [[| first rest] | e] eqn:Hprep.
  - unfold Mongo.insert_articles, bind, lift in Hrun. rewrite Hprep in Hrun.
    injection Hrun as <- <-. exists [], []. rewrite app_nil_r.
    repeat (split; [first [reflexivity | exact Hf] |]). intros d [].
  - destruct (Mongo.strptime (date first)) as [t | e] eqn:Hdate.
    + destruct (cluster_for_date_total t) as [c Hc]. rewrite <- clusters_same in Hc.
      destruct (insert_articles_closed_form py_str articles first rest t c Hprep Hdate Hc w)
        as (w1 & Hrun1 & Hout & Hmongo & Hf1 & Hs3 & _ & Hwe).
      rewrite Hf in Hrun1, Hout, Hf1, Hmongo.
      cbn [leading_timeouts Nat.eqb] in Hrun1, Hout, Hf1, Hmongo.
      rewrite Hrun1 in Hrun. injection Hrun as <- <-.
      eexists _, _. split; [reflexivity |]. split; [exact Hout |].
      split; [cbn; rewrite app_nil_r; reflexivity |].
      split; [| split; [exact Hf1 | split; [exact Hs3 | split; [exact Hwe |]]]].
      * unfold answered.
        pose proof (bulk_write_lengths (write_error w) (first :: rest)
                      (held_by w (articles_collection c)) 0) as Hlen.
        destruct (bulk_write _ _ 0 (first :: rest)) as [[h ins] errs].
        cbn [fst snd] in *. lia.
      * intros d Hd Hrej. exists c. split.
        -- rewrite clusters_same in Hc. rewrite cluster_for_date_closed_form in Hc.
           injection Hc as <-.
           repeat match goal with |- context [if ?b then _ else _] => destruct b end;
             vm_compute; auto.
        -- rewrite (proj1 (held_by_insert w w1 (articles_collection c)
                             (articles_collection c) _ Hmongo)).
           apply (bulk_write_keeps (write_error w) (first :: rest)); assumption.
    + unfold Mongo.insert_articles, bind, lift in Hrun. rewrite Hprep in Hrun.
      cbn [Mongo.attempts] in Hrun. unfold Mongo.get_client_for_date, bind, lift in Hrun.
      rewrite Hdate in Hrun. discriminate Hrun.
  - unfold Mongo.insert_articles, bind, lift in Hrun. rewrite Hprep in Hrun. discriminate Hrun.
Qed.

Lemma process_keys_sends (bucket : string) (keys : list string) (pending : list json)
    (ti td : Z) (w w' : World) (pending' : list json) (ti' td' : Z) :
  faults w = [] ->
  Loader.process_keys py_str bucket keys pending ti td w = (Ok (pending', ti', td'), w') ->
  exists evs,
    out w' = out w ++ evs
    /\ Mongo.prepare py_str (pending ++ day_records (limits w) (s3 w bucket) keys) []
       = (let? ds := Mongo.prepare py_str pending' [] in Ok (sent evs ++ ds))
    /\ ti' + td' = ti + td + Z.of_nat (List.length (sent evs))
    /\ faults w' = []
    /\ write_error w' = write_error w
    /\ ((forall d, write_error w d = None) -> forall d, In d (sent evs) -> kept w' d).
Proof.
  revert pending ti td w. induction keys as [| key rest IH]; intros pending ti td w Hf Hrun.
  - injection Hrun as <- <- <- <-. exists []. rewrite !app_nil_r.
    split; [reflexivity |].
    split; [| split; [cbn; lia | split; [exact Hf | split; [reflexivity | intros _ d []]]]].
    cbn [sent flat_map app]. destruct (Mongo.prepare py_str pending []); reflexivity.
  - cbn [Loader.process_keys] in Hrun. unfold bind at 1, print at 1, emit at 1 in Hrun.
    unfold bind at 1 in Hrun. unfold Loader.read_gz_file_from_s3 at 1 in Hrun.
    cbn [s3 limits set_out] in Hrun. cbn [day_records flat_map].
    fold (day_records (limits w) (s3 w bucket) rest).
    destruct (Loader.get_object key (s3 w bucket)) as [body |]; [| discriminate Hrun].
    destruct (Loader.read_lines _ _ _ _ _) as [[articles | e] w1] eqn:Hread;
      [| discriminate Hrun].
    apply read_returns in Hread as [-> ->].
    match type of Hrun with
    | context [after ?d ?w0] => set (w1 := after d w0) in Hrun
    end.
    assert (s3 w1 = s3 w) as Hs3 by reflexivity.
    assert (limits w1 = limits w) as Hlim by reflexivity.
    assert (write_error w1 = write_error w) as Hwe1 by reflexivity.
    assert (faults w1 = []) as Hf1 by exact Hf.
    assert (exists e1, out w1 = out w ++ e1 /\ sent e1 = []) as (e1 & Hout1 & Hq1).
    { eexists. split.
      - unfold w1. cbn [out after set_out]. rewrite <- app_assoc. reflexivity.
      - rewrite sent_app, sent_diagnostics. reflexivity. }
    clearbody w1.
    destruct (records_of (limits w) (Codec.readlines body)) as [| a articles].
    + destruct (IH pending ti td w1 Hf1 Hrun) as (e2 & Hout2 & Hprep2 & Hc2 & Hf2 & Hwe2 & Hk2).
      exists (e1 ++ e2). rewrite sent_app, Hq1. cbn [app].
      rewrite Hs3, Hlim in Hprep2. rewrite Hwe1 in Hwe2, Hk2.
      split; [rewrite Hout2, Hout1, app_assoc; reflexivity | auto 10].
    + destruct (Loader.BATCH_SIZE <=? _).
      * unfold bind at 1 in Hrun.
        destruct (Mongo.insert_articles py_str (pending ++ a :: articles) w1)
          as [[[inserted duplicates] | e] w2] eqn:Hflush; [| discriminate Hrun].
        destruct (flush_without_timeout _ _ _ _ Hf1 Hflush)
          as (e2 & ds & Hprep & Hout2 & Hsent2 & Hcount2 & Hf2 & Hs3' & Hwe2 & Hk2).
        pose proof (flush_keeps_bucket py_str (pending ++ a :: articles) w1) as [_ Hlim'].
        rewrite Hflush in Hlim'. cbn [snd] in Hlim'.
        unfold bind at 1, sleep at 1, emit at 1 in Hrun.
        pose proof (process_keys_preserves store_grows (fun _ => True) store_grows_refl
                      store_grows_trans (fun e w _ => store_grows_after [e] w)
                      store_grows_attempt py_str bucket rest [] (ti + inserted)
                      (td + duplicates) (fun _ _ => I)
                      (set_out (out w2 ++ [Sleep 1]) w2)) as Hgrow.
        rewrite Hrun in Hgrow. cbn [snd] in Hgrow.
        apply IH in Hrun; [| exact Hf2].
        destruct Hrun as (e3 & Hout3 & Hprep3 & Hc3 & Hf3 & Hwe3 & Hk3).
        cbn [s3 limits set_out out write_error] in Hprep3, Hout3, Hwe3, Hk3.
        rewrite Hs3', Hs3, Hlim', Hlim in Hprep3. rewrite Hwe2, Hwe1 in Hwe3, Hk3.
        cbn [app] in Hprep3.
        exists (e1 ++ e2 ++ [Sleep 1] ++ e3).
        rewrite !sent_app, Hq1, Hsent2. cbn [sent flat_map app].
        split; [| split; [| split; [| split; [exact Hf3 | split; [exact Hwe3 |]]]]];
          [| | | intros Hnone d Hd; apply in_app_or in Hd as [Hd | Hd];
                 [| apply Hk3; assumption]].
        4: { destruct (Hk2 d Hd) as (c & Hc & [d0 Hheld]);
               [rewrite Hwe1; apply Hnone |].
             exists c. split; [exact Hc |]. exists d0.
             apply (proj1 Hgrow). exact Hheld. }
        -- rewrite Hout3, Hout2, Hout1, <- !app_assoc. reflexivity.
        -- replace (pending ++ a :: articles ++ day_records (limits w) (s3 w bucket) rest)
             with ((pending ++ a :: articles) ++ day_records (limits w) (s3 w bucket) rest)
             by (rewrite <- app_assoc; reflexivity).
           rewrite prepare_app, Hprep, Hprep3. cbn [rbind].
           destruct (Mongo.prepare py_str pending' []); cbn [rbind]; [| reflexivity].
           rewrite app_assoc. reflexivity.
        -- rewrite length_app. cbn [fst snd] in Hcount2. lia.
      * destruct (IH (pending ++ a :: articles) ti td w1 Hf1 Hrun)
          as (e2 & Hout2 & Hprep2 & Hc2 & Hf2 & Hwe2 & Hk2).
        exists (e1 ++ e2). rewrite sent_app, Hq1. cbn [app].
        rewrite Hs3, Hlim, <- app_assoc in Hprep2. rewrite Hwe1 in Hwe2, Hk2.
        split; [rewrite Hout2, Hout1, app_assoc; reflexivity | auto 10].
Qed.

Lemma day_sends (bucket date_str : string) (w w' : World) (inserted duplicates : Z) :
  faults w = [] ->
  Loader.process_articles_for_day py_str bucket date_str w
  = (Ok (inserted, duplicates), w') ->
  exists keys evs,
    Loader.list_gz_files_for_day bucket date_str w = (Ok keys, w)
    /\ out w' = out w ++ evs
    /\ Mongo.prepare py_str (day_records (limits w) (s3 w bucket) keys) [] = Ok (sent evs)
    /\ inserted + duplicates = Z.of_nat (List.length (sent evs))
    /\ ((forall d, write_error w d = None) -> forall d, In d (sent evs) -> kept w' d).
Proof.
  intros Hf Hrun. eexists.
  unfold Loader.process_articles_for_day in Hrun. unfold bind at 1 in Hrun.
  unfold Loader.list_gz_files_for_day at 1 in Hrun. unfold Loader.list_gz_files_for_day.
  cbv zeta in *.
  set (keys := Loader.sorted _) in *.
  unfold bind at 1 in Hrun.
  destruct (Loader.process_keys py_str bucket keys [] 0 0 w)
    as [[[[pending ti] td] | e] w1] eqn:Hkeys; [| discriminate Hrun].
  destruct (process_keys_sends bucket keys [] 0 0 w w1 pending ti td Hf Hkeys)
    as (e1 & Hout1 & Hprep1 & Hc1 & Hf1 & Hwe1 & Hk1).
  cbn [app] in Hprep1.
  destruct pending as [| a pending].
  - injection Hrun as <- <- <-. exists e1. split; [reflexivity |]. split; [exact Hout1 |].
    cbn [Mongo.prepare rbind] in Hprep1. rewrite app_nil_r in Hprep1.
    split; [exact Hprep1 | split; [lia | exact Hk1]].
  - unfold bind at 1 in Hrun.
    destruct (Mongo.insert_articles py_str (a :: pending) w1)
      as [[[i d] | e] w2] eqn:Hflush; [| discriminate Hrun].
    pose proof (flush_preserves store_grows (fun _ => True) store_grows_refl
                  store_grows_trans (fun e w _ => store_grows_after [e] w)
                  store_grows_attempt py_str (a :: pending) (fun _ _ => I) w1) as Hgrow.
    rewrite Hflush in Hgrow. cbn [snd] in Hgrow.
    destruct (flush_without_timeout _ _ _ _ Hf1 Hflush)
      as (e2 & ds & Hprep & Hout2 & Hsent2 & Hcount2 & _ & _ & _ & Hk2).
    injection Hrun as <- <- <-. exists (e1 ++ e2).
    split; [reflexivity |]. split; [rewrite Hout2, Hout1, app_assoc; reflexivity |].
    rewrite Hprep in Hprep1. cbn [rbind] in Hprep1.
    rewrite sent_app, Hsent2. split; [exact Hprep1 |].
    split; [rewrite length_app; cbn [fst snd] in Hcount2; lia |].
    intros Hnone d0 Hd. apply in_app_or in Hd as [Hd | Hd].
    + destruct (Hk1 Hnone d0 Hd) as (c & Hc & [d1 Hheld]).
      exists c. split; [exact Hc |]. exists d1. apply (proj1 Hgrow). exact Hheld.
    + apply Hk2; [exact Hd |]. rewrite Hwe1. apply Hnone.
Qed.

(** X23.  Without timeouts, a day that returns has handed to
    [insert_many], batch after batch, exactly the documents prepared from
    the records of its archives taken in key order: none is left out, none
    is sent twice, and their order is kept.  Its two counts add up to
    their number. *)
Theorem day_sends_every_document_once (bucket date_str : string) (w w' : World)
    (inserted duplicates : Z) :
  faults w = [] ->
  Loader.process_articles_for_day py_str bucket date_str w
  = (Ok (inserted, duplicates), w') ->
  exists keys evs,
    Loader.list_gz_files_for_day bucket date_str w = (Ok keys, w)
    /\ out w' = out w ++ evs
    /\ Mongo.prepare py_str (day_records (limits w) (s3 w bucket) keys) [] = Ok (sent evs)
    /\ inserted + duplicates = Z.of_nat (List.length (sent evs)).
Proof.
  intros Hf Hrun.
  destruct (day_sends bucket date_str w w' inserted duplicates Hf Hrun)
    as (keys & evs & H1 & H2 & H3 & H4 & _).
  exists keys, evs. auto.
Qed.

Lemma day_written_from (bucket date_str : string) (w : World) :
  written_from w (snd (Loader.process_articles_for_day py_str bucket date_str w)).
Proof.
  apply (day_preserves written_from (fun _ => True) written_from_refl written_from_trans
           (fun e w _ => written_from_after [e] w) written_from_attempt py_str bucket
           date_str).
  intros; exact I.
Qed.

(** X24.  Without timeouts, and when the server refuses no document on
    its own, a day that returns leaves, under the [_id] of every document
    prepared from the records of its archives, a document held by the
    pipeline's collection on one of the three clusters: the document that
    was held there under that [_id] before the day, or a document of the
    day with that [_id].  It is the document itself when no collection of
    the pipeline knew its [_id] and no other document of the day has
    it. *)
Theorem day_stores_every_document (bucket date_str : string) (w w' : World)
    (inserted duplicates : Z) :
  faults w = [] ->
  (forall d, write_error w d = None) ->
  Loader.process_articles_for_day py_str bucket date_str w
  = (Ok (inserted, duplicates), w') ->
  exists keys ds,
    Loader.list_gz_files_for_day bucket date_str w = (Ok keys, w)
    /\ Mongo.prepare py_str (day_records (limits w) (s3 w bucket) keys) [] = Ok ds
    /\ forall d, In d ds ->
         kept_from w ds w' d
         /\ (unknown w d -> only_one ds d ->
             exists c, In c (map snd Mongo.CLUSTERS)
                       /\ held_by w' (articles_collection c) !! _id d = Some d).
Proof.
  intros Hf Hnone Hrun.
  destruct (day_sends bucket date_str w w' inserted duplicates Hf Hrun)
    as (keys & evs & H1 & H2 & H3 & _ & H5).
  pose proof (day_written_from bucket date_str w) as Hfrom.
  rewrite Hrun in Hfrom. cbn [snd] in Hfrom.
  exists keys, (sent evs). split; [exact H1 |]. split; [exact H3 |].
  intros d Hd.
  assert (kept_from w (sent evs) w' d) as Hk
    by (apply (kept_origin w w' evs); auto).
  split; [exact Hk | apply kept_itself, Hk].
Qed.

End Conservation.

(** ** A run without timeouts *)

Lemma calm_refl (w : World) : calm w w.
Proof. repeat split; auto. Qed.

Lemma calm_trans (w1 w2 w3 : World) : calm w1 w2 -> calm w2 w3 -> calm w1 w3.
Proof.
  intros (A1 & L1 & B1 & C1) (A2 & L2 & B2 & C2).
  repeat split; [congruence | congruence | congruence | auto].
Qed.

Lemma calm_after (evs : list Event) (w : World) : calm w (after evs w).
Proof. repeat split; auto. Qed.

Lemma calm_insert_many (coll : Collection) (docs : list Doc) (w : World) :
  calm w (snd (insert_many coll docs w)).
Proof.
  unfold insert_many. cbn [faults set_out].
  destruct (faults w) as [| [] later] eqn:Hf.
  - destruct (bulk_write _ _ _ _) as [[? ?] ?].
    repeat (split; [reflexivity |]). intros _; reflexivity.
  - repeat (split; [reflexivity |]). intros H; rewrite Hf in H; discriminate H.
  - destruct (bulk_write _ _ _ _) as [[? ?] ?].
    repeat (split; [reflexivity |]). intros H; rewrite Hf in H; discriminate H.
Qed.

Lemma calm_attempt (c : Cluster) (docs : list Doc) (w : World) :
  In c (map snd Mongo.CLUSTERS) ->
  calm w (snd (insert_many (articles_collection c) docs (after [Connect (uri c)] w))).
Proof.
  intros _. eapply calm_trans; [apply (calm_after [Connect (uri c)]) | apply calm_insert_many].
Qed.

Lemma kept_grows (w w' : World) (d : Doc) : store_grows w w' -> kept w d -> kept w' d.
Proof.
  intros [Hgrow _] (c & Hc & [d0 Hheld]). exists c. split; [exact Hc |].
  exists d0. apply Hgrow, Hheld.
Qed.

Lemma day_kept_same_bucket (py_str : json -> string) (bucket : string) (w0 w w' : World)
    (day : datetime) :
  s3 w0 = s3 w -> limits w0 = limits w ->
  day_kept py_str bucket w0 w' day -> day_kept py_str bucket w w' day.
Proof.
  intros Hs3 Hlim Hkept keys ds Hlist Hprep.
  apply (Hkept keys ds).
  - unfold Loader.list_gz_files_for_day, Loader.list_objects_v2 in *. rewrite Hs3.
    injection Hlist as <-. reflexivity.
  - rewrite Hs3, Hlim. exact Hprep.
Qed.

Section Run.

Variable py_str : json -> string.
Variables (bucket : string) (end_date : datetime).

Lemma day_calm (date_str : string) (w : World) :
  calm w (snd (Loader.process_articles_for_day py_str bucket date_str w)).
Proof.
  apply (day_preserves calm (fun _ => True) calm_refl calm_trans
           (fun e w _ => calm_after [e] w) calm_attempt py_str bucket date_str).
  intros; exact I.
Qed.

Lemma days_store (fuel : nat) (current_date : datetime) (w w' : World)
    (r : option Db.RunEnd) :
  (end_date - current_date) / DAY + 1 <= Z.of_nat fuel ->
  faults w = [] ->
  (forall d, write_error w d = None) ->
  Db.days py_str fuel bucket current_date end_date w = (Ok r, w') ->
  match r with
  | Some Db.Completed =>
      forall day,
        In day (day_range current_date (Z.to_nat ((end_date - current_date) / DAY + 1))) ->
        day_kept py_str bucket w w' day
  | Some (Db.Halted h) =>
      exists n, h = current_date + Z.of_nat n * DAY
                /\ forall day, In day (day_range current_date (S n)) ->
                               day_kept py_str bucket w w' day
  | None => False
  end.
Proof.
  assert (HDAY : DAY = 86400000000) by reflexivity.
  revert current_date w w' r.
  induction fuel as [| fuel IH]; intros cur w w' r Hfuel Hf Hnone Hrun.
  - cbn [Db.days] in Hrun. destruct (Z.leb_spec cur end_date) as [Hle | Hgt].
    + exfalso. assert (0 <= (end_date - cur) / DAY) by (apply Z.div_pos; lia). lia.
    + injection Hrun as <- <-.
      assert ((end_date - cur) / DAY < 0) by (apply Z.div_lt_upper_bound; lia).
      replace (Z.to_nat _) with 0%nat by lia. intros day [].
  - destruct (Z.le_gt_cases cur end_date) as [Hle | Hgt].
    + rewrite (days_turn py_str bucket end_date fuel cur w Hle) in Hrun. cbv zeta in Hrun.
      set (w0 := after [Print (Processing (strftime_Ymd cur))] w) in *.
      pose proof (day_calm (strftime_Ymd cur) w0) as (Hs1 & Hl1 & He1 & Hf1).
      destruct (Loader.process_articles_for_day py_str bucket (strftime_Ymd cur) w0)
        as [[[inserted duplicates] | e] w1] eqn:Hday; [| discriminate Hrun].
      cbn [snd] in Hs1, Hl1, He1, Hf1. specialize (Hf1 Hf).
      assert (day_kept py_str bucket w w1 cur) as Hcur.
      { apply (day_kept_same_bucket py_str bucket w0); [reflexivity | reflexivity |].
        intros keys ds Hlist Hprep d Hd.
        destruct (day_sends py_str bucket (strftime_Ymd cur) w0 w1 inserted duplicates
                    Hf Hday) as (keys' & evs & Hlist' & _ & Hprep' & _ & Hk).
        rewrite Hlist in Hlist'. injection Hlist' as <-.
        rewrite Hprep in Hprep'. injection Hprep' as ->.
        apply Hk; [exact Hnone | exact Hd]. }
      assert (0 <= (end_date - cur) / DAY) as Hpos by (apply Z.div_pos; lia).
      destruct (Qlt_le_dec 490 (reading w1 cur)) as [Hhigh | Hlow].
      * injection Hrun as <- <-. exists 0%nat. split; [lia |].
        rewrite day_range_step. intros day [<- | []].
        intros keys ds Hlist Hprep d Hd. destruct (Hcur keys ds Hlist Hprep d Hd)
          as (c & Hc & Hheld). exists c. split; [exact Hc | exact Hheld].
      * destruct (add_days cur 1) as [next |] eqn:Hnext; [| discriminate Hrun].
        apply add_days_one in Hnext. subst next.
        assert ((end_date - (cur + DAY)) / DAY = (end_date - cur) / DAY - 1) as Hdiv.
        { replace (end_date - (cur + DAY)) with (end_date - cur + (-1) * DAY) by lia.
          rewrite Z.div_add by lia. lia. }
        match type of Hrun with
        | Db.days _ _ _ _ _ ?w2' = _ => set (w2 := w2') in *
        end.
        pose proof (days_preserves store_grows (fun _ => True) store_grows_refl
                      store_grows_trans (fun e w _ => store_grows_after [e] w)
                      store_grows_attempt py_str store_grows_check bucket end_date fuel
                      (cur + DAY) (fun _ _ => I) w2) as Hgrow.
        rewrite Hrun in Hgrow. cbn [snd] in Hgrow.
        assert (store_grows w1 w') as Hgrow1.
        { eapply store_grows_trans; [| exact Hgrow]. apply store_grows_after. }
        apply IH in Hrun; [| lia | exact Hf1 | intros d; rewrite <- Hnone at 1;
                                               apply (f_equal (fun f => f d)) in He1;
                                               exact He1].
        assert (forall day, day_kept py_str bucket w2 w' day ->
                            day_kept py_str bucket w w' day) as Hback.
        { intros day. apply day_kept_same_bucket; [exact Hs1 | exact Hl1]. }
        assert (day_kept py_str bucket w w' cur) as Hcur'.
        { intros keys ds Hlist Hprep d Hd.
          apply (kept_grows w1 w'); [exact Hgrow1 |]. apply (Hcur keys ds Hlist Hprep d Hd). }
        destruct r as [[| h] |]; [| | exact Hrun].
        -- rewrite Hdiv in Hrun.
           replace (Z.to_nat ((end_date - cur) / DAY + 1))
             with (S (Z.to_nat ((end_date - cur) / DAY - 1 + 1))) by lia.
           rewrite day_range_step. intros day [<- | Hin]; [exact Hcur' |].
           apply Hback, Hrun, Hin.
        -- destruct Hrun as (n & Hh & Hdays). exists (S n). split; [lia |].
           rewrite (day_range_step cur (S n)). intros day [<- | Hin]; [exact Hcur' |].
           apply Hback, Hdays, Hin.
    + cbn [Db.days] in Hrun.
      replace (cur <=? end_date) with false in Hrun by (symmetry; apply Z.leb_gt; lia).
      injection Hrun as <- <-.
      assert ((end_date - cur) / DAY < 0) by (apply Z.div_lt_upper_bound; lia).
      replace (Z.to_nat _) with 0%nat by lia. intros day [].
Qed.

(** X25.  Without timeouts, and when the server refuses no document on
    its own, a run that returns leaves, under the [_id] of every document
    prepared from the archives of a day it processed (every day of the
    range when it completed, the days up to the halt, included, when it
    halted), a document held by the pipeline's collection on one of the
    three clusters: the document that was held there under that [_id]
    before the run, or a document with that [_id] that the run handed to
    [insert_many]. *)
Theorem run_stores_every_document (start_date : datetime) (w w' : World)
    (r : option Db.RunEnd) :
  faults w = [] ->
  (forall d, write_error w d = None) ->
  Db.load_articles_for_date_range py_str bucket start_date end_date w = (Ok r, w') ->
  exists evs,
    out w' = out w ++ evs
    /\ match r with
       | Some Db.Completed =>
           forall day,
             In day (day_range start_date (Z.to_nat ((end_date - start_date) / DAY + 1))) ->
             day_kept_from py_str bucket w (sent evs) w' day
       | Some (Db.Halted h) =>
           exists n, h = start_date + Z.of_nat n * DAY
                     /\ forall day, In day (day_range start_date (S n)) ->
                                    day_kept_from py_str bucket w (sent evs) w' day
       | None => False
       end.
Proof.
  intros Hf Hnone Hrun.
  pose proof (run_preserves written_from (fun _ => True) written_from_refl
                written_from_trans (fun e w _ => written_from_after [e] w)
                written_from_attempt py_str written_from_check bucket start_date end_date
                (fun _ _ => I) w) as Hfrom.
  rewrite Hrun in Hfrom. cbn [snd] in Hfrom.
  unfold Db.load_articles_for_date_range in Hrun.
  apply days_store in Hrun; [| lia | exact Hf | exact Hnone].
  destruct Hfrom as (evs & Hout & K). exists evs. split; [exact Hout |].
  assert (forall day, day_kept py_str bucket w w' day ->
                      day_kept_from py_str bucket w (sent evs) w' day) as Hday.
  { intros day Hk keys ds Hlist Hprep d Hd.
    apply (kept_origin w w' evs); [exists evs; auto | exact Hout | reflexivity |].
    apply (Hk keys ds Hlist Hprep d Hd). }
  destruct r as [[| h] |]; [| | exact Hrun].
  - intros day Hin. apply Hday, Hrun, Hin.
  - destruct Hrun as (n & Hh & Hdays). exists n. split; [exact Hh |].
    intros day Hin. apply Hday, Hdays, Hin.
Qed.

End Run.

(** ** The script *)

Section ScriptRun.

Variable py_str : json -> string.

Lemma main_unfold (w : World) :
  Script.main py_str w
  = Db.load_articles_for_date_range py_str "gdelt-peace-speech"
      (midnight 2024 1 11) (midnight 2024 10 31) w.
Proof.
  unfold Script.main, bind, lift.
  replace (Script.strptime_Ymd "20240111") with (Some (midnight 2024 1 11))
    by (vm_compute; reflexivity).
  replace (Script.strptime_Ymd "20241031") with (Some (midnight 2024 10 31))
    by (vm_compute; reflexivity).
  reflexivity.
Qed.

(** X26.  Run as a script, the notebook processes the days from 2024-01-11
    on, in order and one ETL log line each, 295 of them (through
    2024-10-31) when the run is not halted and at most as many when it is.
    The days of that range from 2024-07-01 on are in none of the
    configured windows: their storage check reads cluster1. *)
Theorem script_runs_past_the_last_window (w w' : World) (r : option Db.RunEnd) :
  Script.main py_str w = (Ok r, w') ->
  exists evs n,
    out w' = out w ++ evs
    /\ logged evs = map strftime_Ymd (day_range (midnight 2024 1 11) n)
    /\ (n <= 295)%nat
    /\ r <> None
    /\ (r = Some Db.Completed -> n = 295%nat)
    /\ (forall day, In day (day_range (midnight 2024 1 11) 295) ->
                    midnight 2024 7 1 <= day ->
                    shard_uri day = uri (cluster "cluster1")
                    /\ forall x, In x Db.CLUSTERS -> ~ covers (snd x) day).
Proof.
  intros Hrun. rewrite main_unfold in Hrun.
  unfold Db.load_articles_for_date_range in Hrun.
  assert (Hfuel : (midnight 2024 10 31 - midnight 2024 1 11) / DAY + 1
                  <= Z.of_nat (Z.to_nat ((midnight 2024 10 31 - midnight 2024 1 11) / DAY + 1)))
    by (apply Z.leb_le; vm_compute; reflexivity).
  pose proof (days_ended_as py_str "gdelt-peace-speech" (midnight 2024 10 31) _ _ _ _ _
                Hfuel Hrun) as Hend.
  apply days_logged in Hrun; [| exact Hfuel].
  destruct Hrun as (evs & Hout & Hlog).
  assert (Hn : Z.to_nat ((midnight 2024 10 31 - midnight 2024 1 11) / DAY + 1) = 295%nat)
    by (vm_compute; reflexivity).
  assert (Hlast : forall day, In day (day_range (midnight 2024 1 11) 295) ->
                    midnight 2024 7 1 <= day ->
                    shard_uri day = uri (cluster "cluster1")
                    /\ forall x, In x Db.CLUSTERS -> ~ covers (snd x) day).
  { intros day _ Hday. change (midnight 2024 7 1) with 63855388800000000 in Hday. split.
    - unfold shard_uri. rewrite cluster_for_date_closed_form.
      repeat match goal with
             | |- context [?a <=? ?b] => destruct (Z.leb_spec a b)
             end; simpl; try reflexivity; exfalso; lia.
    - intros x Hx (s & e & Hs & He & Hin).
      unfold Db.CLUSTERS in Hx. cbn [In] in Hx.
      destruct Hx as [<- | [<- | [<- | []]]]; cbn [snd start_date end_date] in Hs, He;
        vm_compute in Hs; vm_compute in He; injection Hs as <-; injection He as <-; lia. }
  destruct r as [[| h] |]; cbn [ended_as] in Hend.
  - exists evs, 295%nat. rewrite Hn in Hlog.
    split; [exact Hout |]. split; [exact Hlog |]. split; [lia |].
    split; [discriminate |]. split; [reflexivity | exact Hlast].
  - destruct Hlog as (n & Hh & Hlog). destruct Hend as (k & Hk & Hh' & Hle & _).
    exists evs, (S n). split; [exact Hout |]. split; [exact Hlog |].
    split; [| split; [discriminate | split; [discriminate | exact Hlast]]].
    assert (HDAY : DAY = 86400000000) by reflexivity.
    change (midnight 2024 10 31) with 63865929600000000 in Hle.
    change (midnight 2024 1 11) with 63840528000000000 in Hh.
    lia.
  - contradiction.
Qed.

End ScriptRun.

(** * Further worked instances *)

Lemma nothing_sent_for_two_filtered_articles :
  Mongo.insert_articles (fun _ => "")
    [JObj [("lang", JStr "FRENCH"); ("title", JStr "Tesla")];
     JObj [("lang", JStr "ENGLISH"); ("title", JStr "weather")]] quiet
  = (Ok (0, 0), quiet).
Proof.
  apply filtered_batch_is_not_sent.
  repeat (constructor; [vm_compute; reflexivity |]). constructor.
Defined.

Lemma untitled_article_aborts_batch_of_three :
  Mongo.insert_articles (fun _ => "")
    ([tesla_article "https://example.com/a"] ++ untitled_article
       :: [tesla_article "https://example.com/b"]) quiet
  = (Raise AttributeError, quiet).
Proof.
  apply malformed_article_aborts_flush.
  - constructor; [eexists; vm_compute; reflexivity | constructor].
  - vm_compute. reflexivity.
Defined.


Lemma url_with_lone_surrogate :
  let fields := [("lang", JStr "ENGLISH");
                 ("url", JStr ("https://example.com/tesla/" ++ utf8_of 0xD800)%string)] in
  Mongo.normalize (fun _ => "") (JObj fields) = Raise UnicodeEncodeError
  /\ Mongo.insert_articles (fun _ => "") ([] ++ JObj fields :: []) quiet
     = (Raise UnicodeEncodeError, quiet).
Proof.
  intros fields.
  apply (lone_surrogate_aborts_flush (fun _ => "") fields ""
           ("https://example.com/tesla/" ++ utf8_of 0xD800)%string [] [] quiet);
    [vm_compute; reflexivity | vm_compute; reflexivity | vm_compute; reflexivity
    | vm_compute; reflexivity | vm_compute; reflexivity | constructor].
Defined.

Lemma article_without_date_aborts :
  Mongo.insert_articles (fun _ => "")
    [JObj [("lang", JStr "ENGLISH"); ("url", JStr "https://example.com/tesla")]] quiet
  = (Raise TypeError, quiet)
  /\ Mongo.insert_articles (fun _ => "")
       [JObj [("lang", JStr "ENGLISH"); ("url", JStr "https://example.com/tesla");
              ("date", JStr "2024-01-11")]] quiet
     = (Raise ValueError, quiet).
Proof.
  split.
  - eapply (proj1 (unreadable_first_date_aborts_flush (fun _ => "")
                     [JObj [("lang", JStr "ENGLISH"); ("url", JStr "https://example.com/tesla")]]
                     _ _ quiet ltac:(vm_compute; reflexivity))).
    intros s. discriminate.
  - eapply (proj2 (unreadable_first_date_aborts_flush (fun _ => "")
                     [JObj [("lang", JStr "ENGLISH"); ("url", JStr "https://example.com/tesla");
                            ("date", JStr "2024-01-11")]]
                     _ _ quiet ltac:(vm_compute; reflexivity)) "2024-01-11"); reflexivity.
Defined.

Lemma identity_of_tesla_article :
  String.length (_id (tesla_doc "https://example.com/a")) = 32%nat
  /\ forallb is_hex_lower (list_ascii_of_string (_id (tesla_doc "https://example.com/a")))
     = true.
Proof.
  apply (identity_is_32_hex_digits (fun _ => "") (tesla_article "https://example.com/a")).
  vm_compute. reflexivity.
Defined.

Lemma timestamp_and_date_on_march_2 :
  Api.get_collection_for_date "2024-03-02T00:00:00Z" = Raise ValueError
  /\ Mongo.get_client_for_date (JStr "2024-03-02") quiet = (Raise ValueError, quiet).
Proof.
  split.
  - eapply (proj1 (date_formats_are_disjoint "2024-03-02T00:00:00Z" quiet)).
    vm_compute. reflexivity.
  - eapply (proj2 (date_formats_are_disjoint "2024-03-02" quiet)).
    vm_compute. reflexivity.
Defined.

Lemma layers_on_july_4 :
  Api.get_collection_for_date "2024-07-04" = Ok Api.articles3
  /\ fst (Db.get_client_for_date (midnight 2024 7 4) quiet)
     = Ok (client_of (cluster "cluster1"))
  /\ fst (Mongo.get_client_for_date (JStr "2024-07-04T00:00:00Z") quiet)
     = Ok (client_of (cluster "cluster1")).
Proof.
  destruct (layers_disagree_after_june_30 "2024-07-04" (midnight 2024 7 4)
              (midnight 2024 7 4) quiet eq_refl)
    as (H1 & H2 & H3 & _).
  - vm_compute. discriminate.
  - vm_compute. discriminate.
  - split; [exact H1 |]. split; [exact H2 |]. apply H3. vm_compute. reflexivity.
Defined.

Lemma half_a_second_before_april_27 :
  Db.get_client_for_date (midnight 2024 4 27 - 500000) quiet
  = (Ok (client_of (cluster "cluster1")), connected (uri (cluster "cluster1")) quiet).
Proof.
  apply (proj2 (instant_between_windows_goes_to_cluster1 (midnight 2024 4 27 - 500000) quiet
                  ltac:(vm_compute; split; reflexivity))).
Defined.

Lemma storage_check_on_january_12 :
  (490 < reading filling_up (midnight 2024 1 12))%Q
  /\ ~ (490 < reading filling_up (midnight 2024 1 11))%Q.
Proof.
  destruct (storage_check_reads_and_closes (midnight 2024 1 12) filling_up)
    as (_ & _ & H12 & _).
  destruct (storage_check_reads_and_closes (midnight 2024 1 11) filling_up)
    as (_ & _ & H11 & _).
  split.
  - apply H12. vm_compute. reflexivity.
  - intros H. apply H11 in H. vm_compute in H. discriminate H.
Defined.

Lemma january_and_may_in_one_batch :
  let w' := snd (Mongo.insert_articles (fun _ => "")
                   [tesla_article "https://example.com/a"; may_article] quiet) in
  is_Some (held_by w' (articles_collection (cluster "cluster1"))
             !! MD5.hexdigest "https://example.com/may")
  /\ held_by w' (articles_collection (cluster "cluster3")) = ∅.
Proof.
  intros w'.
  destruct (batch_goes_to_cluster_of_first_document (fun _ => "")
              [tesla_article "https://example.com/a"; may_article]
              (tesla_doc "https://example.com/a") [may_doc]
              (default 0 (strptime_iso "2024-01-11T00:15:00Z")) (cluster "cluster1") quiet
              ltac:(vm_compute; reflexivity) ltac:(vm_compute; reflexivity)
              ltac:(vm_compute; reflexivity) ltac:(vm_compute; discriminate))
    as (K1 & _ & K3).
  split.
  - apply (K1 may_doc); [right; left; reflexivity | reflexivity].
  - unfold w'. rewrite (K3 (articles_collection (cluster "cluster3"))); [reflexivity |].
    vm_compute. discriminate.
Defined.

Lemma two_flushes_of_one_article :
  exists counts w1 w2,
    Mongo.insert_articles (fun _ => "") [tesla_article "https://example.com/a"] quiet
    = (Ok counts, w1)
    /\ Mongo.insert_articles (fun _ => "") [tesla_article "https://example.com/a"] w1
       = (Ok (0, 1), w2)
    /\ mongo w2 = mongo w1.
Proof.
  apply (second_flush_inserts_nothing (fun _ => "") [tesla_article "https://example.com/a"]
           (tesla_doc "https://example.com/a") []
           (default 0 (strptime_iso "2024-01-11T00:15:00Z")) (cluster "cluster1") quiet);
    [vm_compute; reflexivity | vm_compute; reflexivity | vm_compute; reflexivity
    | reflexivity | intros d _; reflexivity].
Defined.

Lemma counts_of_a_flush_of_two :
  fst (Mongo.insert_articles (fun _ => "")
         [tesla_article "https://example.com/a"; tesla_article "https://example.com/b"]
         first_held) = Ok (1, 1)
  /\ (0 <= 1 /\ 0 <= 1 /\ 1 + 1 <= 2).
Proof.
  split; [vm_compute; reflexivity |].
  apply (flush_result_within_batch (fun _ => "")
           [tesla_article "https://example.com/a"; tesla_article "https://example.com/b"]
           first_held
           (snd (Mongo.insert_articles (fun _ => "")
                   [tesla_article "https://example.com/a";
                    tesla_article "https://example.com/b"] first_held))
           1 1).
  apply pair_of_fst. vm_compute. reflexivity.
Defined.

Lemma query_collection_after_a_run :
  held_by (snd (Db.load_articles_for_date_range (fun _ => "") "bucket"
                  (midnight 2024 1 11) (midnight 2024 1 11) two_archives)) Api.articles1
  = held_by two_archives Api.articles1.
Proof.
  apply (proj2 (query_collections_are_never_written (fun _ => "") "bucket"
                  (midnight 2024 1 11) (midnight 2024 1 11) "2024-01-11" Api.articles1
                  two_archives eq_refl)).
Defined.

Lemma archives_of_january_11 :
  exists keys evs,
    Loader.list_gz_files_for_day "bucket" "20240111" two_archives = (Ok keys, two_archives)
    /\ out (snd (Loader.process_articles_for_day (fun _ => "") "bucket" "20240111"
                   two_archives)) = out two_archives ++ evs
    /\ (exists later, keys = announced evs ++ later)
    /\ (forall counts, Ok (2, 0) = Ok counts -> announced evs = keys).
Proof.
  apply (archives_are_read_in_key_order (fun _ => "") "bucket" "20240111" two_archives
           (snd (Loader.process_articles_for_day (fun _ => "") "bucket" "20240111"
                   two_archives)) (Ok (2, 0))).
  apply pair_of_fst. vm_compute. reflexivity.
Defined.

Lemma log_of_the_run_that_halts :
  exists evs,
    out (snd (Db.load_articles_for_date_range (fun _ => "") "bucket"
                (midnight 2024 1 11) (midnight 2024 1 14) filling_up))
    = out filling_up ++ evs
    /\ exists n, midnight 2024 1 12 = midnight 2024 1 11 + Z.of_nat n * DAY
                 /\ logged evs = map strftime_Ymd (day_range (midnight 2024 1 11) (S n)).
Proof.
  apply (one_log_line_per_processed_day (fun _ => "") "bucket" (midnight 2024 1 14)
           (midnight 2024 1 11) filling_up
           (snd (Db.load_articles_for_date_range (fun _ => "") "bucket"
                   (midnight 2024 1 11) (midnight 2024 1 14) filling_up))
           (Some (Db.Halted (midnight 2024 1 12)))).
  apply pair_of_fst. vm_compute. reflexivity.
Defined.

Lemma counts_of_january_11 :
  exists keys,
    Loader.list_gz_files_for_day "bucket" "20240111" two_archives = (Ok keys, two_archives)
    /\ 0 <= 2 /\ 0 <= 0
    /\ 2 + 0 <= Z.of_nat (records_in usual_limits (s3 two_archives "bucket") keys).
Proof.
  apply (day_counts_within_records_read (fun _ => "") "bucket" "20240111" two_archives
           (snd (Loader.process_articles_for_day (fun _ => "") "bucket" "20240111"
                   two_archives)) 2 0).
  apply pair_of_fst. vm_compute. reflexivity.
Defined.

Lemma article_with_a_sentiment_score :
  Mongo.normalize (fun _ => "")
    (JObj [("sentiment", JInt 3); ("lang", JStr "ENGLISH");
           ("url", JStr "https://example.com/a"); ("title", JStr "Tesla rallies");
           ("date", JStr "2024-01-11T00:15:00Z")])
  = Mongo.normalize (fun _ => "") (tesla_article "https://example.com/a").
Proof.
  apply other_fields_do_not_matter.
  intros key [<- | [<- | [<- | [<- | [<- | []]]]]]; reflexivity.
Defined.

Lemma documents_of_january_11 :
  exists keys evs,
    Loader.list_gz_files_for_day "bucket" "20240111" two_archives = (Ok keys, two_archives)
    /\ out (snd (Loader.process_articles_for_day (fun _ => "") "bucket" "20240111"
                   two_archives)) = out two_archives ++ evs
    /\ Mongo.prepare (fun _ => "") (day_records usual_limits (s3 two_archives "bucket") keys) []
       = Ok (sent evs)
    /\ 2 + 0 = Z.of_nat (List.length (sent evs)).
Proof.
  apply (day_sends_every_document_once (fun _ => "") "bucket" "20240111" two_archives
           (snd (Loader.process_articles_for_day (fun _ => "") "bucket" "20240111"
                   two_archives)) 2 0 eq_refl).
  apply pair_of_fst. vm_compute. reflexivity.
Defined.

Lemma january_11_documents_are_kept :
  exists keys ds,
    Loader.list_gz_files_for_day "bucket" "20240111" two_archives = (Ok keys, two_archives)
    /\ Mongo.prepare (fun _ => "") (day_records usual_limits (s3 two_archives "bucket") keys) []
       = Ok ds
    /\ forall d, In d ds ->
         let w' := snd (Loader.process_articles_for_day (fun _ => "") "bucket" "20240111"
                          two_archives) in
         kept_from two_archives ds w' d
         /\ (unknown two_archives d -> only_one ds d ->
             exists c, In c (map snd Mongo.CLUSTERS)
                       /\ held_by w' (articles_collection c) !! _id d = Some d).
Proof.
  apply (day_stores_every_document (fun _ => "") "bucket" "20240111" two_archives
           (snd (Loader.process_articles_for_day (fun _ => "") "bucket" "20240111"
                   two_archives)) 2 0 eq_refl (fun _ => eq_refl)).
  apply pair_of_fst. vm_compute. reflexivity.
Defined.

Lemma run_over_january_11 :
  exists evs,
    out (snd (Db.load_articles_for_date_range (fun _ => "") "bucket"
                (midnight 2024 1 11) (midnight 2024 1 11) two_archives))
    = out two_archives ++ evs
    /\ forall day,
         In day (day_range (midnight 2024 1 11)
                   (Z.to_nat ((midnight 2024 1 11 - midnight 2024 1 11) / DAY + 1))) ->
         day_kept_from (fun _ => "") "bucket" two_archives (sent evs)
           (snd (Db.load_articles_for_date_range (fun _ => "") "bucket"
                   (midnight 2024 1 11) (midnight 2024 1 11) two_archives)) day.
Proof.
  apply (run_stores_every_document (fun _ => "") "bucket" (midnight 2024 1 11)
           (midnight 2024 1 11) two_archives
           (snd (Db.load_articles_for_date_range (fun _ => "") "bucket"
                   (midnight 2024 1 11) (midnight 2024 1 11) two_archives))
           (Some Db.Completed) eq_refl (fun _ => eq_refl)).
  apply pair_of_fst. vm_compute. reflexivity.
Defined.

Lemma script_on_a_filling_cluster :
  exists evs n,
    out (snd (Script.main (fun _ => "") filling_up)) = out filling_up ++ evs
    /\ logged evs = map strftime_Ymd (day_range (midnight 2024 1 11) n)
    /\ (n <= 295)%nat
    /\ Some (Db.Halted (midnight 2024 1 12)) <> None
    /\ (Some (Db.Halted (midnight 2024 1 12)) = Some Db.Completed -> n = 295%nat)
    /\ (forall day, In day (day_range (midnight 2024 1 11) 295) ->
                    midnight 2024 7 1 <= day ->
                    shard_uri day = uri (cluster "cluster1")
                    /\ forall x, In x Db.CLUSTERS -> ~ covers (snd x) day).
Proof.
  apply (script_runs_past_the_last_window (fun _ => "") filling_up
           (snd (Script.main (fun _ => "") filling_up))
           (Some (Db.Halted (midnight 2024 1 12)))).
  apply pair_of_fst. vm_compute. reflexivity.
Defined.
